(** * Request lifecycle, result dispatch and shutdown of the Td façade

    A shallow embedding of the request-lifecycle core of
    [td/telegram/Td.cpp]: the retrying request executors
    ([RequestActor], [RequestOnceActor]), the result-handler table
    ([add_handler], [extract_handler], [Td::on_result]), the admission
    gate ([Td::request]) and the two-counter shutdown controller
    ([close_impl], [dec_request_actor_refcnt], [clear],
    [dec_actor_refcnt]).

    The façade is an actor: it owns its fields and handles one message
    at a time.  Each member function is therefore a state transformer
    over the record [Td]; what it does to the outside world (the client
    callback, the alarm timer, collaborators, messages to other actors)
    is recorded as a list of [Event]s, in program order. *)

From stdpp Require Import gmap strings list.
From Stdlib Require Import ZArith.
From Stdlib Require PrimFloat DecimalString.

(** ** Plain data *)

(** [td::Status] as far as this file observes it: an error code and a
    message.  [Status::OK()] is the absence of an error ([option]). *)
Record Status := mkStatus { status_code : Z; status_message : string }.

#[global] Instance Status_eq_dec : EqDecision Status.
Proof. solve_decision. Defined.

(** The part of the [td_api] schema the core mentions by name. *)
Module td_api.

Record tdlibParameters := {
  use_test_dc_ : bool;
  database_directory_ : string;
  files_directory_ : string;
  api_id_ : Z;
  api_hash_ : string
}.

Inductive Object :=
| ok
| error (code : Z) (message : string)
| authorizationStateWaitTdlibParameters
| authorizationStateWaitEncryptionKey (is_encrypted : bool)
| authorizationStateClosing
| authorizationStateClosed
| updateAuthorizationState (authorization_state : Object)
| updateOptionEmpty (name : string)
| other_object (constructor_id : Z).

Inductive Function :=
| getAuthorizationState
| setTdlibParameters (parameters : tdlibParameters)
| checkDatabaseEncryptionKey (encryption_key : string)
| setDatabaseEncryptionKey (new_encryption_key : string)
| close
| destroy
| other_function (constructor_id : Z).

End td_api.

(** A query answered by the network layer: [query->id()] and either
    [query->ok()] with its constructor or [query->error()].
    [Td::on_result] is handed answered queries only, so the two ready
    states are the ones modelled. *)
Inductive NetQueryAnswer :=
| net_ok (ok_tl_constructor : Z) (packet : string)
| net_error (status : Status).

Record NetQuery := mkNetQuery { query_id : N; query_answer : NetQueryAnswer }.

Definition query_is_ok (q : NetQuery) : bool :=
  match query_answer q with net_ok _ _ => true | net_error _ => false end.

(** A [std::shared_ptr<ResultHandler>] is known by the object it
    points to. *)
Definition Handler := nat.

Inductive State := WaitParameters | Decrypt | Run | Close.

Record AuthManager := { is_authorized : bool; is_bot : bool }.

Inductive LogLevel := FATAL | ERROR | WARNING | INFO | DEBUG.

(** Messages the façade posts to its own mailbox. *)
Inductive Closure :=
| closure_send_result (id : N) (object : td_api.Object)
| closure_send_error (id : N) (error : Status)
| closure_dec_request_actor_refcnt.

Inductive Event :=
| callback_on_result (id : N) (object : td_api.Object)
| callback_on_error (id : N) (code : Z) (message : string)
| callback_on_closed
| LOG (level : LogLevel) (message : string)
| alarm_cancel_timeout (key : Z)
| send_closure_self (later : bool) (c : Closure)
| reset (member : string)
| global (call : string)
| handler_on_result (h : Handler) (id : N) (packet : string)
| handler_on_error (h : Handler) (id : N) (status : Status)
| updates_manager (call : string)
| on_request_call (id : N) (function : td_api.Function)
| actor_stop.

(** ** The façade's fields

    The fields are declared in [Td.h]; their types are read off their
    uses in [Td.cpp].  [request_set_] is used through [insert], [erase],
    [empty] and [begin] only, as a set of ids; [result_handlers_]
    through [emplace_back], indexing and [erase], as a vector of pairs.
    [auth_manager_] is the owning pointer, empty after stage 3. *)

Record Td := mkTd {
  state_ : State;
  close_flag_ : Z;
  destroy_flag_ : bool;
  request_set_ : gset N;
  result_handlers_ : list (N * Handler);
  request_actor_refcnt_ : Z;
  actor_refcnt_ : Z;
  stop_cnt_ : Z;
  is_online_ : bool;
  auth_manager_ : option AuthManager;
  encryption_info_is_encrypted : bool;
  shared_config_options : list string
}.

Definition set_state_ (v : State) (td : Td) : Td :=
  mkTd v (close_flag_ td) (destroy_flag_ td) (request_set_ td)
       (result_handlers_ td) (request_actor_refcnt_ td) (actor_refcnt_ td)
       (stop_cnt_ td) (is_online_ td) (auth_manager_ td)
       (encryption_info_is_encrypted td) (shared_config_options td).

Definition set_close_flag_ (v : Z) (td : Td) : Td :=
  mkTd (state_ td) v (destroy_flag_ td) (request_set_ td)
       (result_handlers_ td) (request_actor_refcnt_ td) (actor_refcnt_ td)
       (stop_cnt_ td) (is_online_ td) (auth_manager_ td)
       (encryption_info_is_encrypted td) (shared_config_options td).

Definition set_destroy_flag_ (v : bool) (td : Td) : Td :=
  mkTd (state_ td) (close_flag_ td) v (request_set_ td)
       (result_handlers_ td) (request_actor_refcnt_ td) (actor_refcnt_ td)
       (stop_cnt_ td) (is_online_ td) (auth_manager_ td)
       (encryption_info_is_encrypted td) (shared_config_options td).

Definition set_request_set_ (v : gset N) (td : Td) : Td :=
  mkTd (state_ td) (close_flag_ td) (destroy_flag_ td) v
       (result_handlers_ td) (request_actor_refcnt_ td) (actor_refcnt_ td)
       (stop_cnt_ td) (is_online_ td) (auth_manager_ td)
       (encryption_info_is_encrypted td) (shared_config_options td).

Definition set_result_handlers_ (v : list (N * Handler)) (td : Td) : Td :=
  mkTd (state_ td) (close_flag_ td) (destroy_flag_ td) (request_set_ td)
       v (request_actor_refcnt_ td) (actor_refcnt_ td)
       (stop_cnt_ td) (is_online_ td) (auth_manager_ td)
       (encryption_info_is_encrypted td) (shared_config_options td).

Definition set_request_actor_refcnt_ (v : Z) (td : Td) : Td :=
  mkTd (state_ td) (close_flag_ td) (destroy_flag_ td) (request_set_ td)
       (result_handlers_ td) v (actor_refcnt_ td)
       (stop_cnt_ td) (is_online_ td) (auth_manager_ td)
       (encryption_info_is_encrypted td) (shared_config_options td).

Definition set_actor_refcnt_ (v : Z) (td : Td) : Td :=
  mkTd (state_ td) (close_flag_ td) (destroy_flag_ td) (request_set_ td)
       (result_handlers_ td) (request_actor_refcnt_ td) v
       (stop_cnt_ td) (is_online_ td) (auth_manager_ td)
       (encryption_info_is_encrypted td) (shared_config_options td).

Definition set_stop_cnt_ (v : Z) (td : Td) : Td :=
  mkTd (state_ td) (close_flag_ td) (destroy_flag_ td) (request_set_ td)
       (result_handlers_ td) (request_actor_refcnt_ td) (actor_refcnt_ td)
       v (is_online_ td) (auth_manager_ td)
       (encryption_info_is_encrypted td) (shared_config_options td).

Definition set_is_online_ (v : bool) (td : Td) : Td :=
  mkTd (state_ td) (close_flag_ td) (destroy_flag_ td) (request_set_ td)
       (result_handlers_ td) (request_actor_refcnt_ td) (actor_refcnt_ td)
       (stop_cnt_ td) v (auth_manager_ td)
       (encryption_info_is_encrypted td) (shared_config_options td).

Definition set_auth_manager_ (v : option AuthManager) (td : Td) : Td :=
  mkTd (state_ td) (close_flag_ td) (destroy_flag_ td) (request_set_ td)
       (result_handlers_ td) (request_actor_refcnt_ td) (actor_refcnt_ td)
       (stop_cnt_ td) (is_online_ td) v
       (encryption_info_is_encrypted td) (shared_config_options td).

(** ** The monad of member functions

    A member function runs on the current fields and either returns
    ([Done]), dies in a failed [CHECK] or [UNREACHABLE] ([Fatal]: the
    process is aborted), or exhausts the fuel of a [while] loop
    ([Diverge]).  The events emitted up to that point are kept in all
    three cases. *)

Inductive Outcome (A : Type) :=
| Done (a : A) (td : Td)
| Fatal (what : string)
| Diverge.
Arguments Done {A} a td.
Arguments Fatal {A} what.
Arguments Diverge {A}.

Definition M (A : Type) : Type := Td → list Event * Outcome A.

#[global] Instance M_ret : MRet M := λ A a td, ([], Done a td).

#[global] Instance M_bind : MBind M := λ A B f m td,
  match m td with
  | (ev, Done a td') => let '(ev', r) := f a td' in (ev ++ ev', r)
  | (ev, Fatal w) => (ev, Fatal w)
  | (ev, Diverge) => (ev, Diverge)
  end.

Definition emit (e : Event) : M unit := λ td, ([e], Done tt td).
Definition get : M Td := λ td, ([], Done td td).
Definition modify (f : Td → Td) : M unit := λ td, ([], Done tt (f td)).
Definition fatal {A} (what : string) : M A := λ td, ([], Fatal what).
Definition diverge {A} : M A := λ td, ([], Diverge).
Definition skip : M unit := mret tt.

(** Modelled from the spec: the macro [CHECK] is defined in tdutils,
    outside this file's source.  It is the failed precondition of the
    spec ("fails a precondition", "must fail fatally"): compiled in
    unconditionally, it aborts the process when the condition is
    false. *)
Definition CHECK (condition : bool) (what : string) : M unit :=
  if condition then skip else fatal what.

(** ** Answering the client *)

Definition uint64_is_zero (id : N) : bool := (id =? 0)%N.

(** [request_set_.erase(id)]: the number of elements removed, as the
    truth value the callers test. *)
Definition request_set_erase (id : N) : M bool :=
  td ← get;
  if decide (id ∈ request_set_ td)
  then modify (set_request_set_ (request_set_ td ∖ {[id]}));; mret true
  else mret false.

Definition send_result (id : N) (object : option td_api.Object) : M unit :=
  (if uint64_is_zero id
   then emit (LOG ERROR "Sending object through send_result") else skip);;
  deliver ← (if uint64_is_zero id then mret true else request_set_erase id);
  if deliver : bool
  then emit (callback_on_result id
               (default (td_api.error 404 "Not Found") object))
  else skip.

(** [callback_] is the client callback the façade was constructed with
    and [error] is always a freshly made object at the call sites, so
    the second and third [CHECK] hold; the first is on the argument. *)
Definition send_error_impl (id : N) (code : Z) (message : string) : M unit :=
  CHECK (negb (uint64_is_zero id)) "id != 0";;
  erased ← request_set_erase id;
  if erased : bool then emit (callback_on_error id code message) else skip.

Definition send_error (id : N) (error : Status) : M unit :=
  send_error_impl id (status_code error) (status_message error).

Definition send_error_raw (id : N) (code : Z) (error : string) : M unit :=
  send_error_impl id code error.

Definition send_update (object : td_api.Object) : M unit :=
  emit (callback_on_result 0 object).

Definition answer_ok_query (id : N) (status : option Status) : M unit :=
  match status with
  | Some e => emit (send_closure_self false (closure_send_error id e))
  | None => emit (send_closure_self false (closure_send_result id td_api.ok))
  end.

(** ** The result-handler table *)

(** [result_handlers_.emplace_back(id, handler)]. *)
Definition add_handler (id : N) (handler : Handler) : M unit :=
  modify (λ td, set_result_handlers_ (result_handlers_ td ++ [(id, handler)]) td).

(** The scan of [extract_handler]: the first entry whose key is [id] is
    moved out and erased, and the scan stops there. *)
Fixpoint extract_first (id : N) (l : list (N * Handler))
  : option Handler * list (N * Handler) :=
  match l with
  | [] => (None, [])
  | (k, h) :: rest =>
      if (k =? id)%N then (Some h, rest)
      else let '(r, rest') := extract_first id rest in (r, (k, h) :: rest')
  end.

Definition extract_handler (id : N) : M (option Handler) :=
  td ← get;
  let '(result, rest) := extract_first id (result_handlers_ td) in
  modify (set_result_handlers_ rest);;
  mret result.

(** [invalidate_handler] erases every entry that points to [handler]. *)
Definition invalidate_handler (handler : Handler) : M unit :=
  modify (λ td, set_result_handlers_
                  (filter (λ e, e.2 ≠ handler) (result_handlers_ td)) td).

Definition clear_handlers : M unit := modify (set_result_handlers_ []).

(** [Td::ResultHandler::send_query]: register, then hand the query to
    the dispatcher. *)
Definition ResultHandler_send_query (h : Handler) (id : N) : M unit :=
  add_handler id h;;
  emit (global "net_query_dispatcher.dispatch").

(** [Td::ResultHandler::on_result(NetQueryPtr)]: the query is ready, so
    the [CHECK] holds; the answer chooses the virtual entry point. *)
Definition ResultHandler_on_result (h : Handler) (query : NetQuery) : M unit :=
  match query_answer query with
  | net_ok _ packet => emit (handler_on_result h (query_id query) packet)
  | net_error status => emit (handler_on_error h (query_id query) status)
  end.

(** ** Reference counts and shutdown stages

    The counters are C++ [int]s; they are modelled on [Z] (the source
    never brings them near the limits of the type). *)

Definition emit_all (es : list Event) : M unit :=
  foldr (λ e k, emit e;; k) skip es.
Arguments emit_all : simpl never.

Definition inc_actor_refcnt : M unit :=
  modify (λ td, set_actor_refcnt_ (actor_refcnt_ td + 1) td).

(** [create_reference] returns an [ActorShared<Td>] tagged
    [ActorIdType]; its effect on the façade is the increment. *)
Definition create_reference : M unit := inc_actor_refcnt.

Definition inc_request_actor_refcnt : M unit :=
  modify (λ td, set_request_actor_refcnt_ (request_actor_refcnt_ td + 1) td).

Definition dec_stop_cnt : M unit :=
  modify (λ td, set_stop_cnt_ (stop_cnt_ td - 1) td);;
  td ← get;
  if (stop_cnt_ td =? 0)%Z then emit actor_stop else skip.

Definition managers_cleared_on_actors_closed : list string :=
  ["animations_manager_"; "audios_manager_"; "auth_manager_";
   "change_phone_number_manager_"; "contacts_manager_";
   "documents_manager_"; "file_manager_"; "inline_queries_manager_";
   "messages_manager_"; "stickers_manager_"; "updates_manager_";
   "video_notes_manager_"; "videos_manager_"; "voice_notes_manager_";
   "web_pages_manager_"].

Definition dec_actor_refcnt : M unit :=
  modify (λ td, set_actor_refcnt_ (actor_refcnt_ td - 1) td);;
  td ← get;
  if (actor_refcnt_ td =? 0)%Z then
    if (close_flag_ td =? 2)%Z then
      create_reference;;
      modify (set_close_flag_ 3)
    else if (close_flag_ td =? 3)%Z then
      emit (LOG WARNING "ON_ACTORS_CLOSED");;
      emit_all (reset <$> managers_cleared_on_actors_closed);;
      modify (set_auth_manager_ None);;
      create_reference;;
      (if destroy_flag_ td
       then emit (global "close_and_destroy_all")
       else emit (global "close_all"));;
      modify (set_close_flag_ 4)
    else if (close_flag_ td =? 4)%Z then
      emit (LOG WARNING "ON_CLOSED");;
      modify (set_close_flag_ 5);;
      send_update (td_api.updateAuthorizationState
                     td_api.authorizationStateClosed);;
      emit callback_on_closed;;
      dec_stop_cnt
    else fatal "UNREACHABLE"
  else skip.

(** [static_cast<int64>(id)] on a [uint64]. *)
Definition static_cast_int64 (id : N) : Z :=
  let z := (Z.of_N id mod 2 ^ 64)%Z in
  if (z <? 2 ^ 63)%Z then z else (z - 2 ^ 64)%Z.

(** The [while (!request_set_.empty())] loop of [clear].  The set is
    unordered; [begin()] is modelled as the head of [elements].  The
    loop only ends because each answer erases the id it is sent for,
    hence the fuel. *)
Fixpoint answer_pending (fuel : nat) : M unit :=
  td ← get;
  match elements (request_set_ td) with
  | [] => skip
  | id :: _ =>
      match fuel with
      | O => diverge
      | S fuel' =>
          (if destroy_flag_ td
           then send_error_raw id 401 "Unauthorized"
           else send_error_raw id 500 "Internal Server Error: closing");;
          emit (alarm_cancel_timeout (static_cast_int64 id));;
          answer_pending fuel'
      end
  end.

Definition options_kept_on_destroy : list string :=
  ["rating_e_decay"; "saved_animations_limit"; "call_receive_timeout_ms";
   "call_ring_timeout_ms"; "channels_read_media_period"; "auth"].

Definition clear_options : M unit :=
  td ← get;
  emit_all ((λ name, callback_on_result 0 (td_api.updateOptionEmpty name))
              <$> filter (λ name, name ∉ options_kept_on_destroy)
                         (shared_config_options td)).

Definition pure_actors_cleared : list string :=
  ["call_manager_"; "config_manager_"; "device_token_manager_";
   "hashtag_hints_"; "net_stats_manager_"; "password_manager_";
   "privacy_manager_"; "secret_chats_manager_"; "storage_manager_";
   "top_dialog_manager_"; "connection_creator";
   "animations_manager_actor_"; "auth_manager_actor_";
   "change_phone_number_manager_actor_"; "contacts_manager_actor_";
   "file_manager_actor_"; "inline_queries_manager_actor_";
   "messages_manager_actor_"; "stickers_manager_actor_";
   "updates_manager_actor_"; "web_pages_manager_actor_"].

Definition clear : M unit :=
  td ← get;
  if (2 <=? close_flag_ td)%Z then skip else
  modify (set_close_flag_ 2);;
  (if destroy_flag_ td then clear_options else skip);;
  emit (global "net_query_creator.stop_check");;
  clear_handlers;;
  emit (global "net_query_dispatcher.stop");;
  emit (reset "state_manager_");;
  answer_pending (size (request_set_ td));;
  (if is_online_ td
   then modify (set_is_online_ false);; emit (alarm_cancel_timeout 0)
   else skip);;
  emit_all (reset <$> pure_actors_cleared).

Definition dec_request_actor_refcnt : M unit :=
  modify (λ td, set_request_actor_refcnt_ (request_actor_refcnt_ td - 1) td);;
  td ← get;
  if (request_actor_refcnt_ td =? 0)%Z then
    emit (LOG WARNING "no request actors");;
    clear;;
    dec_actor_refcnt
  else skip.

Definition State_is_Decrypt (s : State) : bool :=
  match s with Decrypt => true | _ => false end.

Definition close_impl (destroy_flag : bool) : M unit :=
  modify (λ td, set_destroy_flag_ (destroy_flag_ td || destroy_flag) td);;
  td ← get;
  if negb (close_flag_ td =? 0)%Z then skip else
  if State_is_Decrypt (state_ td) then
    (if destroy_flag then emit (global "TdDb::destroy") else skip);;
    modify (set_state_ Close);;
    modify (set_close_flag_ 4);;
    dec_actor_refcnt
  else
    modify (set_state_ Close);;
    modify (set_close_flag_ 1);;
    emit (global "set_close_flag");;
    emit (global "AuthManager::on_closing");;
    emit (LOG WARNING "Close");;
    emit (reset "request_actors_");;
    emit (global "td_db.flush_all");;
    emit (send_closure_self true closure_dec_request_actor_refcnt).

Definition close : M unit := close_impl false.
Definition destroy : M unit := close_impl true.

(** ** Entry points that reach collaborators outside this file

    [telegram_api::upload_file::ID] is a schema constant;
    [telegram_api::Updates::fetch], [Td::set_td_parameters] (file system
    and database probing), [Td::init] (bring-up of every manager) and the
    per-operation [on_request] overloads are the façade's surroundings.
    They are taken as given. *)
Module Facade.
Section Facade.

Variable upload_file_ID : Z.
Variable Updates_fetch_ok : string → bool.
Variable set_td_parameters : td_api.tdlibParameters → M (option Status).
Variable init : string → M (option Status).
Variable on_request : N → td_api.Function → M unit.

(** [NetQuery] is declared in [td/telegram/net/NetQuery.h].  What
    [is_ok()] and [ok_tl_constructor()] return on a query on which
    [clear()] has been called is taken as given. *)
Variable cleared_is_ok : NetQuery → bool.
Variable cleared_ok_tl_constructor : NetQuery → Z.

Definition as_db_key (key : string) : string :=
  if decide (key = "") then "cucumber" else key.

(** The [LOG_IF] condition of [Td::on_result] for an answer without a
    handler, [!query->is_ok() || query->ok_tl_constructor() !=
    telegram_api::upload_file::ID].  It is evaluated after
    [query->clear()], on the cleared query. *)
Definition ignored_is_logged (query : NetQuery) : bool :=
  negb (cleared_is_ok query)
  || negb (cleared_ok_tl_constructor query =? upload_file_ID)%Z.

(** [Td::on_result].  The [query->clear()] calls of the update branch
    and of [ResultHandler::on_result] are the last use of the query;
    the one of the branch without a handler comes before the condition
    of [LOG_IF] is read. *)
Definition on_result (query : NetQuery) : M unit :=
  td ← get;
  if (1 <? close_flag_ td)%Z then skip else
  if uint64_is_zero (query_id query) then
    match query_answer query with
    | net_error _ =>
        emit (updates_manager "schedule_get_difference");;
        emit (LOG ERROR "Error in update")
    | net_ok _ packet =>
        if Updates_fetch_ok packet
        then emit (updates_manager "on_get_updates")
        else emit (LOG ERROR "Failed to fetch update");;
             emit (updates_manager "schedule_get_difference")
    end
  else
    handler ← extract_handler (query_id query);
    match handler with
    | None =>
        if ignored_is_logged query
        then emit (LOG WARNING "NetQuery is ignored: no handlers found")
        else skip
    | Some h => ResultHandler_on_result h query
    end.

Definition request (id : N) (function : option td_api.Function) : M unit :=
  modify (λ td, set_request_set_ ({[id]} ∪ request_set_ td) td);;
  if uint64_is_zero id then
    emit (LOG ERROR "Receive request with id == 0");;
    send_error_raw id 400 "Wrong request id == 0"
  else
  match function with
  | None =>
      emit (LOG ERROR "Receive empty request");;
      send_error_raw id 400 "Request is empty"
  | Some f =>
      td ← get;
      match state_ td with
      | WaitParameters =>
          match f with
          | td_api.getAuthorizationState =>
              send_result id (Some td_api.authorizationStateWaitTdlibParameters)
          | td_api.setTdlibParameters parameters =>
              status ← set_td_parameters parameters;
              answer_ok_query id status
          | _ => send_error_raw id 401 "Initialization parameters are needed"
          end
      | Decrypt =>
          match f with
          | td_api.getAuthorizationState =>
              send_result id
                (Some (td_api.authorizationStateWaitEncryptionKey
                         (encryption_info_is_encrypted td)))
          | td_api.checkDatabaseEncryptionKey encryption_key =>
              status ← init (as_db_key encryption_key);
              answer_ok_query id status
          | td_api.setDatabaseEncryptionKey new_encryption_key =>
              status ← init (as_db_key new_encryption_key);
              answer_ok_query id status
          | td_api.close => close
          | td_api.destroy => destroy
          | _ => send_error_raw id 401 "Database encryption key is needed"
          end
      | Close =>
          match f with
          | td_api.getAuthorizationState =>
              if (close_flag_ td =? 5)%Z
              then send_result id (Some td_api.authorizationStateClosed)
              else send_result id (Some td_api.authorizationStateClosing)
          | _ => send_error_raw id 401 "Unauthorized"
          end
      | Run =>
          emit (on_request_call id f);;
          on_request id f
      end
  end.

(** [Td::on_alarm_timeout] for a request id: the delayed "ok". *)
Definition on_alarm_timeout_request (request_id : N) : M unit :=
  send_result request_id (Some td_api.ok).

End Facade.
End Facade.

(** ** Request executors

    [RequestActor<T>] keeps the retry counter and the future it waits
    on.  Its virtual members ([do_run], [do_set_result],
    [do_send_result], [do_send_error]) belong to the per-operation
    subclasses; the executor is described by the sequence of calls it
    makes to them and to the actor runtime.  What [do_run] did to the
    fresh promise is seen by [loop] as the state of the future when
    [do_run] returns, and is an argument of the model. *)
Module Executor.
Section Executor.

Context {T : Type}.

(** [Status::Hangup()], the static status a dropped promise leaves in
    its future. *)
Variable Hangup : Status.

Inductive FutureActor :=
| future_waiting
| future_ok (value : T)
| future_error (error : Status).

Inductive Call :=
| do_run_call (tries : Z)
| do_set_result_call (result : T)
| do_send_result_call
| do_send_error_call (status : Status)
| future_close_call
| future_set_event_call
| LOG_call (level : LogLevel) (message : string)
| stop_call.

Record RequestActor := mkRequestActor {
  request_id_ : N;
  tries_left_ : Z;
  future_ : FutureActor;
  stopped : bool
}.

(** The state a freshly constructed executor starts from:
    [int tries_left_ = 2]. *)
Definition RequestActor_new (request_id : N) : RequestActor :=
  mkRequestActor request_id 2 future_waiting false.

Definition get_tries (a : RequestActor) : Z := tries_left_ a.

(** [set_tries(int32 tries)]. *)
Definition set_tries (tries : Z) (a : RequestActor) : RequestActor :=
  mkRequestActor (request_id_ a) tries (future_ a) (stopped a).

Definition set_future_ (f : FutureActor) (a : RequestActor) : RequestActor :=
  mkRequestActor (request_id_ a) (tries_left_ a) f (stopped a).

Definition stop (a : RequestActor) : RequestActor :=
  mkRequestActor (request_id_ a) (tries_left_ a) (future_ a) true.

(** [--tries_left_] on a 32-bit [int], wrapping as two's complement
    hardware does. *)
Definition pre_decrement (tries : Z) : Z :=
  ((tries - 1 + 2 ^ 31) mod 2 ^ 32 - 2 ^ 31)%Z.

Definition unaccessible : Status :=
  mkStatus 400 "Requested data is unaccessible".

(** [RequestActor::loop]; [run] is the state of the fresh future
    after [do_run] has returned. *)
Definition RequestActor_loop (run : FutureActor) (a : RequestActor)
  : RequestActor * list Call :=
  match run with
  | future_error error =>
      (stop a, [do_run_call (get_tries a); do_send_error_call error; stop_call])
  | future_ok value =>
      (stop a, [do_run_call (get_tries a); do_set_result_call value;
                do_send_result_call; stop_call])
  | future_waiting =>
      let a' := set_tries (pre_decrement (tries_left_ a)) a in
      if (tries_left_ a' =? 0)%Z
      then (stop a', [do_run_call (get_tries a); future_close_call;
                      do_send_error_call unaccessible; stop_call])
      else (set_future_ future_waiting a',
            [do_run_call (get_tries a); future_set_event_call])
  end.

(** [RequestOnceActor::loop]. *)
Definition RequestOnceActor_loop (run : FutureActor) (a : RequestActor)
  : RequestActor * list Call :=
  if (get_tries a <? 2)%Z
  then (stop a, [do_send_result_call; stop_call])
  else RequestActor_loop run a.

(** Which [loop] the virtual call in [raw_event] reaches. *)
Inductive Class := Retrying | Once.

Definition loop (c : Class) : FutureActor → RequestActor → RequestActor * list Call :=
  match c with
  | Retrying => RequestActor_loop
  | Once => RequestOnceActor_loop
  end.

(** [td->auth_manager_ && td->auth_manager_->is_authorized()]. *)
Definition td_is_authorized (td : Td) : bool :=
  match auth_manager_ td with
  | Some auth_manager => is_authorized auth_manager
  | None => false
  end.

Definition internal_bug : Status :=
  mkStatus 500 "Query can't be answered due to bug in the TDLib".

Definition unauthorized : Status := mkStatus 401 "Unauthorized".

(** [RequestActor::raw_event].  The event is raised by [future_] when
    it becomes ready, so a waiting future has no case here ([None]).
    [run] is what [do_run] does in the [loop] called at the end. *)
Definition raw_event (c : Class) (td : Td) (run : FutureActor) (a : RequestActor)
  : option (RequestActor * list Call) :=
  match future_ a with
  | future_error error =>
      if decide (error = Hangup) then
        if td_is_authorized td
        then Some (stop a, [LOG_call ERROR "Promise was lost";
                            do_send_error_call internal_bug; stop_call])
        else Some (stop a, [do_send_error_call unauthorized; stop_call])
      else Some (stop a, [do_send_error_call error; stop_call])
  | future_ok value =>
      let '(a', calls) := loop c run a in
      Some (a', do_set_result_call value :: calls)
  | future_waiting => None
  end.

(** [RequestActor::hangup]. *)
Definition hangup (a : RequestActor) : RequestActor * list Call :=
  (stop a, [do_send_error_call (mkStatus 500 "Request aborted"); stop_call]).

(** *** Driving an executor

    After the first [loop], the executor is woken each time the
    promise it handed out is fulfilled.  A [Wake] is one such round:
    the façade as it is then, how the promise was resolved, and what
    [do_run] does if [loop] is entered again. *)
Record Wake := mkWake {
  wake_td : Td;
  wake_result : T + Status;
  wake_run : FutureActor
}.

Definition resolve (r : T + Status) (a : RequestActor) : RequestActor :=
  set_future_ (match r with inl v => future_ok v | inr e => future_error e end) a.

Fixpoint resume (c : Class) (wakes : list Wake) (a : RequestActor)
  : RequestActor * list Call :=
  match wakes with
  | [] => (a, [])
  | w :: wakes' =>
      if stopped a then (a, [])
      else match raw_event c (wake_td w) (wake_run w) (resolve (wake_result w) a) with
           | Some (a', calls) =>
               let '(a'', calls') := resume c wakes' a' in (a'', calls ++ calls')
           | None => (a, [])
           end
  end.

Definition start (c : Class) (run : FutureActor) (wakes : list Wake) (a : RequestActor)
  : RequestActor * list Call :=
  let '(a', calls) := loop c run a in
  let '(a'', calls') := resume c wakes a' in
  (a'', calls ++ calls').

(** Rounds in which the promise of the previous pass is fulfilled with
    a value and [do_run] again leaves its fresh promise unresolved. *)
Definition unresolved_round (w : Td * T) : Wake :=
  mkWake w.1 (inl w.2) future_waiting.

Definition never_resolving (rounds : list (Td * T)) : list Wake :=
  unresolved_round <$> rounds.

Definition is_do_run (c : Call) : bool :=
  match c with do_run_call _ => true | _ => false end.

Definition is_terminal (c : Call) : bool :=
  match c with
  | do_send_result_call | do_send_error_call _ => true
  | _ => false
  end.

Definition count (p : Call → bool) (calls : list Call) : nat :=
  length (filter (λ c, p c = true) calls).

(** How many more calls of [do_run] the counter of a one-shot
    executor allows. *)
Definition runs_allowed (a : RequestActor) : nat :=
  if stopped a then 0 else Z.to_nat (tries_left_ a - 1).

End Executor.
End Executor.

Arguments Executor.count {T} p calls : simpl never.
Arguments Executor.runs_allowed {T} a : simpl never.

(** ** Observations used in the statements *)

(** A terminal response for [id] at the client callback. *)
Definition terminal_for (id : N) (e : Event) : bool :=
  match e with
  | callback_on_result id' _ => (id' =? id)%N
  | callback_on_error id' _ _ => (id' =? id)%N
  | _ => false
  end.

Definition terminal_responses (id : N) (evs : list Event) : list Event :=
  filter (λ e, terminal_for id e = true) evs.

(** A result or an error handed to the façade for delivery. *)
Inductive Delivery :=
| deliver_result (id : N) (object : option td_api.Object)
| deliver_error (id : N) (code : Z) (message : string).

Definition delivery_id (d : Delivery) : N :=
  match d with deliver_result id _ | deliver_error id _ _ => id end.

Definition run_delivery (d : Delivery) : M unit :=
  match d with
  | deliver_result id object => send_result id object
  | deliver_error id code message => send_error_impl id code message
  end.

Definition run_deliveries (ds : list Delivery) : M unit :=
  foldr (λ d k, run_delivery d;; k) skip ds.

(** Answers to requests, as opposed to updates (which the callback
    receives under id 0). *)
Definition is_answer (e : Event) : bool :=
  match e with
  | callback_on_result id _ => negb (id =? 0)%N
  | callback_on_error _ _ _ => true
  | _ => false
  end.

Definition is_cancel_timeout (e : Event) : bool :=
  match e with alarm_cancel_timeout _ => true | _ => false end.

(** The error [clear] synthesizes for a pending request. *)
Definition closing_error (destroy_flag : bool) (id : N) : Event :=
  if destroy_flag
  then callback_on_error id 401 "Unauthorized"
  else callback_on_error id 500 "Internal Server Error: closing".

Definition answer_and_cancel (destroy_flag : bool) (id : N) : list Event :=
  [closing_error destroy_flag id; alarm_cancel_timeout (static_cast_int64 id)].

(** What [clear] emits when it answers the pending ids in the order
    [ids], and the fields it leaves. *)
Definition clear_events (td : Td) (ids : list N) : list Event :=
  (if destroy_flag_ td
   then (λ name, callback_on_result 0 (td_api.updateOptionEmpty name))
          <$> filter (λ name, name ∉ options_kept_on_destroy)
                     (shared_config_options td)
   else [])
  ++ [global "net_query_creator.stop_check";
      global "net_query_dispatcher.stop";
      reset "state_manager_"]
  ++ flat_map (answer_and_cancel (destroy_flag_ td)) ids
  ++ (if is_online_ td then [alarm_cancel_timeout 0] else [])
  ++ (reset <$> pure_actors_cleared).

Definition cleared (td : Td) : Td :=
  mkTd (state_ td) 2 (destroy_flag_ td) ∅ [] (request_actor_refcnt_ td)
       (actor_refcnt_ td) (stop_cnt_ td) false (auth_manager_ td)
       (encryption_info_is_encrypted td) (shared_config_options td).

(** A member function that cannot make the id 0 pending. *)
Definition keeps_zero_out {A} (m : M A) : Prop :=
  ∀ td, 0%N ∉ request_set_ td →
    match (m td).2 with
    | Done _ td' => 0%N ∉ request_set_ td'
    | _ => True
    end.

(** The live registrations of [id], oldest first. *)
Definition registrations (id : N) (l : list (N * Handler)) : list (N * Handler) :=
  filter (λ e, e.1 = id) l.

(** What [ResultHandler::on_result(NetQueryPtr)] calls on handler [h]. *)
Definition handler_call (h : Handler) (query : NetQuery) : Event :=
  match query_answer query with
  | net_ok _ packet => handler_on_result h (query_id query) packet
  | net_error status => handler_on_error h (query_id query) status
  end.

Definition is_getAuthorizationState (f : td_api.Function) : bool :=
  match f with td_api.getAuthorizationState => true | _ => false end.

Definition is_setTdlibParameters (f : td_api.Function) : bool :=
  match f with td_api.setTdlibParameters _ => true | _ => false end.

(** A façade in state [Run] with requests 7 and 9 pending and one
    handler registered for query 42; and the same façade after
    [close()]. *)
Definition td_running : Td :=
  mkTd Run 0 false {[7%N; 9%N]} [(42%N, 1)] 1 5 1 true
       (Some {| is_authorized := true; is_bot := false |}) false
       ["auth"; "my_id"].

Definition td_closing : Td :=
  set_close_flag_ 1 (set_state_ Close td_running).

(** The same façade at shutdown stage 2, where a manager that is still
    alive has sent query 42. *)
Definition td_stage2 : Td := set_close_flag_ 2 td_closing.

Definition answer_42 : NetQuery := mkNetQuery 42 (net_ok 1 "packet").

(** A façade that has not been given its parameters yet. *)
Definition td_waiting : Td :=
  mkTd WaitParameters 0 false ∅ [] 0 0 2 false None false [].

(** Stand-ins for the surroundings, for concrete runs. *)
Definition set_td_parameters_ok (_ : td_api.tdlibParameters) : M (option Status) :=
  modify (set_state_ Decrypt);; mret None.

Definition init_ok (_ : string) : M (option Status) :=
  modify (set_state_ Run);; mret None.

Definition on_request_none (_ : N) (_ : td_api.Function) : M unit := skip.

(** A stand-in for the value of [Status::Hangup()], and an error a
    remote peer may answer with. *)
Definition some_hangup : Status := mkStatus (-1) "Hangup".
Definition flood_wait : Status := mkStatus 420 "FLOOD_WAIT_5".

(** An executor as [ChangeStickerSetRequest] constructs it: a
    [RequestOnceActor] with [set_tries(3)]. *)
Definition change_sticker_set_request : @Executor.RequestActor unit :=
  Executor.set_tries 3 (Executor.RequestActor_new 7).

(** ** Further member functions of the façade *)

(** [Td::hangup_shared]: the kind of reference that was dropped is read
    from the link token ([Container<int>::type_from_id]); the token
    itself names the slot of a request executor. *)
Inductive LinkTokenType :=
| RequestActorIdType
| ActorIdType
| UnknownIdType (type : Z).

Definition hangup_shared (type : LinkTokenType) : M unit :=
  match type with
  | RequestActorIdType =>
      emit (reset "request_actors_ slot");;
      dec_request_actor_refcnt
  | ActorIdType => dec_actor_refcnt
  | UnknownIdType _ =>
      emit (LOG FATAL "Unknown hangup_shared");;
      fatal "LOG(FATAL)"
  end.

(** [Td::hangup]. *)
Definition Td_hangup : M unit := close;; dec_stop_cnt.

(** The [on_request] overloads that belong to the lifecycle; the
    operations of the domain managers are [others]. *)
Definition Td_on_request (others : N → td_api.Function → M unit)
    (id : N) (f : td_api.Function) : M unit :=
  match f with
  | td_api.setTdlibParameters _ =>
      send_error_raw id 400 "Unexpected setTdlibParameters"
  | td_api.checkDatabaseEncryptionKey _ =>
      send_error_raw id 400 "Unexpected checkDatabaseEncryptionKey"
  | td_api.getAuthorizationState => emit (global "AuthManager::get_state")
  | td_api.close => close;; send_result id (Some td_api.ok)
  | td_api.destroy => destroy;; send_result id (Some td_api.ok)
  | _ => others id f
  end.

(** [static_cast<uint64>(request_id)] on an [int64]. *)
Definition static_cast_uint64 (request_id : Z) : N :=
  Z.to_N (request_id mod 2 ^ 64).

(** [Td::on_online_updated].  [fresh] is the id the query creator gives
    to the [UpdateStatusQuery] and the handler object created for it.
    [auth_manager_] is dereferenced without a test; on an empty pointer
    that is undefined, which the model counts as an abort. *)
Definition on_online_updated (fresh : N * Handler) (force send_update : bool)
  : M unit :=
  td ← get;
  if (2 <=? close_flag_ td)%Z then skip else
  match auth_manager_ td with
  | None => fatal "auth_manager_ is empty"
  | Some auth_manager =>
      if is_bot auth_manager || negb (is_authorized auth_manager) then skip
      else
        (if force || is_online_ td
         then emit (global "contacts_manager.set_my_online_status");;
              ResultHandler_send_query fresh.2 fresh.1
         else skip);;
        if is_online_ td
        then emit (global "alarm_timeout.set_timeout_in 0")
        else emit (alarm_cancel_timeout 0)
  end.

(** [Td::on_alarm_timeout]. *)
Definition on_alarm_timeout (fresh : N * Handler) (request_id : Z) : M unit :=
  if (request_id =? 0)%Z then on_online_updated fresh false true
  else send_result (static_cast_uint64 request_id) (Some td_api.ok).

(** [Td::on_request(uint64, const td_api::setAlarm &)].  [seconds_] is
    a [double]; the comparisons are those of IEEE 754, so that a NaN
    passes both.  The value of the model is the call made on
    [alarm_timeout_], if any: the key and the delay of
    [set_timeout_in]. *)
Module Alarm.

Import PrimFloat.

(** [request.seconds_ < 0 || request.seconds_ > 3e9]. *)
Definition refused (seconds : float) : bool :=
  PrimFloat.ltb seconds 0%float || PrimFloat.ltb 3e9%float seconds.

Definition setAlarm (id : N) (seconds : float) : M (option (Z * float)) :=
  if refused seconds then
    send_error_raw id 400 "Wrong parameter seconds specified";;
    mret None
  else
    emit (global "alarm_timeout_.set_timeout_in");;
    mret (Some (static_cast_int64 id, seconds)).

End Alarm.

(** [Td::invalidate_handler] as the loop is written: [i] is a
    [size_t] (64 bits), [i--] after an erase wraps at 0 and the [i++]
    of the loop header brings it back. *)
Definition size_t_wrap (z : Z) : N := Z.to_N (z mod 2 ^ 64).

Fixpoint invalidate_scan (fuel : nat) (handler : Handler) (i : N)
    (l : list (N * Handler)) : option (list (N * Handler)) :=
  if (i <? N.of_nat (length l))%N then
    match fuel with
    | O => None
    | S fuel' =>
        match l !! N.to_nat i with
        | Some (_, h) =>
            if decide (h = handler)
            then invalidate_scan fuel' handler
                   (size_t_wrap (Z.of_N (size_t_wrap (Z.of_N i - 1)) + 1))
                   (delete (N.to_nat i) l)
            else invalidate_scan fuel' handler (size_t_wrap (Z.of_N i + 1)) l
        | None => None
        end
    end
  else Some l.

(** ** Observations for the further statements *)

(** What holds of the result and the fields a member function leaves,
    if it returns. *)
Definition post {A} (m : M A) (td : Td) (Q : A → Td → Prop) : Prop :=
  match (m td).2 with
  | Done a td' => Q a td'
  | _ => True
  end.

(** The order in which a shutdown moves the lifecycle fields. *)
Definition shutdown_order (td td' : Td) : Prop :=
  (close_flag_ td ≤ close_flag_ td')%Z
  ∧ (destroy_flag_ td = true → destroy_flag_ td' = true)
  ∧ (state_ td = Close → state_ td' = Close).

Definition advances_only {A} (m : M A) : Prop :=
  ∀ td, post m td (λ _ td', shutdown_order td td').

(** [n] references to the façade are dropped, one after the other. *)
Fixpoint release (n : nat) : M unit :=
  match n with
  | O => skip
  | S n' => hangup_shared ActorIdType;; release n'
  end.

(** [n] request executors are destroyed, one after the other; each
    drops the reference to the façade it was created with. *)
Fixpoint hangups (n : nat) : M unit :=
  match n with
  | O => skip
  | S n' => hangup_shared RequestActorIdType;; hangups n'
  end.

Definition calls_handler (h : Handler) (e : Event) : bool :=
  match e with
  | handler_on_result h' _ _ => bool_decide (h' = h)
  | handler_on_error h' _ _ => bool_decide (h' = h)
  | _ => false
  end.

(** What the last two stages of the teardown emit. *)
Definition actors_closed_events (destroy_flag : bool) : list Event :=
  LOG WARNING "ON_ACTORS_CLOSED"
    :: (reset <$> managers_cleared_on_actors_closed)
    ++ [if destroy_flag
        then global "close_and_destroy_all"
        else global "close_all"].

Definition closed_events (stop_cnt : Z) : list Event :=
  [LOG WARNING "ON_CLOSED";
   callback_on_result 0
     (td_api.updateAuthorizationState td_api.authorizationStateClosed);
   callback_on_closed]
  ++ (if (stop_cnt =? 1)%Z then [actor_stop] else []).

(** What [close_impl] emits when it starts the shutdown of a façade
    that is up. *)
Definition close_started_events : list Event :=
  [global "set_close_flag"; global "AuthManager::on_closing";
   LOG WARNING "Close"; reset "request_actors_"; global "td_db.flush_all";
   send_closure_self true closure_dec_request_actor_refcnt].

(** A close or a destroy followed by the release of the guard of the
    request executors and of [n] references to the façade. *)
Definition shutdown (destroy_flag : bool) (n : nat) : M unit :=
  close_impl destroy_flag;; dec_request_actor_refcnt;; release n.

(** The payload of a close or a destroy request. *)
Definition close_or_destroy (destroy_flag : bool) : td_api.Function :=
  if destroy_flag then td_api.destroy else td_api.close.

(** Answers of the network layer handed to the façade one after the
    other. *)
Definition on_results (upload_file_ID : Z) (Updates_fetch_ok : string → bool)
    (cleared_is_ok : NetQuery → bool) (cleared_ok_tl_constructor : NetQuery → Z)
    (queries : list NetQuery) : M unit :=
  foldr (λ q k, Facade.on_result upload_file_ID Updates_fetch_ok
                  cleared_is_ok cleared_ok_tl_constructor q;; k)
        skip queries.

Definition calls_to (h : Handler) (evs : list Event) : list Event :=
  filter (λ e, calls_handler h e = true) evs.

(** What a run of an executor has sent and how it ended: one terminal
    message and a final [stop] if the executor is stopped, nothing
    otherwise. *)
Definition settled {T} (r : @Executor.RequestActor T * list (@Executor.Call T))
  : Prop :=
  Executor.count Executor.is_terminal r.2
  = (if Executor.stopped r.1 then 1 else 0)
  ∧ (Executor.stopped r.1 = true → last r.2 = Some Executor.stop_call).

(** ** A request class of the cached kind: [GetAccountTtlRequest]

    The subclass keeps the value in [account_ttl_].  Its [do_run] asks
    the contacts manager on the first pass and fulfils the promise from
    [account_ttl_] once the retry counter is below 2; [do_set_result]
    stores; [do_send_result] sends what is stored. *)
Module AccountTtl.

Import Executor.

Record GetAccountTtlRequest := mkGetAccountTtlRequest {
  actor : @RequestActor Z;
  account_ttl_ : Z
}.

(** What the executor posts to the façade: [send_result] with an
    [accountTtl] object or [send_error]. *)
Inductive Reply :=
| reply_accountTtl (days : Z)
| reply_error (status : Status).

(** [do_run]; [get_account_ttl] is the state of the future after
    [contacts_manager_->get_account_ttl(promise)] has returned. *)
Definition do_run (get_account_ttl : @FutureActor Z) (r : GetAccountTtlRequest)
  : @FutureActor Z :=
  if (get_tries (actor r) <? 2)%Z then future_ok (account_ttl_ r)
  else get_account_ttl.

(** The virtual calls of the executor, carried out on the subclass:
    [do_set_result] assigns [account_ttl_], [do_send_result] sends it,
    [do_send_error] is the default. *)
Fixpoint perform (calls : list (@Call Z)) (account_ttl : Z) : Z * list Reply :=
  match calls with
  | [] => (account_ttl, [])
  | do_set_result_call result :: calls' => perform calls' result
  | do_send_result_call :: calls' =>
      let '(ttl, out) := perform calls' account_ttl in
      (ttl, reply_accountTtl account_ttl :: out)
  | do_send_error_call status :: calls' =>
      let '(ttl, out) := perform calls' account_ttl in
      (ttl, reply_error status :: out)
  | _ :: calls' => perform calls' account_ttl
  end.

(** [loop] of the request. *)
Definition loop (get_account_ttl : @FutureActor Z) (r : GetAccountTtlRequest)
  : GetAccountTtlRequest * list (@Call Z) * list Reply :=
  let '(a', calls) := RequestActor_loop (do_run get_account_ttl r) (actor r) in
  let '(ttl, out) := perform calls (account_ttl_ r) in
  (mkGetAccountTtlRequest a' ttl, calls, out).

(** [raw_event] of the request, its future having been resolved with
    [resolution].  In the [loop] it ends with, [do_run] sees the value
    [do_set_result] has just stored. *)
Definition raw_event (Hangup : Status) (td : Td)
    (get_account_ttl : @FutureActor Z) (resolution : Z + Status)
    (r : GetAccountTtlRequest)
  : option (GetAccountTtlRequest * list (@Call Z) * list Reply) :=
  let a := resolve resolution (actor r) in
  let stored := match resolution with inl v => v | inr _ => account_ttl_ r end in
  match Executor.raw_event Hangup Retrying td
          (do_run get_account_ttl (mkGetAccountTtlRequest a stored)) a with
  | Some (a', calls) =>
      let '(ttl, out) := perform calls (account_ttl_ r) in
      Some (mkGetAccountTtlRequest a' ttl, calls, out)
  | None => None
  end.

(** The request as its constructor leaves it; [account_ttl_] has no
    initializer. *)
Definition new (request_id : N) (account_ttl : Z) : GetAccountTtlRequest :=
  mkGetAccountTtlRequest (RequestActor_new request_id) account_ttl.

End AccountTtl.

(** ** [Td::fix_parameters]

    The function works on the [TdParameters] it is given by reference.
    The file system is outside: [mkpath] (its error, if any),
    [realpath], the directory separator and the text a [Status] prints
    as are taken as given. *)
Module Parameters.

Record TdParameters := mkTdParameters {
  use_test_dc : bool;
  database_directory : string;
  files_directory : string;
  api_id : Z;
  api_hash : string;
  use_file_db : bool;
  enable_storage_optimizer : bool;
  ignore_file_names : bool;
  use_secret_chats : bool;
  use_chat_info_db : bool;
  use_message_db : bool
}.

Definition set_database_directory (v : string) (p : TdParameters) :=
  mkTdParameters (use_test_dc p) v (files_directory p) (api_id p) (api_hash p)
    (use_file_db p) (enable_storage_optimizer p) (ignore_file_names p)
    (use_secret_chats p) (use_chat_info_db p) (use_message_db p).

Definition set_files_directory (v : string) (p : TdParameters) :=
  mkTdParameters (use_test_dc p) (database_directory p) v (api_id p) (api_hash p)
    (use_file_db p) (enable_storage_optimizer p) (ignore_file_names p)
    (use_secret_chats p) (use_chat_info_db p) (use_message_db p).

Definition set_use_file_db (v : bool) (p : TdParameters) :=
  mkTdParameters (use_test_dc p) (database_directory p) (files_directory p)
    (api_id p) (api_hash p) v (enable_storage_optimizer p) (ignore_file_names p)
    (use_secret_chats p) (use_chat_info_db p) (use_message_db p).

Definition set_use_chat_info_db (v : bool) (p : TdParameters) :=
  mkTdParameters (use_test_dc p) (database_directory p) (files_directory p)
    (api_id p) (api_hash p) (use_file_db p) (enable_storage_optimizer p)
    (ignore_file_names p) (use_secret_chats p) v (use_message_db p).

(** What a call leaves: the status it returns ([None] is
    [Status::OK()]) and the parameters as they then are, or the abort
    of a failed [CHECK]. *)
Inductive Returned (A : Type) :=
| returned (a : A)
| check_failed (what : string).
Arguments returned {A} a.
Arguments check_failed {A} what.

Definition quote : string := String (Ascii.ascii_of_nat 34) "".

(** [dir.back()] of a non-empty string. *)
Fixpoint back (c : Ascii.ascii) (s : string) : Ascii.ascii :=
  match s with
  | EmptyString => c
  | String c' s' => back c' s'
  end.

Section FixParameters.

Variable TD_DIR_SLASH : Ascii.ascii.
Variable mkpath : string → option Status.
Variable realpath : string → Status + string.
Variable status_text : Status → string.

Definition with_slash (dir : string) : string :=
  match dir with
  | EmptyString => dir
  | String c s =>
      if decide (back c s = TD_DIR_SLASH) then dir
      else dir +:+ String TD_DIR_SLASH ""
  end.

(** The lambda [prepare_dir].  Its second test of [dir.back()] changes
    a local that is not used again. *)
Definition prepare_dir (dir : string) : Returned (Status + string) :=
  if decide (dir = "") then check_failed "!dir.empty()"
  else
    let dir := with_slash dir in
    match mkpath dir with
    | Some error => returned (inl error)
    | None => returned (realpath dir)
    end.

Definition fix_parameters (parameters : TdParameters)
  : Returned (option Status * TdParameters) :=
  let parameters :=
    if decide (database_directory parameters = "")
    then set_database_directory "." parameters else parameters in
  let parameters :=
    if decide (files_directory parameters = "")
    then set_files_directory (database_directory parameters) parameters
    else parameters in
  let parameters :=
    if use_message_db parameters
    then set_use_chat_info_db true parameters else parameters in
  let parameters :=
    if use_chat_info_db parameters
    then set_use_file_db true parameters else parameters in
  if (api_id parameters =? 0)%Z then
    returned (Some (mkStatus 400
      "Valid api_id must be provided. Can be obtained at https://my.telegram.org"),
      parameters)
  else if decide (api_hash parameters = "") then
    returned (Some (mkStatus 400
      "Valid api_hash must be provided. Can be obtained at https://my.telegram.org"),
      parameters)
  else
    match prepare_dir (database_directory parameters) with
    | check_failed what => check_failed what
    | returned (inl error) =>
        returned (Some (mkStatus 400
          ("Can't init database in the directory " +:+ quote
             +:+ database_directory parameters +:+ quote +:+ ": "
             +:+ status_text error)),
          parameters)
    | returned (inr real_dir) =>
        let parameters := set_database_directory real_dir parameters in
        match prepare_dir (files_directory parameters) with
        | check_failed what => check_failed what
        | returned (inl error) =>
            returned (Some (mkStatus 400
              ("Can't init files directory " +:+ quote
                 +:+ files_directory parameters +:+ quote +:+ ": "
                 +:+ status_text error)),
              parameters)
        | returned (inr real_dir) =>
            returned (None, set_files_directory real_dir parameters)
        end
    end.

End FixParameters.

(** The file databases imply each other in this order. *)
Definition databases_consistent (p : TdParameters) : Prop :=
  (use_message_db p = true → use_chat_info_db p = true)
  ∧ (use_chat_info_db p = true → use_file_db p = true).

(** The directories [fix_parameters] works with. *)
Definition database_directory_or_default (p : TdParameters) : string :=
  if decide (database_directory p = "") then "." else database_directory p.

Definition files_directory_or_default (p : TdParameters) : string :=
  if decide (files_directory p = "") then database_directory_or_default p
  else files_directory p.

(** Parameters of a client and a file system in which every directory
    can be made and is its own real path. *)
Definition some_parameters : TdParameters :=
  mkTdParameters false "" "" 12345 "hash" false true false true false true.

End Parameters.

(** ** Closures the façade posts to itself

    [send_closure(actor_id(this), &Td::send_result, ...)] and the like
    put the call into the façade's own mailbox; this is the call made
    when the closure is taken out of it. *)
Definition run_closure (c : Closure) : M unit :=
  match c with
  | closure_send_result id object => send_result id (Some object)
  | closure_send_error id error => send_error id error
  | closure_dec_request_actor_refcnt => dec_request_actor_refcnt
  end.

(** The answer the client gets for a status: "ok" or the error. *)
Definition status_answer (id : N) (status : option Status) : Event :=
  match status with
  | None => callback_on_result id td_api.ok
  | Some e => callback_on_error id (status_code e) (status_message e)
  end.

Definition is_key_operation (f : td_api.Function) : bool :=
  match f with
  | td_api.checkDatabaseEncryptionKey _
  | td_api.setDatabaseEncryptionKey _ => true
  | _ => false
  end.

Definition is_close_or_destroy (f : td_api.Function) : bool :=
  match f with
  | td_api.close | td_api.destroy => true
  | _ => false
  end.

(** ** [Td::on_request(uint64, td_api::setOption &)]

    The shared configuration ([G()->shared_config()]) is outside the
    façade: the calls made on it are the value of the model, in the
    order in which they are made.  [clean_input_string] cleans the
    string it is given in place and tells whether it was UTF-8. *)
Module Options.

Import Stdlib.Strings.Ascii.

Inductive OptionValue :=
| optionValueBoolean (value_ : bool)
| optionValueEmpty
| optionValueInteger (value_ : Z)
| optionValueString (value_ : string).

Inductive ConfigCall :=
| set_option_empty (name : string)
| set_option_boolean (name : string) (value : bool)
| set_option_integer (name : string) (value : Z)
| set_option_string (name : string) (value : string).

Definition option_name (call : ConfigCall) : string :=
  match call with
  | set_option_empty name | set_option_boolean name _
  | set_option_integer name _ | set_option_string name _ => name
  end.

(** [value_constructor_id] is that of [optionValueEmpty] for a null
    [value_]; the value is downcast only under the matching id. *)
Definition value_or_empty (value : option OptionValue) : OptionValue :=
  default optionValueEmpty value.

(** An [int32] as [operator<<] prints it. *)
Definition decimal (z : Z) : string :=
  DecimalString.NilZero.string_of_int (Z.to_int z).

Definition int32_max : Z := 2147483647%Z.

(** [request.name_[0]]; for an empty string this is the terminator. *)
Definition name_0 (name : string) : ascii :=
  match name with
  | EmptyString => zero
  | String c _ => c
  end.

Definition post_ok (id : N) : Event :=
  send_closure_self false (closure_send_result id td_api.ok).

Definition must_have (name kind : string) : string :=
  "Option " +:+ Parameters.quote +:+ name +:+ Parameters.quote
    +:+ " must have " +:+ kind +:+ " value".

Definition outside_range (name : string) (value min max : Z) : string :=
  "Option's " +:+ Parameters.quote +:+ name +:+ Parameters.quote
    +:+ " value " +:+ decimal value +:+ " is outside of a valid range ["
    +:+ decimal min +:+ ", " +:+ decimal max +:+ "]".

(** The lambda [set_integer_option]: whether the option was this one,
    and the calls made on the shared configuration. *)
Definition set_integer_option (id : N) (request_name : string)
    (value : OptionValue) (name : string) (min max : Z)
  : M (bool * list ConfigCall) :=
  if decide (request_name = name) then
    match value with
    | optionValueEmpty =>
        emit (post_ok id);;
        mret (true, [set_option_empty name])
    | optionValueInteger value =>
        if (value <? min)%Z || (max <? value)%Z then
          send_error_raw id 3 (outside_range name value min max);;
          mret (true, [])
        else
          emit (post_ok id);;
          mret (true, [set_option_integer name (Z.max (Z.min value max) min)])
    | _ =>
        send_error_raw id 3 (must_have name "integer");;
        mret (true, [])
    end
  else mret (false, []).

(** The lambda [set_boolean_option]. *)
Definition set_boolean_option (id : N) (request_name : string)
    (value : OptionValue) (name : string) : M (bool * list ConfigCall) :=
  if decide (request_name = name) then
    match value with
    | optionValueEmpty =>
        emit (post_ok id);;
        mret (true, [set_option_empty name])
    | optionValueBoolean value =>
        emit (post_ok id);;
        mret (true, [set_option_boolean name value])
    | _ =>
        send_error_raw id 3 (must_have name "boolean");;
        mret (true, [])
    end
  else mret (false, []).

(** [if (set_..._option(...)) { return; }] followed by [rest]. *)
Definition or_else (tried : M (bool * list ConfigCall))
    (rest : M (list ConfigCall)) : M (list ConfigCall) :=
  tried ≫= λ r : bool * list ConfigCall,
  if r.1 then mret r.2 else rest.

Section SetOption.

Variable clean_input_string : string → option string.

(** [fresh] is the id and the handler of the [UpdateStatusQuery] that
    [on_online_updated] may create. *)
Definition setOption (fresh : N * Handler) (id : N) (name : string)
    (value : option OptionValue) : M (list ConfigCall) :=
  match clean_input_string name with
  | None =>
      send_error_raw id 400 "Strings must be encoded in UTF-8";;
      mret []
  | Some name =>
      let value := value_or_empty value in
      let set_integer_option := set_integer_option id name value in
      let set_boolean_option := set_boolean_option id name value in
      let can't_be_set : M (list ConfigCall) :=
        send_error_raw id 3 "Option can't be set";;
        mret [] in
      let c := name_0 name in
      if decide (c = "d"%char) then
        or_else (set_boolean_option "disable_contact_registered_notifications")
          can't_be_set
      else if decide (c = "o"%char) then
        if decide (name = "online") then
          match value with
          | optionValueBoolean _ | optionValueEmpty =>
              let is_online :=
                match value with
                | optionValueBoolean value => value
                | _ => true
                end in
              td ← get;
              match auth_manager_ td with
              | None => fatal "auth_manager_ is empty"
              | Some auth_manager =>
                  (if is_bot auth_manager then skip
                   else emit (global "StateManager::on_online"));;
                  (if Bool.eqb is_online (is_online_ td) then skip
                   else modify (set_is_online_ is_online);;
                        on_online_updated fresh true true);;
                  emit (post_ok id);;
                  mret []
              end
          | _ =>
              send_error_raw id 3 (must_have "online" "boolean");;
              mret []
          end
        else can't_be_set
      else if decide (c = "s"%char) then
        or_else (set_integer_option "session_count" 0%Z 50%Z)
       (or_else (set_integer_option "storage_max_files_size" 0%Z int32_max)
       (or_else (set_integer_option "storage_max_time_from_last_access" 0%Z int32_max)
       (or_else (set_integer_option "storage_max_file_count" 0%Z int32_max)
       (or_else (set_integer_option "storage_immunity_delay" 0%Z int32_max)
          can't_be_set))))
      else if bool_decide (c = "X"%char) || bool_decide (c = "x"%char) then
        if (255 <? String.length name)%nat then
          send_error_raw id 3 "Option name is too long";;
          mret []
        else
          emit (post_ok id);;
          mret [match value with
                | optionValueBoolean value => set_option_boolean name value
                | optionValueEmpty => set_option_empty name
                | optionValueInteger value => set_option_integer name value
                | optionValueString value => set_option_string name value
                end]
      else if decide (c = "u"%char) then
        or_else (set_boolean_option "use_pfs")
       (or_else (set_boolean_option "use_quick_ack")
       (or_else (set_boolean_option "use_storage_optimizer")
          can't_be_set))
      else can't_be_set
  end.

End SetOption.

(** The options of the library that a client may set, with the range
    of the integer ones. *)
Definition boolean_options : list string :=
  ["disable_contact_registered_notifications"; "use_pfs"; "use_quick_ack";
   "use_storage_optimizer"].

Definition integer_options : list (string * Z) :=
  [("session_count", 50%Z); ("storage_max_files_size", int32_max);
   ("storage_max_time_from_last_access", int32_max);
   ("storage_max_file_count", int32_max);
   ("storage_immunity_delay", int32_max)].

(** Options of the application: the name starts with [x] or [X]. *)
Definition is_custom (name : string) : bool :=
  bool_decide (name_0 name = "x"%char) || bool_decide (name_0 name = "X"%char).

(** What a call may be for a request that names [name]. *)
Definition allowed (name : string) (call : ConfigCall) : Prop :=
  option_name call = name
  ∧ ((is_custom name = true ∧ String.length name ≤ 255)
     ∨ (name ∈ boolean_options
        ∧ match call with
          | set_option_empty _ | set_option_boolean _ _ => True
          | _ => False
          end)
     ∨ ∃ max, (name, max) ∈ integer_options
          ∧ match call with
            | set_option_empty _ => True
            | set_option_integer _ value => (0 ≤ value ≤ max)%Z
            | _ => False
            end).

Definition is_callback (e : Event) : bool :=
  match e with
  | callback_on_result _ _ | callback_on_error _ _ _ | callback_on_closed => true
  | _ => false
  end.

Definition is_self_closure (e : Event) : bool :=
  match e with
  | send_closure_self _ _ => true
  | _ => false
  end.

(** The two ways in which a request to set an option ends: an error
    sent at once, the request no longer pending and nothing written;
    or an "ok" posted to the façade itself after events that are
    neither callbacks nor closures of the façade, the request still
    pending, with a single allowed call on the shared configuration
    (none for the option "online", which is kept by the façade). *)
Definition refused (id : N) (code : Z) (td : Td)
    (r : list Event * Outcome (list ConfigCall)) : Prop :=
  ∃ message,
    r = ([callback_on_error id code message],
         Done [] (set_request_set_ (request_set_ td ∖ {[id]}) td)).

Definition quiet (e : Event) : Prop :=
  is_callback e = false ∧ is_self_closure e = false.

Definition accepted (id : N) (name : string) (td : Td)
    (r : list Event * Outcome (list ConfigCall)) : Prop :=
  ∃ evs calls td',
    r = (evs ++ [post_ok id], Done calls td')
    ∧ Forall quiet evs
    ∧ request_set_ td' = request_set_ td
    ∧ ((name = "online" ∧ calls = [])
       ∨ (evs = [] ∧ td' = td ∧ ∃ call, calls = [call] ∧ allowed name call)).

End Options.

(** ** Lemmas on the monad *)

Lemma bind_Done {A B} (m : M A) (f : A → M B) td ev a td' :
  m td = (ev, Done a td') →
  (m ≫= f) td = ((ev ++ (f a td').1), (f a td').2).
Proof.
  intros H. unfold mbind, M_bind. rewrite H. by destruct (f a td').
Qed.

Lemma bind_Fatal {A B} (m : M A) (f : A → M B) td ev w :
  m td = (ev, Fatal w) → (m ≫= f) td = (ev, Fatal w).
Proof. intros H. unfold mbind, M_bind. by rewrite H. Qed.

Lemma request_set_erase_in id td :
  id ∈ request_set_ td →
  request_set_erase id td
  = ([], Done true (set_request_set_ (request_set_ td ∖ {[id]}) td)).
Proof.
  intros H. unfold request_set_erase, mbind, M_bind, get, modify, mret, M_ret.
  by rewrite decide_True.
Qed.

Lemma request_set_erase_notin id td :
  id ∉ request_set_ td → request_set_erase id td = ([], Done false td).
Proof.
  intros H. unfold request_set_erase, mbind, M_bind, get, modify, mret, M_ret.
  by rewrite decide_False.
Qed.

Lemma uint64_is_zero_ne id : id ≠ 0%N → uint64_is_zero id = false.
Proof. intros H. unfold uint64_is_zero. by apply N.eqb_neq. Qed.

Lemma send_result_in id object td :
  id ≠ 0%N → id ∈ request_set_ td →
  send_result id object td
  = ([callback_on_result id (default (td_api.error 404 "Not Found") object)],
     Done tt (set_request_set_ (request_set_ td ∖ {[id]}) td)).
Proof.
  intros Hz Hin. unfold send_result. rewrite (uint64_is_zero_ne _ Hz).
  unfold mbind at 1, M_bind, skip, mret, M_ret. simpl.
  erewrite bind_Done by (by apply request_set_erase_in). done.
Qed.

Lemma send_result_notin id object td :
  id ≠ 0%N → id ∉ request_set_ td → send_result id object td = ([], Done tt td).
Proof.
  intros Hz Hin. unfold send_result. rewrite (uint64_is_zero_ne _ Hz).
  unfold mbind at 1, M_bind, skip, mret, M_ret. simpl.
  erewrite bind_Done by (by apply request_set_erase_notin). done.
Qed.

Lemma send_error_impl_in id code message td :
  id ≠ 0%N → id ∈ request_set_ td →
  send_error_impl id code message td
  = ([callback_on_error id code message],
     Done tt (set_request_set_ (request_set_ td ∖ {[id]}) td)).
Proof.
  intros Hz Hin. unfold send_error_impl, CHECK. rewrite (uint64_is_zero_ne _ Hz).
  unfold mbind at 1, M_bind, skip, mret, M_ret. simpl.
  erewrite bind_Done by (by apply request_set_erase_in). done.
Qed.

Lemma send_error_impl_notin id code message td :
  id ≠ 0%N → id ∉ request_set_ td →
  send_error_impl id code message td = ([], Done tt td).
Proof.
  intros Hz Hin. unfold send_error_impl, CHECK. rewrite (uint64_is_zero_ne _ Hz).
  unfold mbind at 1, M_bind, skip, mret, M_ret. simpl.
  erewrite bind_Done by (by apply request_set_erase_notin). done.
Qed.

Lemma send_error_impl_zero code message td :
  send_error_impl 0 code message td = ([], Fatal "id != 0").
Proof. reflexivity. Qed.

(** ** Pending request set: at most one terminal response *)

Lemma terminal_responses_app id evs1 evs2 :
  terminal_responses id (evs1 ++ evs2)
  = terminal_responses id evs1 ++ terminal_responses id evs2.
Proof. unfold terminal_responses. apply filter_app. Qed.

Lemma terminal_responses_cons id e evs :
  terminal_responses id (e :: evs)
  = if terminal_for id e then e :: terminal_responses id evs
    else terminal_responses id evs.
Proof.
  unfold terminal_responses. rewrite filter_cons.
  destruct (terminal_for id e); by case_decide.
Qed.

Lemma send_result_zero object td :
  send_result 0 object td
  = ([LOG ERROR "Sending object through send_result";
      callback_on_result 0 (default (td_api.error 404 "Not Found") object)],
     Done tt td).
Proof. reflexivity. Qed.

Lemma run_delivery_same d td :
  delivery_id d ≠ 0%N →
  if decide (delivery_id d ∈ request_set_ td)
  then ∃ e, run_delivery d td
            = ([e], Done tt (set_request_set_
                               (request_set_ td ∖ {[delivery_id d]}) td))
            ∧ terminal_for (delivery_id d) e = true
  else run_delivery d td = ([], Done tt td).
Proof.
  intros Hz. case_decide as Hin; destruct d as [j o | j c m]; simpl in *.
  - eexists. split; [by apply send_result_in |]. simpl. by apply N.eqb_eq.
  - eexists. split; [by apply send_error_impl_in |]. simpl. by apply N.eqb_eq.
  - by apply send_result_notin.
  - by apply send_error_impl_notin.
Qed.

Lemma run_delivery_other id d td :
  delivery_id d ≠ id →
  terminal_responses id (run_delivery d td).1 = []
  ∧ match (run_delivery d td).2 with
    | Done _ td' => id ∈ request_set_ td' ↔ id ∈ request_set_ td
    | _ => True
    end.
Proof.
  intros Hne.
  assert (Hneq : (delivery_id d =? id)%N = false) by by apply N.eqb_neq.
  destruct (decide (delivery_id d = 0%N)) as [Hz | Hz].
  - destruct d as [j o | j c m]; simpl in *; subst j; [| done].
    rewrite send_result_zero. simpl.
    rewrite !terminal_responses_cons. unfold terminal_for. by rewrite Hneq.
  - pose proof (run_delivery_same d td Hz) as H. case_decide as Hin.
    + destruct H as (e & H & He). rewrite H. simpl. split; [| set_solver].
      rewrite terminal_responses_cons.
      destruct e; simpl in *; try done;
        apply N.eqb_eq in He; subst; by rewrite Hneq.
    + rewrite H. done.
Qed.

Lemma run_deliveries_count id ds :
  id ≠ 0%N → ∀ td,
  length (terminal_responses id (run_deliveries ds td).1)
  ≤ (if decide (id ∈ request_set_ td) then 1 else 0).
Proof.
  intros Hz. induction ds as [| d ds IH]; intros td.
  - simpl. case_decide; lia.
  - change (run_deliveries (d :: ds)) with (run_delivery d ≫= λ _, run_deliveries ds).
    destruct (decide (delivery_id d = id)) as [Heq | Hne].
    + pose proof (run_delivery_same d td) as H. rewrite Heq in H.
      specialize (H Hz). case_decide as Hin.
      * destruct H as (e & H & He). erewrite bind_Done by exact H.
        simpl. rewrite terminal_responses_cons, He. simpl.
        specialize (IH (set_request_set_ (request_set_ td ∖ {[id]}) td)).
        rewrite decide_False in IH by (simpl; set_solver). lia.
      * erewrite bind_Done by exact H. simpl. specialize (IH td).
        by rewrite decide_False in IH.
    + destruct (run_delivery_other id d td Hne) as [Hev Hout].
      destruct (run_delivery d td) as [ev [[] td' | w |]] eqn:E; simpl in *.
      * erewrite bind_Done by exact E. simpl.
        rewrite terminal_responses_app, Hev. simpl.
        specialize (IH td'). repeat case_decide; try lia; tauto.
      * erewrite bind_Fatal by exact E. simpl. rewrite Hev. simpl. lia.
      * unfold mbind, M_bind. rewrite E. simpl. rewrite Hev. simpl. lia.
Qed.

(** C1: for a non-zero correlation id, [send_result] and
    [send_error_impl] call the client callback exactly when erasing the
    id from [request_set_] succeeds; after a delivery for the id a
    second result or error for it changes nothing and emits nothing;
    and whatever sequence of results and errors is handed to the
    façade, the id receives at most one terminal response (none if it
    is not pending). *)
Theorem C1_at_most_one_terminal_response (id : N) (td : Td) :
  id ≠ 0%N →
  (∀ object,
     send_result id object td
     = if decide (id ∈ request_set_ td)
       then ([callback_on_result id
                (default (td_api.error 404 "Not Found") object)],
             Done tt (set_request_set_ (request_set_ td ∖ {[id]}) td))
       else ([], Done tt td))
  ∧ (∀ code message,
     send_error_impl id code message td
     = if decide (id ∈ request_set_ td)
       then ([callback_on_error id code message],
             Done tt (set_request_set_ (request_set_ td ∖ {[id]}) td))
       else ([], Done tt td))
  ∧ (∀ first second td',
     delivery_id first = id → delivery_id second = id →
     (run_delivery first td).2 = Done tt td' →
     run_delivery second td' = ([], Done tt td'))
  ∧ (∀ ds,
     length (terminal_responses id (run_deliveries ds td).1)
     ≤ (if decide (id ∈ request_set_ td) then 1 else 0)).
Proof.
  intros Hz. repeat split.
  - intros object. case_decide.
    + by apply send_result_in.
    + by apply send_result_notin.
  - intros code message. case_decide.
    + by apply send_error_impl_in.
    + by apply send_error_impl_notin.
  - intros first second td' Hf Hs Hrun.
    pose proof (run_delivery_same first td) as H1. rewrite Hf in H1.
    specialize (H1 Hz).
    assert (Hnot : id ∉ request_set_ td').
    { destruct (decide (id ∈ request_set_ td)) as [Hin | Hin].
      - destruct H1 as (e & H1 & _). rewrite H1 in Hrun. simpl in Hrun.
        injection Hrun as <-. simpl. set_solver.
      - rewrite H1 in Hrun. simpl in Hrun. by injection Hrun as <-. }
    pose proof (run_delivery_same second td') as H2. rewrite Hs in H2.
    specialize (H2 Hz).
    by rewrite decide_False in H2.
  - intros ds. by apply run_deliveries_count.
Qed.

Lemma C1_at_most_one_terminal_response_witness :
  7%N ≠ 0%N
  ∧ length (terminal_responses 7
              (run_deliveries [deliver_result 7 None;
                               deliver_error 7 500 "late";
                               deliver_result 7 (Some td_api.ok)]
                              td_running).1)
    ≤ (if decide (7%N ∈ request_set_ td_running) then 1 else 0).
Proof.
  split; [done |].
  apply (C1_at_most_one_terminal_response 7 td_running); done.
Defined.

(** ** Symbolic execution of member functions *)

Lemma run_bind {A B} (m : M A) (f : A → M B) td :
  (m ≫= f) td
  = match m td with
    | (ev, Done a td') => (ev ++ (f a td').1, (f a td').2)
    | (ev, Fatal w) => (ev, Fatal w)
    | (ev, Diverge) => (ev, Diverge)
    end.
Proof.
  unfold mbind, M_bind. destruct (m td) as [ev [a td' | w |]]; try done.
  by destruct (f a td').
Qed.

Lemma run_emit {B} e (k : unit → M B) td :
  (emit e ≫= k) td = (e :: (k tt td).1, (k tt td).2).
Proof. by rewrite run_bind. Qed.

Lemma run_get {B} (k : Td → M B) td : (get ≫= k) td = k td td.
Proof. rewrite run_bind. simpl. by destruct (k td td). Qed.

Lemma run_modify {B} g (k : unit → M B) td : (modify g ≫= k) td = k tt (g td).
Proof. rewrite run_bind. simpl. by destruct (k tt (g td)). Qed.

Lemma run_ret {A B} (a : A) (k : A → M B) td : (mret a ≫= k) td = k a td.
Proof. rewrite run_bind. simpl. by destruct (k a td). Qed.

Lemma run_skip {B} (k : unit → M B) td : (skip ≫= k) td = k tt td.
Proof. apply run_ret. Qed.

Lemma run_emit_all es td : emit_all es td = (es, Done tt td).
Proof.
  induction es as [| e es IH]; [done |].
  change (emit_all (e :: es)) with (emit e;; emit_all es).
  by rewrite run_emit, IH.
Qed.

Lemma run_emit_all_bind {B} es (k : unit → M B) td :
  (emit_all es ≫= k) td = (es ++ (k tt td).1, (k tt td).2).
Proof. by rewrite run_bind, run_emit_all. Qed.

(** ** The admission gate *)

Section Gate.

Variable set_td_parameters : td_api.tdlibParameters → M (option Status).
Variable init : string → M (option Status).
Variable on_request : N → td_api.Function → M unit.

Let request := Facade.request set_td_parameters init on_request.

Lemma request_zero function td :
  request 0 function td
  = ([LOG ERROR "Receive request with id == 0"], Fatal "id != 0").
Proof.
  unfold request, Facade.request. rewrite run_modify. simpl.
  rewrite run_emit. by rewrite send_error_impl_zero.
Qed.

Lemma erase_inserted id (s : gset N) : ({[id]} ∪ s) ∖ {[id]} = s ∖ {[id]}.
Proof. set_solver. Qed.

Lemma send_error_raw_inserted id code message td :
  id ≠ 0%N →
  send_error_raw id code message
    (set_request_set_ ({[id]} ∪ request_set_ td) td)
  = ([callback_on_error id code message],
     Done tt (set_request_set_ (request_set_ td ∖ {[id]}) td)).
Proof.
  intros Hz. unfold send_error_raw.
  rewrite send_error_impl_in by (done || (simpl; set_solver)).
  simpl. by rewrite erase_inserted.
Qed.

Lemma send_result_inserted id object td :
  id ≠ 0%N →
  send_result id (Some object)
    (set_request_set_ ({[id]} ∪ request_set_ td) td)
  = ([callback_on_result id object],
     Done tt (set_request_set_ (request_set_ td ∖ {[id]}) td)).
Proof.
  intros Hz.
  rewrite send_result_in by (done || (simpl; set_solver)).
  simpl. by rewrite erase_inserted.
Qed.

Lemma request_empty id td :
  id ≠ 0%N →
  request id None td
  = ([LOG ERROR "Receive empty request";
      callback_on_error id 400 "Request is empty"],
     Done tt (set_request_set_ (request_set_ td ∖ {[id]}) td)).
Proof.
  intros Hz. unfold request, Facade.request. rewrite run_modify.
  rewrite (uint64_is_zero_ne _ Hz), run_emit.
  by rewrite send_error_raw_inserted.
Qed.

Lemma request_WaitParameters_rejected id f td :
  id ≠ 0%N → state_ td = WaitParameters →
  is_getAuthorizationState f = false → is_setTdlibParameters f = false →
  request id (Some f) td
  = ([callback_on_error id 401 "Initialization parameters are needed"],
     Done tt (set_request_set_ (request_set_ td ∖ {[id]}) td)).
Proof.
  intros Hz Hs Hg Hp. unfold request, Facade.request. rewrite run_modify.
  rewrite (uint64_is_zero_ne _ Hz), run_get. simpl. rewrite Hs.
  destruct f; try done; by rewrite send_error_raw_inserted.
Qed.

Lemma request_Close id f td :
  id ≠ 0%N → state_ td = Close →
  request id (Some f) td
  = ([if is_getAuthorizationState f
      then callback_on_result id
             (if (close_flag_ td =? 5)%Z
              then td_api.authorizationStateClosed
              else td_api.authorizationStateClosing)
      else callback_on_error id 401 "Unauthorized"],
     Done tt (set_request_set_ (request_set_ td ∖ {[id]}) td)).
Proof.
  intros Hz Hs. unfold request, Facade.request. rewrite run_modify.
  rewrite (uint64_is_zero_ne _ Hz), run_get. simpl. rewrite Hs.
  destruct f; simpl; try by rewrite send_error_raw_inserted.
  destruct (close_flag_ td =? 5)%Z; by rewrite send_result_inserted.
Qed.

(** C8: a call with correlation id 0 is not answered with a 400
    error.  [request] logs and calls [send_error_raw], whose
    [send_error_impl] starts with [CHECK(id != 0)]: the process is
    aborted before the callback is reached.  A null payload under a
    non-zero id is answered with 400 "Request is empty"; both tests
    precede the switch on [state_]. *)
Theorem C8_zero_id_request_aborts function n td :
  request 0 function td
  = ([LOG ERROR "Receive request with id == 0"], Fatal "id != 0")
  ∧ request (N.succ n) None td
    = ([LOG ERROR "Receive empty request";
        callback_on_error (N.succ n) 400 "Request is empty"],
       Done tt (set_request_set_ (request_set_ td ∖ {[N.succ n]}) td)).
Proof.
  split; [apply request_zero |]. apply request_empty. lia.
Qed.

(** C6: for a non-zero id and a non-null payload, in state
    [WaitParameters] every operation other than
    [getAuthorizationState] and [setTdlibParameters] is answered with
    401 and nothing else happens (no [on_request], hence no
    executor); in state [Close], [getAuthorizationState] is answered
    with "closed" when [close_flag_] is 5 and "closing" otherwise,
    and every other operation is answered with 401. *)
Theorem C6_gate_phase_enforcement id f td :
  id ≠ 0%N →
  (state_ td = WaitParameters →
   is_getAuthorizationState f = false → is_setTdlibParameters f = false →
   request id (Some f) td
   = ([callback_on_error id 401 "Initialization parameters are needed"],
      Done tt (set_request_set_ (request_set_ td ∖ {[id]}) td)))
  ∧ (state_ td = Close →
     request id (Some f) td
     = ([if is_getAuthorizationState f
         then callback_on_result id
                (if (close_flag_ td =? 5)%Z
                 then td_api.authorizationStateClosed
                 else td_api.authorizationStateClosing)
         else callback_on_error id 401 "Unauthorized"],
        Done tt (set_request_set_ (request_set_ td ∖ {[id]}) td))).
Proof.
  intros Hz. split.
  - intros. by apply request_WaitParameters_rejected.
  - intros. by apply request_Close.
Qed.

End Gate.

Lemma C6_gate_phase_enforcement_witness :
  Facade.request set_td_parameters_ok init_ok on_request_none
    7 (Some td_api.close) td_waiting
  = ([callback_on_error 7 401 "Initialization parameters are needed"],
     Done tt (set_request_set_ (request_set_ td_waiting ∖ {[7%N]}) td_waiting))
  ∧ Facade.request set_td_parameters_ok init_ok on_request_none
      9 (Some td_api.destroy) td_closing
    = ([callback_on_error 9 401 "Unauthorized"],
       Done tt (set_request_set_ (request_set_ td_closing ∖ {[9%N]}) td_closing)).
Proof.
  split.
  - apply (C6_gate_phase_enforcement set_td_parameters_ok init_ok
             on_request_none 7 td_api.close td_waiting); done.
  - apply (C6_gate_phase_enforcement set_td_parameters_ok init_ok
             on_request_none 9 td_api.destroy td_closing); done.
Defined.

(** ** Request executors *)

Section ExecutorFacts.

Import Executor.
Context {T : Type}.
Variable Hangup : Status.

Implicit Types (a : @RequestActor T) (run : @FutureActor T) (c : Class).

(** C4: when the executor is woken and its future failed with the
    hangup status, the error it reports is decided by the session's
    authorization alone, whatever the retry counter, the class of the
    executor or the rest of its state: 500 "bug in the TDLib" when
    authorized, 401 "Unauthorized" otherwise, and the executor
    stops.  A future that failed with any other status has that
    status reported unchanged. *)
Theorem C4_hangup_classification c td run a error :
  raw_event Hangup c td run (set_future_ (future_error Hangup) a)
  = Some (stop (set_future_ (future_error Hangup) a),
          if td_is_authorized td
          then [LOG_call ERROR "Promise was lost";
                do_send_error_call
                  (mkStatus 500 "Query can't be answered due to bug in the TDLib");
                stop_call]
          else [do_send_error_call (mkStatus 401 "Unauthorized"); stop_call])
  ∧ (error ≠ Hangup →
     raw_event Hangup c td run (set_future_ (future_error error) a)
     = Some (stop (set_future_ (future_error error) a),
             [do_send_error_call error; stop_call])).
Proof.
  split.
  - unfold raw_event. simpl. rewrite decide_True by done.
    by destruct (td_is_authorized td).
  - intros Hne. unfold raw_event. simpl. by rewrite decide_False.
Qed.

(** *** The retry budget *)

Lemma pre_decrement_in_range t :
  (- 2 ^ 31 < t < 2 ^ 31)%Z → pre_decrement t = (t - 1)%Z.
Proof.
  intros H. unfold pre_decrement. rewrite Z.mod_small; lia.
Qed.

Lemma loop_waiting_suspends a t :
  tries_left_ a = t → (2 ≤ t < 2 ^ 31)%Z →
  RequestActor_loop future_waiting a
  = (set_future_ future_waiting (set_tries (t - 1) a),
     [do_run_call t; future_set_event_call]).
Proof.
  intros Ht Hr. unfold RequestActor_loop, get_tries. rewrite Ht.
  rewrite pre_decrement_in_range by lia. simpl.
  destruct (t - 1 =? 0)%Z eqn:E; [lia | done].
Qed.

Lemma loop_waiting_exhausted a :
  tries_left_ a = 1%Z →
  RequestActor_loop future_waiting a
  = (stop (set_tries 0 a),
     [do_run_call 1; future_close_call; do_send_error_call unaccessible;
      stop_call]).
Proof.
  intros Ht. unfold RequestActor_loop, get_tries. by rewrite Ht.
Qed.

Lemma resume_stopped c wakes a :
  stopped a = true → resume Hangup c wakes a = (a, []).
Proof. intros H. destruct wakes; simpl; by rewrite ?H. Qed.

Lemma count_app p (l1 l2 : list (@Call T)) :
  count p (l1 ++ l2) = count p l1 + count p l2.
Proof. unfold count. by rewrite filter_app, length_app. Qed.

Lemma count_cons p (x : @Call T) l :
  count p (x :: l) = (if p x then 1 else 0) + count p l.
Proof.
  unfold count. rewrite filter_cons. destruct (p x); by case_decide.
Qed.

(** The pass that the round [w] triggers on a suspended executor. *)
Lemma resume_unresolved_round w rounds a :
  stopped a = false →
  resume Hangup Retrying (never_resolving (w :: rounds)) a
  = let '(a', calls) :=
      RequestActor_loop future_waiting (resolve (inl w.2) a) in
    let '(a'', calls') := resume Hangup Retrying (never_resolving rounds) a' in
    (a'', (do_set_result_call w.2 :: calls) ++ calls').
Proof.
  intros Hs. simpl. rewrite Hs. unfold raw_event. simpl.
  by destruct (pre_decrement (tries_left_ a) =? 0)%Z.
Qed.

Lemma resume_exhausts (k : nat) : ∀ rounds a,
  tries_left_ a = Z.of_nat (S k) → (Z.of_nat (S k) < 2 ^ 31)%Z →
  stopped a = false → S k ≤ length rounds →
  ∃ pre,
    (resume Hangup Retrying (never_resolving rounds) a).2
    = pre ++ [future_close_call; do_send_error_call unaccessible; stop_call]
    ∧ count is_do_run pre = S k
    ∧ count is_terminal pre = 0
    ∧ stopped (resume Hangup Retrying (never_resolving rounds) a).1 = true
    ∧ tries_left_ (resume Hangup Retrying (never_resolving rounds) a).1 = 0%Z.
Proof.
  induction k as [| k IH]; intros rounds a Ht Hr Hs Hlen;
    (destruct rounds as [| w rounds]; [simpl in Hlen; lia |]);
    rewrite resume_unresolved_round by done.
  - rewrite loop_waiting_exhausted by done.
    rewrite resume_stopped by done. simpl.
    exists [do_set_result_call w.2; do_run_call 1]. by rewrite !count_cons.
  - rewrite (loop_waiting_suspends _ (Z.of_nat (S (S k)))) by (done || lia).
    specialize (IH rounds
      (set_future_ future_waiting
         (set_tries (Z.of_nat (S (S k)) - 1) (resolve (inl w.2) a)))).
    destruct IH as (pre & Hc & Hn & Ht' & Hst & Htr);
      [simpl; lia | lia | done | simpl in Hlen; lia |].
    destruct (resume Hangup Retrying (never_resolving rounds) _) as [a'' calls'].
    simpl in *. subst calls'.
    exists (do_set_result_call w.2 :: do_run_call (Z.of_nat (S (S k)))
              :: future_set_event_call :: pre).
    rewrite !count_cons. simpl. repeat split; try done. lia.
Qed.

Lemma resume_too_few : ∀ rounds (k : nat) a,
  tries_left_ a = Z.of_nat (S k) → (Z.of_nat (S k) < 2 ^ 31)%Z →
  stopped a = false → length rounds ≤ k →
  count is_terminal (resume Hangup Retrying (never_resolving rounds) a).2 = 0
  ∧ count is_do_run (resume Hangup Retrying (never_resolving rounds) a).2
    = length rounds
  ∧ stopped (resume Hangup Retrying (never_resolving rounds) a).1 = false.
Proof.
  induction rounds as [| w rounds IH]; intros k a Ht Hr Hs Hlen; [done |].
  destruct k as [| k]; [simpl in Hlen; lia |].
  rewrite resume_unresolved_round by done.
  rewrite (loop_waiting_suspends _ (Z.of_nat (S (S k)))) by (done || lia).
  specialize (IH k
    (set_future_ future_waiting
       (set_tries (Z.of_nat (S (S k)) - 1) (resolve (inl w.2) a)))).
  destruct IH as (Hn & Hd & Hst); [simpl; lia | lia | done | simpl in Hlen; lia |].
  destruct (resume Hangup Retrying (never_resolving rounds) _) as [a'' calls'].
  simpl in *. rewrite !count_cons. simpl. rewrite Hn, Hd. done.
Qed.

(** C2: a [RequestActor] starts with a budget of 2 tries.  When
    [do_run] leaves its promise unresolved, [loop] decrements the
    counter.  If that happens on every pass (the executor being woken
    in between by the value of the previous promise), the passes stop
    with the fixed error 400 "Requested data is unaccessible" right
    after the [budget]-th call of [do_run], nothing having been sent
    before, and the executor stops.  With fewer than [budget - 1]
    wake-ups nothing has been sent yet and the executor is still
    waiting. *)
Theorem C2_retry_budget_exhaustion (budget : Z) (id : N) a rounds :
  (1 ≤ budget < 2 ^ 31)%Z → tries_left_ a = budget → stopped a = false →
  let r := start Hangup Retrying future_waiting (never_resolving rounds) a in
  @tries_left_ T (RequestActor_new id) = 2%Z
  ∧ tries_left_ (RequestActor_loop future_waiting a).1 = (budget - 1)%Z
  ∧ ((budget - 1 ≤ Z.of_nat (length rounds))%Z →
     ∃ pre,
       r.2 = pre ++ [future_close_call;
                     do_send_error_call
                       (mkStatus 400 "Requested data is unaccessible");
                     stop_call]
       ∧ count is_do_run pre = Z.to_nat budget
       ∧ count is_terminal pre = 0
       ∧ stopped r.1 = true
       ∧ tries_left_ r.1 = 0%Z)
  ∧ ((Z.of_nat (length rounds) < budget - 1)%Z →
     count is_terminal r.2 = 0
     ∧ count is_do_run r.2 = S (length rounds)
     ∧ stopped r.1 = false).
Proof.
  intros Hb Ht Hs r. split; [done |].
  assert (Hm : ∃ m : nat, budget = Z.of_nat (S m))
    by (exists (Z.to_nat (budget - 1)); lia).
  destruct Hm as [m Hm]. subst r. unfold start, loop.
  destruct m as [| k].
  - rewrite loop_waiting_exhausted by lia. rewrite resume_stopped by done.
    simpl. split; [lia | split].
    + intros _. exists [do_run_call 1]. rewrite !count_cons.
      repeat split; try done. by rewrite Hm.
    + intros Hlen. lia.
  - rewrite (loop_waiting_suspends _ budget) by (done || lia).
    cbn [fst snd]. split; [done | split]; intros Hlen.
    + destruct (resume_exhausts k rounds
                  (set_future_ future_waiting (set_tries (budget - 1) a)))
        as (pre & Hc & Hn & Ht' & Hst & Htr); [simpl; lia | lia | done | lia |].
      destruct (resume Hangup Retrying (never_resolving rounds) _) as [a'' calls'].
      simpl in *. subst calls'.
      exists (do_run_call budget :: future_set_event_call :: pre).
      rewrite !count_cons. simpl. repeat split; try done. lia.
    + destruct (resume_too_few rounds k
                  (set_future_ future_waiting (set_tries (budget - 1) a)))
        as (Hn & Hd & Hst); [simpl; lia | lia | done | lia |].
      destruct (resume Hangup Retrying (never_resolving rounds) _) as [a'' calls'].
      simpl in *. rewrite !count_cons. simpl. by rewrite Hn, Hd.
Qed.

(** *** One-shot executors *)

Lemma once_loop_below_two run a :
  (get_tries a < 2)%Z →
  RequestOnceActor_loop run a = (stop a, [do_send_result_call; stop_call]).
Proof.
  intros H. unfold RequestOnceActor_loop.
  destruct (get_tries a <? 2)%Z eqn:E; [done | lia].
Qed.

Lemma once_loop_count run a :
  (tries_left_ a < 2 ^ 31)%Z →
  count is_do_run (loop Once run a).2 + runs_allowed (loop Once run a).1
  ≤ Z.to_nat (tries_left_ a - 1)
  ∧ (tries_left_ (loop Once run a).1 < 2 ^ 31)%Z.
Proof.
  intros Hr. unfold loop, RequestOnceActor_loop, get_tries, runs_allowed.
  destruct (tries_left_ a <? 2)%Z eqn:E; [simpl; split; [lia | done] |].
  assert (2 ≤ tries_left_ a)%Z by lia.
  destruct run as [| value | error]; simpl.
  - rewrite pre_decrement_in_range by lia.
    destruct (tries_left_ a - 1 =? 0)%Z eqn:E0; simpl; [lia |].
    rewrite ?count_cons; simpl. destruct (stopped a); lia.
  - rewrite ?count_cons; simpl. lia.
  - rewrite ?count_cons; simpl. lia.
Qed.

Lemma resume_once_count : ∀ wakes a,
  (tries_left_ a < 2 ^ 31)%Z →
  count is_do_run (resume Hangup Once wakes a).2 ≤ runs_allowed a.
Proof.
  induction wakes as [| w wakes IH]; intros a Hr;
    [unfold count; simpl; lia |].
  simpl. unfold runs_allowed at 1.
  destruct (stopped a) eqn:Hs; [unfold count; simpl; lia |].
  unfold raw_event.
  destruct (wake_result w) as [value | error]; simpl.
  - pose proof (once_loop_count (wake_run w) (resolve (inl value) a) Hr)
      as [Hc Hr'].
    unfold loop in *.
    destruct (RequestOnceActor_loop (wake_run w) (resolve (inl value) a))
      as [a' calls].
    specialize (IH a' Hr').
    destruct (resume Hangup Once wakes a') as [a'' calls']. simpl in *.
    rewrite count_cons, count_app. simpl. lia.
  - assert (Hst : ∀ calls, count is_do_run calls = 0 →
              count is_do_run
                (let '(a'', calls') :=
                   resume Hangup Once wakes (stop (resolve (inr error) a))
                 in (a'', calls ++ calls')).2 = 0).
    { intros calls Hc. rewrite resume_stopped by done. simpl.
      by rewrite app_nil_r. }
    case_decide; [destruct (td_is_authorized (wake_td w)) |];
      rewrite Hst; try lia; by rewrite !count_cons.
Qed.

(** C3 (as the code has it): whenever [RequestOnceActor::loop] is
    entered with a retry counter below 2 it sends the default "ok"
    and stops without calling [do_run].  With the default budget of 2
    every entry after a suspension is such an entry: the resumed pass
    answers "ok" and [do_run] has been called once.  A subclass that
    raised the budget with [set_tries(n)] has [do_run] called again
    on the re-entries that still find the counter at 2 or more; in
    all, [do_run] is called at most [n - 1] times. *)
Theorem C3_once_actor_bounded_runs run run' wakes td value a :
  (tries_left_ a < 2 ^ 31)%Z →
  ((get_tries a < 2)%Z →
   RequestOnceActor_loop run a = (stop a, [do_send_result_call; stop_call]))
  ∧ count is_do_run (start Hangup Once run wakes a).2
    ≤ Z.to_nat (tries_left_ a - 1)
  ∧ (tries_left_ a = 2%Z → stopped a = false →
     (start Hangup Once future_waiting (mkWake td (inl value) run' :: wakes) a).2
     = [do_run_call 2; future_set_event_call; do_set_result_call value;
        do_send_result_call; stop_call]).
Proof.
  intros Hr. split; [apply once_loop_below_two | split].
  - unfold start.
    pose proof (once_loop_count run a Hr) as [Hc Hr'].
    destruct (loop Once run a) as [a' calls].
    pose proof (resume_once_count wakes a' Hr') as Hw.
    destruct (resume Hangup Once wakes a') as [a'' calls']. simpl in *.
    rewrite count_app. lia.
  - intros Ht Hs. unfold start, loop, RequestOnceActor_loop, get_tries.
    rewrite Ht. simpl. unfold get_tries. rewrite Ht.
    change (pre_decrement 2) with 1%Z. simpl.
    rewrite Hs. unfold raw_event, RequestOnceActor_loop. simpl.
    rewrite resume_stopped by done. done.
Qed.

End ExecutorFacts.

Lemma C4_hangup_classification_witness :
  flood_wait ≠ some_hangup
  ∧ Executor.raw_event some_hangup Executor.Once td_running Executor.future_waiting
      (Executor.set_future_ (Executor.future_error flood_wait)
         change_sticker_set_request)
    = Some (Executor.stop (Executor.set_future_ (Executor.future_error flood_wait)
                             change_sticker_set_request),
            [Executor.do_send_error_call flood_wait; Executor.stop_call]).
Proof.
  split; [done |].
  apply (C4_hangup_classification some_hangup Executor.Once td_running
           Executor.future_waiting change_sticker_set_request flood_wait).
  done.
Defined.

Lemma C2_retry_budget_exhaustion_witness :
  (1 ≤ 2 < 2 ^ 31)%Z
  ∧ ∃ pre,
      (Executor.start some_hangup Executor.Retrying Executor.future_waiting
         (Executor.never_resolving [(td_running, tt)])
         (Executor.RequestActor_new 7)).2
      = pre ++ [Executor.future_close_call;
                Executor.do_send_error_call
                  (mkStatus 400 "Requested data is unaccessible");
                Executor.stop_call]
      ∧ Executor.count Executor.is_do_run pre = 2.
Proof.
  split; [lia |].
  destruct (C2_retry_budget_exhaustion some_hangup 2 7
              (Executor.RequestActor_new 7) [(td_running, tt)])
    as (_ & _ & H & _); [lia | done | done |].
  destruct H as (pre & Hc & Hn & _); [simpl; lia |].
  exists pre. split; [exact Hc | exact Hn].
Defined.

(** The claim of C3 fails for a budget raised with [set_tries]:
    [ChangeStickerSetRequest] starts with 3 tries, suspends, and when
    it is woken its [loop] finds the counter at 2, so [do_run] is
    called a second time and no "ok" is sent on the resumed pass. *)
Lemma C3_counterexample :
  (Executor.start some_hangup Executor.Once Executor.future_waiting
     [Executor.mkWake td_running (inl tt) Executor.future_waiting]
     change_sticker_set_request).2
  = [Executor.do_run_call 3; Executor.future_set_event_call;
     Executor.do_set_result_call tt;
     Executor.do_run_call 2; Executor.future_set_event_call].
Proof. reflexivity. Qed.

Lemma C3_once_actor_bounded_runs_witness :
  (2 < 2 ^ 31)%Z
  ∧ Executor.count Executor.is_do_run
      (Executor.start some_hangup Executor.Once Executor.future_waiting
         [Executor.mkWake td_running (inl tt) Executor.future_waiting]
         (Executor.RequestActor_new 7)).2
    ≤ Z.to_nat (2 - 1).
Proof.
  split; [lia |].
  apply (C3_once_actor_bounded_runs some_hangup Executor.future_waiting
           Executor.future_waiting
           [Executor.mkWake td_running (inl tt) Executor.future_waiting]
           td_running tt (Executor.RequestActor_new 7)).
  simpl. lia.
Defined.

(** ** The result-handler table *)

Lemma registrations_cons id k h l :
  registrations id ((k, h) :: l)
  = if (k =? id)%N then (k, h) :: registrations id l else registrations id l.
Proof.
  unfold registrations. rewrite filter_cons. simpl.
  destruct (N.eqb_spec k id); by case_decide.
Qed.

Lemma extract_first_spec id l :
  extract_first id l
  = (snd <$> head (registrations id l),
     (extract_first id l).2)
  ∧ registrations id (extract_first id l).2 = tail (registrations id l)
  ∧ ∀ j, j ≠ id →
      registrations j (extract_first id l).2 = registrations j l.
Proof.
  induction l as [| [k h] l (IH1 & IH2 & IH3)]; [done |].
  simpl. rewrite !registrations_cons.
  destruct (N.eqb_spec k id) as [-> | Hne]; simpl.
  - split; [done | split; [done |]]. intros j Hj. rewrite registrations_cons.
    destruct (N.eqb_spec id j); [congruence | done].
  - destruct (extract_first id l) as [r rest] eqn:E. simpl in *.
    injection IH1 as IH1. rewrite !registrations_cons.
    destruct (N.eqb_spec k id); [done |].
    split; [by rewrite IH1 | split; [done |]].
    intros j Hj. rewrite !registrations_cons. by rewrite IH3.
Qed.

Lemma extract_first_none id l :
  registrations id l = [] → extract_first id l = (None, l).
Proof.
  induction l as [| [k h] l IH]; [done |].
  rewrite registrations_cons. simpl.
  destruct (N.eqb_spec k id); [done |]. intros H. by rewrite IH.
Qed.

Lemma set_result_handlers_same td : set_result_handlers_ (result_handlers_ td) td = td.
Proof. by destruct td. Qed.

Section Dispatch.

Variable upload_file_ID : Z.
Variable Updates_fetch_ok : string → bool.
Variable cleared_is_ok : NetQuery → bool.
Variable cleared_ok_tl_constructor : NetQuery → Z.

Let on_result :=
  Facade.on_result upload_file_ID Updates_fetch_ok cleared_is_ok
    cleared_ok_tl_constructor.
Let ignored_is_logged :=
  Facade.ignored_is_logged upload_file_ID cleared_is_ok cleared_ok_tl_constructor.

Lemma on_result_dropped query td :
  (1 < close_flag_ td)%Z → on_result query td = ([], Done tt td).
Proof.
  intros H. unfold on_result, Facade.on_result. rewrite run_get.
  destruct (1 <? close_flag_ td)%Z eqn:E; [done | lia].
Qed.

Lemma on_result_dispatch query td :
  (close_flag_ td ≤ 1)%Z → query_id query ≠ 0%N →
  on_result query td
  = (match (extract_first (query_id query) (result_handlers_ td)).1 with
     | Some h => [handler_call h query]
     | None =>
         if ignored_is_logged query
         then [LOG WARNING "NetQuery is ignored: no handlers found"]
         else []
     end,
     Done tt (set_result_handlers_
                (extract_first (query_id query) (result_handlers_ td)).2 td)).
Proof.
  intros Hc Hz. unfold on_result, Facade.on_result. rewrite run_get.
  destruct (1 <? close_flag_ td)%Z eqn:E; [lia |].
  rewrite (uint64_is_zero_ne _ Hz). unfold extract_handler.
  rewrite run_bind, run_get.
  destruct (extract_first (query_id query) (result_handlers_ td)) as [r rest].
  rewrite run_modify. simpl. destruct r as [h |]; simpl.
  - unfold ResultHandler_on_result, handler_call.
    by destruct (query_answer query).
  - unfold ignored_is_logged. by destruct (Facade.ignored_is_logged _ _).
Qed.

(** C7 (as the code has it): once [close_flag_] exceeds 1 a response
    is dropped: no handler is called and the table is not touched.
    While [close_flag_] is at most 1, a response for a non-zero id
    takes the oldest registration for that id out of the table and
    calls [on_result] or [on_error] on that handler, once; the other
    registrations stay.  If the id has no registration the response
    calls no handler and leaves the table unchanged; the one thing that
    may happen is the warning of [LOG_IF], whose condition is read from
    the query after [query->clear()] and not from the answer as it
    arrived: when a cleared query is not [is_ok()], the warning is
    logged whatever the answer was.  Hence, for an id registered once,
    a second response is such a no-op. *)
Theorem C7_dispatch_exactness query td :
  ((1 < close_flag_ td)%Z → on_result query td = ([], Done tt td))
  ∧ ((close_flag_ td ≤ 1)%Z → query_id query ≠ 0%N →
     match registrations (query_id query) (result_handlers_ td) with
     | (_, h) :: rest =>
         ∃ td',
           on_result query td = ([handler_call h query], Done tt td')
           ∧ registrations (query_id query) (result_handlers_ td') = rest
           ∧ (∀ j, j ≠ query_id query →
                registrations j (result_handlers_ td')
                = registrations j (result_handlers_ td))
           ∧ (rest = [] → ∀ second, query_id second = query_id query →
                on_result second td'
                = (if ignored_is_logged second
                   then [LOG WARNING "NetQuery is ignored: no handlers found"]
                   else [],
                   Done tt td')
                ∧ (cleared_is_ok second = false →
                   on_result second td'
                   = ([LOG WARNING "NetQuery is ignored: no handlers found"],
                      Done tt td')))
     | [] =>
         on_result query td
         = (if ignored_is_logged query
            then [LOG WARNING "NetQuery is ignored: no handlers found"]
            else [],
            Done tt td)
         ∧ (cleared_is_ok query = false →
            on_result query td
            = ([LOG WARNING "NetQuery is ignored: no handlers found"],
               Done tt td))
     end).
Proof.
  split; [apply on_result_dropped |].
  assert (Hlog : ∀ q, cleared_is_ok q = false → ignored_is_logged q = true).
  { intros q Hq. unfold ignored_is_logged, Facade.ignored_is_logged.
    by rewrite Hq. }
  intros Hc Hz. rewrite on_result_dispatch by done.
  destruct (extract_first_spec (query_id query) (result_handlers_ td))
    as (H1 & H2 & H3).
  destruct (registrations (query_id query) (result_handlers_ td))
    as [| [k h] rest] eqn:E.
  - rewrite extract_first_none by done. simpl.
    rewrite set_result_handlers_same. split; [done |].
    intros Hq. by rewrite (Hlog _ Hq).
  - rewrite H1. simpl. eexists. split; [done |]. simpl.
    split; [by rewrite H2 |]. split; [done |].
    intros -> second Hs. rewrite on_result_dispatch by (done || congruence).
    rewrite Hs. simpl. rewrite extract_first_none by (by rewrite H2).
    simpl. split; [by f_equal |].
    intros Hq. rewrite (Hlog _ Hq). by f_equal.
Qed.

End Dispatch.

Lemma C7_dispatch_exactness_witness :
  (close_flag_ td_running ≤ 1)%Z ∧ query_id answer_42 ≠ 0%N
  ∧ ∃ td',
      Facade.on_result 1 (λ _, true) (λ _, false) (λ _, 0%Z) answer_42
        td_running
      = ([handler_on_result 1 42 "packet"], Done tt td')
      ∧ registrations 42 (result_handlers_ td') = [].
Proof.
  split; [done | split; [done |]].
  pose proof (C7_dispatch_exactness 1 (λ _, true) (λ _, false) (λ _, 0%Z)
                answer_42 td_running) as [_ H].
  destruct H as (td' & H1 & H2 & _); [done | done |].
  exists td'. split; [exact H1 | exact H2].
Defined.

(** The claim of C7 fails once the shutdown has reached stage 2:
    [Td::on_result] returns at its first test, the handler registered
    for query 42 is neither called nor removed. *)
Lemma C7_counterexample :
  registrations 42 (result_handlers_ td_stage2) = [(42%N, 1)]
  ∧ Facade.on_result 1 (λ _, true) (λ _, false) (λ _, 0%Z) answer_42 td_stage2
    = ([], Done tt td_stage2).
Proof. split; reflexivity. Qed.

(** C9 (as the code has it): [add_handler] appends the pair to
    [result_handlers_] and cannot fail; it does not look for an
    earlier registration of the id, which stays in the table in front
    of the new one, so that [extract_handler] hands out the older
    handler first.  [send_query] registers in this way and then
    dispatches. *)
Theorem C9_add_handler_appends id h td :
  add_handler id h td
  = ([], Done tt (set_result_handlers_ (result_handlers_ td ++ [(id, h)]) td))
  ∧ registrations id (result_handlers_ td ++ [(id, h)])
    = registrations id (result_handlers_ td) ++ [(id, h)]
  ∧ (extract_first id (result_handlers_ td ++ [(id, h)])).1
    = Some (match registrations id (result_handlers_ td) with
            | (_, h0) :: _ => h0
            | [] => h
            end)
  ∧ ResultHandler_send_query h id td
    = ([global "net_query_dispatcher.dispatch"],
       Done tt (set_result_handlers_ (result_handlers_ td ++ [(id, h)]) td)).
Proof.
  assert (Hreg : registrations id (result_handlers_ td ++ [(id, h)])
                 = registrations id (result_handlers_ td) ++ [(id, h)]).
  { unfold registrations. rewrite filter_app. f_equal.
    rewrite filter_cons. simpl. by rewrite decide_True. }
  repeat split; try done.
  destruct (extract_first_spec id (result_handlers_ td ++ [(id, h)])) as (H1 & _).
  rewrite H1, Hreg. simpl.
  by destruct (registrations id (result_handlers_ td)) as [| [k h0] r].
Qed.

(** The claim of C9 fails on the code: query 42 has a live
    registration, and registering another handler for it neither fails
    nor replaces the first; the table then holds two registrations for
    the id. *)
Lemma C9_counterexample :
  registrations 42 (result_handlers_ td_running) = [(42%N, 1)]
  ∧ add_handler 42 2 td_running
    = ([], Done tt (set_result_handlers_ [(42%N, 1); (42%N, 2)] td_running)).
Proof. split; reflexivity. Qed.

(** ** Shutdown: answering what is still pending *)

Lemma elements_after_erase (s : gset N) id l :
  elements s = id :: l → elements (s ∖ {[id]}) ≡ₚ l.
Proof.
  intros E. pose proof (NoDup_elements s) as Hnd. rewrite E in Hnd.
  apply NoDup_cons in Hnd as [Hid Hl].
  apply NoDup_Permutation; [apply NoDup_elements | done |].
  intros x. rewrite elem_of_elements, elem_of_difference, elem_of_singleton.
  rewrite <- elem_of_elements, E, elem_of_cons. split.
  - intros [[-> | H] Hne]; done.
  - intros H. split; [by right |]. by intros ->.
Qed.

Lemma answer_pending_spec : ∀ fuel td,
  size (request_set_ td) ≤ fuel → 0%N ∉ request_set_ td →
  ∃ ids, ids ≡ₚ elements (request_set_ td)
    ∧ answer_pending fuel td
      = (flat_map (answer_and_cancel (destroy_flag_ td)) ids,
         Done tt (set_request_set_ ∅ td)).
Proof.
  assert (Hempty : ∀ fuel td, elements (request_set_ td) = [] →
            answer_pending fuel td = ([], Done tt (set_request_set_ ∅ td))).
  { intros fuel td E.
    assert (request_set_ td = ∅) as Hs by by apply elements_empty_inv in E; apply leibniz_equiv.
    destruct fuel; simpl; rewrite run_get, E; destruct td; simpl in *; by subst. }
  induction fuel as [| fuel IH]; intros td Hsize Hz.
  - exists []. assert (E : elements (request_set_ td) = []).
    { assert (Hs0 : size (request_set_ td) = 0) by lia.
      apply size_empty_inv in Hs0. apply leibniz_equiv in Hs0.
      rewrite Hs0. apply elements_empty. }
    rewrite E. split; [done |]. by apply Hempty.
  - destruct (elements (request_set_ td)) as [| id l] eqn:E.
    + exists []. split; [done |]. by apply Hempty.
    + assert (Hin : id ∈ request_set_ td)
        by (apply elem_of_elements; rewrite E; left).
      assert (Hid : id ≠ 0%N) by (intros ->; done).
      pose proof (elements_after_erase _ _ _ E) as Hperm.
      destruct (IH (set_request_set_ (request_set_ td ∖ {[id]}) td))
        as (ids & Hids & Hrun).
      { simpl. pose proof (size_difference (request_set_ td) {[id]}) as Hd.
        rewrite size_singleton in Hd.
        assert ({[id]} ⊆ request_set_ td) as Hsub by set_solver.
        specialize (Hd Hsub).
        assert (size (request_set_ td) ≠ 0).
        { intros H0. apply size_empty_inv in H0. set_solver. }
        lia. }
      { simpl. set_solver. }
      exists (id :: ids). split.
      * simpl in Hids. by rewrite Hids, Hperm.
      * simpl. rewrite run_get, E.
        assert (Hsend :
          (if destroy_flag_ td
           then send_error_raw id 401 "Unauthorized"
           else send_error_raw id 500 "Internal Server Error: closing") td
          = ([closing_error (destroy_flag_ td) id],
             Done tt (set_request_set_ (request_set_ td ∖ {[id]}) td))).
        { unfold closing_error, send_error_raw.
          destruct (destroy_flag_ td); by apply send_error_impl_in. }
        rewrite run_bind, Hsend. rewrite run_emit. rewrite Hrun. done.
Qed.

Lemma run_clear_options td :
  clear_options td
  = ((λ name, callback_on_result 0 (td_api.updateOptionEmpty name))
       <$> filter (λ name, name ∉ options_kept_on_destroy)
                  (shared_config_options td),
     Done tt td).
Proof. unfold clear_options. by rewrite run_get, run_emit_all. Qed.

Lemma clear_spec td :
  (close_flag_ td < 2)%Z → 0%N ∉ request_set_ td →
  ∃ ids, ids ≡ₚ elements (request_set_ td)
    ∧ clear td = (clear_events td ids, Done tt (cleared td)).
Proof.
  intros Hc Hz.
  destruct (answer_pending_spec (size (request_set_ td))
              (set_result_handlers_ [] (set_close_flag_ 2 td)))
    as (ids & Hids & Hrun); [done | done |].
  exists ids. split; [done |].
  unfold clear. rewrite run_get.
  destruct (2 <=? close_flag_ td)%Z eqn:E; [lia |].
  rewrite run_modify. rewrite run_bind.
  assert (Hopt :
    (if destroy_flag_ td then clear_options else skip) (set_close_flag_ 2 td)
    = (if destroy_flag_ td
       then (λ name, callback_on_result 0 (td_api.updateOptionEmpty name))
              <$> filter (λ name, name ∉ options_kept_on_destroy)
                         (shared_config_options td)
       else [],
       Done tt (set_close_flag_ 2 td))).
  { destruct (destroy_flag_ td); [by rewrite run_clear_options | done]. }
  assert (Htail : ∀ td0,
    ((if is_online_ td
      then modify (set_is_online_ false);; emit (alarm_cancel_timeout 0)
      else skip);;
     emit_all (reset <$> pure_actors_cleared)) td0
    = ((if is_online_ td then [alarm_cancel_timeout 0] else [])
       ++ (reset <$> pure_actors_cleared),
       Done tt (if is_online_ td then set_is_online_ false td0 else td0))).
  { intros td0. destruct (is_online_ td).
    - rewrite run_bind, run_modify. unfold emit. cbn beta iota.
      by rewrite run_emit_all.
    - by rewrite run_skip, run_emit_all. }
  rewrite Hopt. rewrite run_emit. unfold clear_handlers. rewrite run_modify.
  rewrite !run_emit. rewrite run_bind, Hrun. rewrite Htail.
  unfold clear_events. simpl. f_equal. f_equal.
  unfold cleared. destruct td as [? ? ? ? ? ? ? ? online ? ? ?]; simpl in *.
  by destruct online.
Qed.

Lemma filter_fmap_none {A B} (P : B → Prop) `{∀ x, Decision (P x)}
      (f : A → B) (l : list A) :
  (∀ x, ¬ P (f x)) → filter P (f <$> l) = [].
Proof.
  intros Hf. induction l as [| x l IH]; [done |].
  rewrite fmap_cons, filter_cons. by rewrite decide_False.
Qed.

Lemma filter_answers_flat_map d ids :
  filter (λ e, is_answer e = true) (flat_map (answer_and_cancel d) ids)
  = closing_error d <$> ids.
Proof.
  induction ids as [| id ids IH]; [done |].
  simpl. rewrite !filter_cons, IH.
  rewrite decide_True by (by destruct d). by rewrite decide_False.
Qed.

Lemma filter_cancels_flat_map d ids :
  filter (λ e, is_cancel_timeout e = true) (flat_map (answer_and_cancel d) ids)
  = (λ id, alarm_cancel_timeout (static_cast_int64 id)) <$> ids.
Proof.
  induction ids as [| id ids IH]; [done |].
  simpl. rewrite !filter_cons, IH.
  rewrite decide_False by (by destruct d). by rewrite decide_True.
Qed.

Lemma filter_answers_clear_events td ids :
  filter (λ e, is_answer e = true) (clear_events td ids)
  = closing_error (destroy_flag_ td) <$> ids.
Proof.
  unfold clear_events. rewrite !filter_app, filter_answers_flat_map.
  assert (Hopt : ∀ l : list string,
            filter (λ e, is_answer e = true)
              ((λ name, callback_on_result 0 (td_api.updateOptionEmpty name)) <$> l)
            = []) by (intros l; by apply filter_fmap_none).
  assert (Hres : ∀ l : list string,
            filter (λ e, is_answer e = true) (reset <$> l) = [])
    by (intros l; by apply filter_fmap_none).
  rewrite Hres. replace (filter _ (if destroy_flag_ td then _ else _)) with (@nil Event)
    by (destruct (destroy_flag_ td); by rewrite ?Hopt).
  replace (filter _ (if is_online_ td then _ else _)) with (@nil Event)
    by by destruct (is_online_ td).
  simpl. by rewrite app_nil_r.
Qed.

Lemma filter_cancels_clear_events td ids :
  filter (λ e, is_cancel_timeout e = true) (clear_events td ids)
  = ((λ id, alarm_cancel_timeout (static_cast_int64 id)) <$> ids)
    ++ (if is_online_ td then [alarm_cancel_timeout 0] else []).
Proof.
  unfold clear_events. rewrite !filter_app, filter_cancels_flat_map.
  assert (Hopt : ∀ l : list string,
            filter (λ e, is_cancel_timeout e = true)
              ((λ name, callback_on_result 0 (td_api.updateOptionEmpty name)) <$> l)
            = []) by (intros l; by apply filter_fmap_none).
  assert (Hres : ∀ l : list string,
            filter (λ e, is_cancel_timeout e = true) (reset <$> l) = [])
    by (intros l; by apply filter_fmap_none).
  rewrite Hres. replace (filter _ (if destroy_flag_ td then _ else _)) with (@nil Event)
    by (destruct (destroy_flag_ td); by rewrite ?Hopt).
  simpl. rewrite app_nil_r. f_equal. by destruct (is_online_ td).
Qed.

Lemma dec_actor_refcnt_stage2 td :
  close_flag_ td = 2%Z →
  dec_actor_refcnt td
  = ([], Done tt (if (actor_refcnt_ td =? 1)%Z
                  then set_close_flag_ 3 (set_actor_refcnt_ 1 td)
                  else set_actor_refcnt_ (actor_refcnt_ td - 1) td)).
Proof.
  intros Hc. unfold dec_actor_refcnt. rewrite run_modify, run_get. simpl.
  destruct (actor_refcnt_ td =? 1)%Z eqn:E.
  - assert (actor_refcnt_ td = 1%Z) as -> by lia. simpl. rewrite Hc. simpl.
    unfold create_reference, inc_actor_refcnt. rewrite run_modify.
    by destruct td.
  - destruct (actor_refcnt_ td - 1 =? 0)%Z eqn:E'; [lia | done].
Qed.

Lemma dec_actor_refcnt_stage3 td :
  close_flag_ td = 3%Z → actor_refcnt_ td = 1%Z →
  dec_actor_refcnt td
  = (LOG WARNING "ON_ACTORS_CLOSED"
       :: (reset <$> managers_cleared_on_actors_closed)
       ++ [if destroy_flag_ td
           then global "close_and_destroy_all"
           else global "close_all"],
     Done tt (set_close_flag_ 4
                (set_actor_refcnt_ 1 (set_auth_manager_ None td)))).
Proof.
  intros Hc Ha. unfold dec_actor_refcnt. rewrite run_modify, run_get. simpl.
  rewrite Ha, Hc. simpl. rewrite run_emit. rewrite run_emit_all_bind.
  rewrite run_modify. unfold create_reference, inc_actor_refcnt.
  rewrite run_modify.
  destruct td as [? ? d ? ? ? ? ? ? ? ? ?]; simpl in *. subst.
  by destruct d.
Qed.

(** C5: when the last unit of [request_actor_refcnt_] is released
    before [clear] has run (shutdown stage below 2), every id in
    [request_set_] is answered, once, with a synthesized error, 401
    "Unauthorized" if [destroy_flag_] is set and 500 "Internal Server
    Error: closing" otherwise, and nothing else is answered; the alarm
    of each answered id is cancelled; the set is left empty; and one
    unit of [actor_refcnt_] is released (if it was the last one, stage
    3 starts with a fresh reference). *)
Theorem C5_pending_answered_at_zero td :
  request_actor_refcnt_ td = 1%Z → (close_flag_ td < 2)%Z →
  0%N ∉ request_set_ td →
  ∃ ids td',
    ids ≡ₚ elements (request_set_ td)
    ∧ dec_request_actor_refcnt td
      = (LOG WARNING "no request actors" :: clear_events td ids, Done tt td')
    ∧ filter (λ e, is_answer e = true) (clear_events td ids)
      = closing_error (destroy_flag_ td) <$> ids
    ∧ filter (λ e, is_cancel_timeout e = true) (clear_events td ids)
      = ((λ id, alarm_cancel_timeout (static_cast_int64 id)) <$> ids)
        ++ (if is_online_ td then [alarm_cancel_timeout 0] else [])
    ∧ request_set_ td' = ∅
    ∧ request_actor_refcnt_ td' = 0%Z
    ∧ actor_refcnt_ td'
      = (if (actor_refcnt_ td =? 1)%Z then 1 else actor_refcnt_ td - 1)%Z
    ∧ close_flag_ td' = (if (actor_refcnt_ td =? 1)%Z then 3 else 2)%Z.
Proof.
  intros Hr Hc Hz.
  destruct (clear_spec (set_request_actor_refcnt_ 0 td)) as (ids & Hids & Hclear);
    [done | done |].
  exists ids. eexists. split; [exact Hids |].
  split; [| split; [apply filter_answers_clear_events |
                    split; [apply filter_cancels_clear_events |]]].
  - unfold dec_request_actor_refcnt. rewrite run_modify, Hr.
    change (1 - 1)%Z with 0%Z. rewrite run_get.
    cbn [request_actor_refcnt_ set_request_actor_refcnt_ Z.eqb].
    rewrite run_emit. rewrite run_bind, Hclear.
    rewrite dec_actor_refcnt_stage2 by done. cbn [fst snd].
    rewrite app_nil_r. reflexivity.
  - simpl. by destruct (actor_refcnt_ td =? 1)%Z.
Qed.

Lemma C5_pending_answered_at_zero_witness :
  request_actor_refcnt_ td_closing = 1%Z ∧ (close_flag_ td_closing < 2)%Z
  ∧ (0%N ∉ request_set_ td_closing)
  ∧ ∃ ids td',
      ids ≡ₚ elements (request_set_ td_closing)
      ∧ (dec_request_actor_refcnt td_closing).2 = Done tt td'
      ∧ filter (λ e, is_answer e = true) (dec_request_actor_refcnt td_closing).1
        = (λ id, callback_on_error id 500 "Internal Server Error: closing") <$> ids.
Proof.
  assert (H0 : 0%N ∉ request_set_ td_closing) by (simpl; set_solver).
  split; [done | split; [done | split; [exact H0 |]]].
  destruct (C5_pending_answered_at_zero td_closing) as (ids & td' & H);
    [done | done | exact H0 |].
  destruct H as (Hids & Hrun & Hans & _).
  exists ids, td'. split; [exact Hids |]. rewrite Hrun. split; [done |].
  simpl. exact Hans.
Defined.

(** ** The id 0 is never pending

    [request] puts any id into [request_set_] before it looks at it,
    but for the id 0 it then dies in [send_error_impl].  No member
    function that returns leaves 0 in the set, which is what the
    statements about [clear] assume of the state they start from. *)

Lemma kz_ret {A} (a : A) : keeps_zero_out (mret a : M A).
Proof. by intros td H. Qed.

Lemma kz_emit e : keeps_zero_out (emit e).
Proof. by intros td H. Qed.

Lemma kz_fatal {A} w : keeps_zero_out (fatal w : M A).
Proof. by intros td H. Qed.

Lemma kz_modify g :
  (∀ td, 0%N ∉ request_set_ td → 0%N ∉ request_set_ (g td)) →
  keeps_zero_out (modify g).
Proof. intros Hg td H. by apply Hg. Qed.

Lemma kz_bind {A B} (m : M A) (f : A → M B) :
  keeps_zero_out m → (∀ a, keeps_zero_out (f a)) → keeps_zero_out (m ≫= f).
Proof.
  intros Hm Hf td H. rewrite run_bind. specialize (Hm td H).
  destruct (m td) as [ev [a td' | w |]]; simpl in *; try done.
  by apply Hf.
Qed.

Lemma kz_get {B} (k : Td → M B) :
  (∀ td, keeps_zero_out (k td)) → keeps_zero_out (get ≫= k).
Proof. intros Hk td H. rewrite run_get. by apply Hk. Qed.

Lemma kz_emit_all es : keeps_zero_out (emit_all es).
Proof. intros td H. by rewrite run_emit_all. Qed.

Create HintDb kz discriminated.
#[local] Hint Resolve kz_ret kz_emit kz_fatal kz_emit_all : kz.

Ltac kz_step :=
  first
    [ solve [auto with kz]
    | apply kz_get; intros ?
    | apply kz_bind; [| intros ?]
    | apply kz_modify; intros ? ?; simpl; set_solver
    | match goal with |- keeps_zero_out (if ?b then _ else _) => destruct b end
    | match goal with |- keeps_zero_out (match ?o with _ => _ end) => destruct o end
    | exact (kz_ret tt) ].

Lemma kz_request_set_erase id : keeps_zero_out (request_set_erase id).
Proof.
  intros td H. destruct (decide (id ∈ request_set_ td)).
  - rewrite request_set_erase_in by done. simpl. set_solver.
  - by rewrite request_set_erase_notin.
Qed.
#[local] Hint Resolve kz_request_set_erase : kz.

Lemma kz_send_result id object : keeps_zero_out (send_result id object).
Proof. unfold send_result, skip. repeat kz_step. Qed.
#[local] Hint Resolve kz_send_result : kz.

Lemma kz_send_error_impl id code message :
  keeps_zero_out (send_error_impl id code message).
Proof. unfold send_error_impl, CHECK, skip. repeat kz_step. Qed.
#[local] Hint Resolve kz_send_error_impl : kz.

Lemma kz_dec_actor_refcnt : keeps_zero_out dec_actor_refcnt.
Proof.
  unfold dec_actor_refcnt, create_reference, inc_actor_refcnt, send_update,
    dec_stop_cnt, skip.
  repeat kz_step.
Qed.
#[local] Hint Resolve kz_dec_actor_refcnt : kz.

Lemma kz_close_impl destroy_flag : keeps_zero_out (close_impl destroy_flag).
Proof. unfold close_impl, skip. repeat kz_step. Qed.
#[local] Hint Resolve kz_close_impl : kz.

Lemma kz_answer_pending fuel : keeps_zero_out (answer_pending fuel).
Proof.
  induction fuel as [| fuel IH]; simpl; unfold send_error_raw, diverge;
    apply kz_get; intros td;
    (destruct (elements (request_set_ td)); [apply kz_ret |]); [done |].
  repeat kz_step.
Qed.
#[local] Hint Resolve kz_answer_pending : kz.

Lemma kz_clear : keeps_zero_out clear.
Proof. unfold clear, clear_options, clear_handlers, skip. repeat kz_step. Qed.
#[local] Hint Resolve kz_clear : kz.

Lemma kz_dec_request_actor_refcnt : keeps_zero_out dec_request_actor_refcnt.
Proof. unfold dec_request_actor_refcnt, skip. repeat kz_step. Qed.

Section ZeroNeverPending.

Variable set_td_parameters : td_api.tdlibParameters → M (option Status).
Variable init : string → M (option Status).
Variable on_request : N → td_api.Function → M unit.

Hypothesis set_td_parameters_keeps : ∀ p, keeps_zero_out (set_td_parameters p).
Hypothesis init_keeps : ∀ key, keeps_zero_out (init key).
Hypothesis on_request_keeps : ∀ id f, keeps_zero_out (on_request id f).

#[local] Hint Resolve set_td_parameters_keeps init_keeps on_request_keeps : kz.

Lemma kz_request id function :
  keeps_zero_out (Facade.request set_td_parameters init on_request id function).
Proof.
  destruct (decide (id = 0%N)) as [-> | Hz].
  - intros td _. by rewrite request_zero.
  - unfold Facade.request. rewrite (uint64_is_zero_ne _ Hz).
    unfold send_error_raw, answer_ok_query, close, destroy.
    apply kz_bind; [apply kz_modify; intros ? ?; simpl; set_solver | intros _].
    destruct function as [f |]; [| solve [repeat kz_step]].
    apply kz_get. intros td.
    destruct (state_ td); destruct f; repeat kz_step.
Qed.

End ZeroNeverPending.

(** ** The order of the shutdown stages *)

Lemma post_bind {A B} (m : M A) (f : A → M B) td (Q : B → Td → Prop) :
  post m td (λ a td', post (f a) td' Q) → post (m ≫= f) td Q.
Proof.
  unfold post. rewrite run_bind.
  by destruct (m td) as [ev [a td' | w |]].
Qed.

Lemma post_conseq {A} (m : M A) td (P Q : A → Td → Prop) :
  (∀ a td', P a td' → Q a td') → post m td P → post m td Q.
Proof.
  unfold post. intros H. destruct (m td).2; [apply H | done..].
Qed.

Lemma post_get {B} (k : Td → M B) td Q : post (k td) td Q → post (get ≫= k) td Q.
Proof. unfold post. by rewrite run_get. Qed.

Lemma post_modify {B} g (k : unit → M B) td Q :
  post (k tt) (g td) Q → post (modify g ≫= k) td Q.
Proof. unfold post. by rewrite run_modify. Qed.

Lemma post_emit {B} e (k : unit → M B) td Q :
  post (k tt) td Q → post (emit e ≫= k) td Q.
Proof. unfold post. by rewrite run_emit. Qed.

Lemma post_emit_all {B} es (k : unit → M B) td Q :
  post (k tt) td Q → post (emit_all es ≫= k) td Q.
Proof. unfold post. by rewrite run_emit_all_bind. Qed.

Lemma post_skip {B} (k : unit → M B) td Q :
  post (k tt) td Q → post (skip ≫= k) td Q.
Proof. unfold post. by rewrite run_skip. Qed.

Lemma shutdown_order_refl td : shutdown_order td td.
Proof. by repeat split. Qed.

Lemma shutdown_order_trans td1 td2 td3 :
  shutdown_order td1 td2 → shutdown_order td2 td3 → shutdown_order td1 td3.
Proof.
  intros (H1 & H2 & H3) (H4 & H5 & H6). repeat split; [lia | auto..].
Qed.

Lemma advances_only_bind {A B} (m : M A) (f : A → M B) :
  advances_only m → (∀ a, advances_only (f a)) → advances_only (m ≫= f).
Proof.
  intros Hm Hf td. apply post_bind. eapply post_conseq; [| apply Hm].
  intros a td' H. eapply post_conseq; [| apply Hf].
  intros b td'' H'. exact (shutdown_order_trans _ _ _ H H').
Qed.

Lemma advances_only_emit e : advances_only (emit e).
Proof. intros td. apply shutdown_order_refl. Qed.

Lemma advances_only_ret {A} (a : A) : advances_only (mret a : M A).
Proof. intros td. apply shutdown_order_refl. Qed.

Ltac order_done :=
  unfold post, shutdown_order; simpl; repeat split;
  first [lia | done | congruence | by intros -> | by intros ->; rewrite ?orb_true_l].

Lemma advances_only_dec_stop_cnt : advances_only dec_stop_cnt.
Proof.
  intros td. unfold dec_stop_cnt. apply post_modify, post_get.
  destruct (_ =? _)%Z; order_done.
Qed.

Lemma advances_only_dec_actor_refcnt : advances_only dec_actor_refcnt.
Proof.
  intros td. unfold dec_actor_refcnt. apply post_modify, post_get. simpl.
  destruct (actor_refcnt_ td - 1 =? 0)%Z; [| order_done].
  destruct (close_flag_ td =? 2)%Z eqn:E2.
  { unfold create_reference, inc_actor_refcnt. apply post_modify. order_done. }
  destruct (close_flag_ td =? 3)%Z eqn:E3.
  { apply post_emit, post_emit_all, post_modify.
    unfold create_reference, inc_actor_refcnt. apply post_modify.
    destruct (destroy_flag_ td) eqn:Ed; apply post_emit; order_done. }
  destruct (close_flag_ td =? 4)%Z eqn:E4; [| done].
  apply post_emit, post_modify. unfold send_update. apply post_emit, post_emit.
  eapply post_conseq; [| apply advances_only_dec_stop_cnt].
  intros _ td' (H1 & H2 & H3). simpl in *. repeat split; [lia | done..].
Qed.

Lemma post_order_step {A} (m : M A) td td1 :
  shutdown_order td td1 → advances_only m →
  post m td1 (λ _ td', shutdown_order td td').
Proof.
  intros H Hm. eapply post_conseq; [| apply Hm].
  intros a td' H'. exact (shutdown_order_trans _ _ _ H H').
Qed.

Lemma advances_only_modify g :
  (∀ td, shutdown_order td (g td)) → advances_only (modify g).
Proof. intros H td. apply H. Qed.

Lemma advances_only_get {B} (k : Td → M B) :
  (∀ td0, advances_only (k td0)) → advances_only (get ≫= k).
Proof. intros H td. apply post_get, H. Qed.

Lemma advances_only_emit_all es : advances_only (emit_all es).
Proof. intros td. unfold post. rewrite run_emit_all. apply shutdown_order_refl. Qed.

Lemma advances_only_fatal {A} w : advances_only (fatal w : M A).
Proof. by intros td. Qed.

Create HintDb ao discriminated.
#[local] Hint Resolve advances_only_emit advances_only_ret advances_only_emit_all
  advances_only_fatal advances_only_dec_stop_cnt advances_only_dec_actor_refcnt : ao.

Ltac ao_step :=
  first
    [ solve [auto with ao]
    | apply advances_only_get; intros ?
    | apply advances_only_bind; [| intros ?]
    | apply advances_only_modify; intros ?; order_done
    | match goal with |- advances_only (if ?b then _ else _) => destruct b end
    | match goal with |- advances_only (match ?o with _ => _ end) => destruct o end
    | exact (advances_only_ret tt) ].

Lemma advances_only_request_set_erase id : advances_only (request_set_erase id).
Proof. unfold request_set_erase. repeat ao_step. Qed.
#[local] Hint Resolve advances_only_request_set_erase : ao.

Lemma advances_only_send_result id object : advances_only (send_result id object).
Proof. unfold send_result, skip. repeat ao_step. Qed.
#[local] Hint Resolve advances_only_send_result : ao.

Lemma advances_only_send_error_impl id code message :
  advances_only (send_error_impl id code message).
Proof. unfold send_error_impl, CHECK, skip. repeat ao_step. Qed.
#[local] Hint Resolve advances_only_send_error_impl : ao.

Lemma advances_only_answer_pending fuel : advances_only (answer_pending fuel).
Proof.
  induction fuel as [| fuel IH]; simpl; unfold send_error_raw, diverge;
    apply advances_only_get; intros td;
    (destruct (elements (request_set_ td)); [apply advances_only_ret |]);
    [done |].
  repeat ao_step.
Qed.
#[local] Hint Resolve advances_only_answer_pending : ao.

Lemma advances_only_clear : advances_only clear.
Proof.
  intros td. unfold clear. apply post_get.
  destruct (2 <=? close_flag_ td)%Z eqn:E; [order_done |].
  apply post_modify. apply post_order_step; [order_done |].
  unfold clear_options, clear_handlers, skip. repeat ao_step.
Qed.
#[local] Hint Resolve advances_only_clear : ao.

Lemma advances_only_dec_request_actor_refcnt :
  advances_only dec_request_actor_refcnt.
Proof. unfold dec_request_actor_refcnt, skip. repeat ao_step. Qed.
#[local] Hint Resolve advances_only_dec_request_actor_refcnt : ao.

Lemma advances_only_close_impl destroy_flag :
  advances_only (close_impl destroy_flag).
Proof.
  intros td. unfold close_impl. apply post_modify, post_get. simpl.
  destruct (close_flag_ td =? 0)%Z eqn:E; simpl; [| order_done].
  destruct (State_is_Decrypt (state_ td)).
  - apply post_bind.
    assert (Hrest : ∀ td0, close_flag_ td0 = 0%Z →
              (destroy_flag_ td = true → destroy_flag_ td0 = true) →
              post (modify (set_state_ Close);; modify (set_close_flag_ 4);;
                    dec_actor_refcnt) td0 (λ _ td', shutdown_order td td')).
    { intros td0 H0 Hd. apply post_modify, post_modify.
      apply post_order_step; [| apply advances_only_dec_actor_refcnt].
      unfold shutdown_order. simpl. repeat split; [lia | done..]. }
    destruct destroy_flag; unfold post; simpl; apply Hrest; simpl;
      first [lia | by intros ->].
  - apply post_modify, post_modify. repeat apply post_emit.
    order_done.
Qed.
#[local] Hint Resolve advances_only_close_impl : ao.

Lemma advances_only_hangup_shared type : advances_only (hangup_shared type).
Proof. unfold hangup_shared. destruct type; repeat ao_step. Qed.
#[local] Hint Resolve advances_only_hangup_shared : ao.

Lemma advances_only_release n : advances_only (release n).
Proof. induction n; simpl; repeat ao_step. Qed.

Lemma advances_only_Td_hangup : advances_only Td_hangup.
Proof. unfold Td_hangup, close. repeat ao_step. Qed.

Section StageOrder.

Variable upload_file_ID : Z.
Variable Updates_fetch_ok : string → bool.
Variable cleared_is_ok : NetQuery → bool.
Variable cleared_ok_tl_constructor : NetQuery → Z.
Variable set_td_parameters : td_api.tdlibParameters → M (option Status).
Variable init : string → M (option Status).
Variable on_request : N → td_api.Function → M unit.

Lemma advances_only_on_result query :
  advances_only (Facade.on_result upload_file_ID Updates_fetch_ok
                   cleared_is_ok cleared_ok_tl_constructor query).
Proof.
  unfold Facade.on_result, extract_handler, ResultHandler_on_result, skip.
  apply advances_only_get. intros td.
  destruct (1 <? close_flag_ td)%Z; [apply advances_only_ret |].
  destruct (uint64_is_zero (query_id query)); [repeat ao_step |].
  apply advances_only_bind.
  - apply advances_only_get. intros td0.
    destruct (extract_first _ _). repeat ao_step.
  - intros [h |]; repeat ao_step.
Qed.

(** X1: no member function of the lifecycle moves the shutdown
    backwards.  Whatever [request], [on_result], [close], [destroy],
    [hangup], [hangup_shared], [clear] or the two reference-count
    decrements do, if they return then [close_flag_] has not decreased,
    a set [destroy_flag_] is still set and a façade in state [Close] is
    still in state [Close].  For [request] this is given that the
    three collaborators do not move the shutdown backwards in the one
    state in which [request] calls them: [set_td_parameters] in state
    [WaitParameters], [init] in state [Decrypt] and the per-operation
    handlers in state [Run]. *)
Theorem X1_shutdown_never_moves_backwards id function query type destroy_flag n :
  (∀ p td, state_ td = WaitParameters →
     post (set_td_parameters p) td (λ _ td', shutdown_order td td')) →
  (∀ key td, state_ td = Decrypt →
     post (init key) td (λ _ td', shutdown_order td td')) →
  (∀ id f td, state_ td = Run →
     post (on_request id f) td (λ _ td', shutdown_order td td')) →
  advances_only (Facade.request set_td_parameters init on_request id function)
  ∧ advances_only (Facade.on_result upload_file_ID Updates_fetch_ok
                     cleared_is_ok cleared_ok_tl_constructor query)
  ∧ advances_only (close_impl destroy_flag)
  ∧ advances_only Td_hangup
  ∧ advances_only (hangup_shared type)
  ∧ advances_only clear
  ∧ advances_only dec_request_actor_refcnt
  ∧ advances_only dec_actor_refcnt
  ∧ advances_only (release n).
Proof.
  intros Hp Hi Ho.
  split; [| split; [apply advances_only_on_result |]].
  - intros td. unfold Facade.request. apply post_modify.
    set (td1 := set_request_set_ _ td).
    assert (H1 : shutdown_order td td1) by by repeat split.
    destruct (uint64_is_zero id).
    { apply post_order_step; [done |]. unfold send_error_raw. repeat ao_step. }
    destruct function as [f |]; last first.
    { apply post_order_step; [done |]. unfold send_error_raw. repeat ao_step. }
    apply post_get.
    assert (Hthen : ∀ (m : M (option Status)),
              post m td1 (λ _ td', shutdown_order td1 td') →
              post (status ← m; answer_ok_query id status) td1
                (λ _ td', shutdown_order td td')).
    { intros m Hm. apply post_bind. eapply post_conseq; [| exact Hm].
      intros status td2 H2. apply post_order_step.
      - exact (shutdown_order_trans _ _ _ H1 H2).
      - unfold answer_ok_query. destruct status; auto with ao. }
    destruct (state_ td1) eqn:Es; destruct f;
      first
        [ apply Hthen, Hp, Es
        | apply Hthen, Hi, Es
        | apply post_emit;
          apply (post_conseq _ _ (λ _ td', shutdown_order td1 td'));
          [| exact (Ho _ _ _ Es)];
          intros _ td2 H2; exact (shutdown_order_trans _ _ _ H1 H2)
        | solve [ apply post_order_step; [done |];
                  unfold send_error_raw, close, destroy; repeat ao_step ] ].
  - repeat split; auto with ao.
    + apply advances_only_Td_hangup.
    + apply advances_only_release.
Qed.

End StageOrder.

Lemma advances_only_Td_on_request others id f :
  (∀ id f, advances_only (others id f)) →
  advances_only (Td_on_request others id f).
Proof.
  intros Ho. unfold Td_on_request, send_error_raw, close, destroy.
  destruct f; first [apply Ho | repeat ao_step].
Qed.

Lemma X1_shutdown_never_moves_backwards_witness :
  post (Facade.request set_td_parameters_ok init_ok
          (Td_on_request on_request_none) 7 (Some td_api.close))
       td_running (λ _ td', shutdown_order td_running td').
Proof.
  apply (X1_shutdown_never_moves_backwards 1 (λ _, true) (λ _, false)
           (λ _, 0%Z) set_td_parameters_ok init_ok
           (Td_on_request on_request_none)
           7 (Some td_api.close) answer_42 ActorIdType false 0).
  - intros p td Hs. unfold post, shutdown_order. simpl. rewrite Hs.
    repeat split; [lia | done | done].
  - intros key td Hs. unfold post, shutdown_order. simpl. rewrite Hs.
    repeat split; [lia | done | done].
  - intros id f td _. apply advances_only_Td_on_request.
    intros id' f'. apply advances_only_ret.
Defined.

(** ** The teardown, stage by stage *)

Lemma dec_actor_refcnt_stage4 td :
  close_flag_ td = 4%Z → actor_refcnt_ td = 1%Z →
  dec_actor_refcnt td
  = (closed_events (stop_cnt_ td),
     Done tt (set_stop_cnt_ (stop_cnt_ td - 1)
                (set_close_flag_ 5 (set_actor_refcnt_ 0 td)))).
Proof.
  intros Hc Ha. unfold dec_actor_refcnt. rewrite run_modify, run_get. simpl.
  rewrite Ha, Hc. simpl. rewrite run_emit, run_modify. unfold send_update.
  rewrite !run_emit. unfold dec_stop_cnt. rewrite run_modify, run_get. simpl.
  unfold closed_events.
  destruct (Z.eqb_spec (stop_cnt_ td) 1), (Z.eqb_spec (stop_cnt_ td - 1) 0);
    first [done | lia].
Qed.

Lemma release_stage2 : ∀ (k : nat) td,
  close_flag_ td = 2%Z → actor_refcnt_ td = Z.of_nat (S k) →
  release (S k) td
  = ([], Done tt (set_close_flag_ 3 (set_actor_refcnt_ 1 td))).
Proof.
  induction k as [| k IH]; intros td Hc Ha;
    change (release (S ?n)) with (dec_actor_refcnt;; release n);
    rewrite run_bind, dec_actor_refcnt_stage2 by done; rewrite Ha.
  - simpl. done.
  - rewrite (proj2 (Z.eqb_neq _ _)) by lia.
    rewrite IH by (simpl; lia). done.
Qed.

Lemma release_app : ∀ n m td,
  release (n + m) td = (release n;; release m) td.
Proof.
  induction n as [| n IH]; intros m td; [by rewrite run_skip |].
  change (release (S n + m)) with (dec_actor_refcnt;; release (n + m)).
  change (release (S n)) with (dec_actor_refcnt;; release n).
  rewrite !run_bind.
  destruct (dec_actor_refcnt td) as [ev [[] td1 | |]]; try done.
  rewrite IH, run_bind.
  destruct (release n td1) as [ev1 [[] td2 | |]]; simpl; try done.
  by rewrite app_assoc.
Qed.

Lemma release_from_stage3 td :
  close_flag_ td = 3%Z → actor_refcnt_ td = 1%Z →
  release 2 td
  = (actors_closed_events (destroy_flag_ td) ++ closed_events (stop_cnt_ td),
     Done tt (set_stop_cnt_ (stop_cnt_ td - 1)
                (set_close_flag_ 5
                   (set_actor_refcnt_ 0 (set_auth_manager_ None td))))).
Proof.
  intros Hc Ha.
  change (release 2) with (dec_actor_refcnt;; (dec_actor_refcnt;; skip)).
  rewrite run_bind, dec_actor_refcnt_stage3 by done.
  cbn [fst snd]. rewrite run_bind, dec_actor_refcnt_stage4 by done.
  simpl. rewrite app_nil_r. done.
Qed.

Lemma release_last_three (k : nat) td :
  close_flag_ td = 2%Z → actor_refcnt_ td = Z.of_nat (S k) →
  release (S k + 2) td
  = (actors_closed_events (destroy_flag_ td) ++ closed_events (stop_cnt_ td),
     Done tt (set_stop_cnt_ (stop_cnt_ td - 1)
                (set_close_flag_ 5
                   (set_actor_refcnt_ 0 (set_auth_manager_ None td))))).
Proof.
  intros Hc Ha.
  rewrite release_app, run_bind, release_stage2 by done.
  rewrite release_from_stage3 by done. done.
Qed.

Lemma close_impl_starts destroy_flag td :
  close_flag_ td = 0%Z → State_is_Decrypt (state_ td) = false →
  close_impl destroy_flag td
  = (close_started_events,
     Done tt (set_close_flag_ 1
                (set_state_ Close
                   (set_destroy_flag_ (destroy_flag_ td || destroy_flag) td)))).
Proof.
  intros Hc Hs. unfold close_impl. rewrite run_modify, run_get. simpl.
  rewrite Hc, Hs. simpl. rewrite !run_modify, !run_emit. done.
Qed.

Lemma dec_request_actor_refcnt_last td :
  request_actor_refcnt_ td = 1%Z → (close_flag_ td < 2)%Z →
  0%N ∉ request_set_ td →
  ∃ ids, ids ≡ₚ elements (request_set_ td)
    ∧ dec_request_actor_refcnt td
      = (LOG WARNING "no request actors" :: clear_events td ids,
         Done tt
           (if (actor_refcnt_ td =? 1)%Z
            then set_close_flag_ 3
                   (set_actor_refcnt_ 1
                      (cleared (set_request_actor_refcnt_ 0 td)))
            else set_actor_refcnt_ (actor_refcnt_ td - 1)
                   (cleared (set_request_actor_refcnt_ 0 td)))).
Proof.
  intros Hr Hc Hz.
  destruct (clear_spec (set_request_actor_refcnt_ 0 td)) as (ids & Hids & Hclear);
    [done | done |].
  exists ids. split; [exact Hids |].
  unfold dec_request_actor_refcnt. rewrite run_modify, Hr.
  change (1 - 1)%Z with 0%Z. rewrite run_get.
  cbn [request_actor_refcnt_ set_request_actor_refcnt_ Z.eqb].
  rewrite run_emit. rewrite run_bind, Hclear.
  rewrite dec_actor_refcnt_stage2 by done. cbn [fst snd].
  rewrite app_nil_r. reflexivity.
Qed.

(** ** A destroy that arrives during the shutdown *)

Lemma destroy_absorbed td :
  close_flag_ td ≠ 0%Z → destroy td = ([], Done tt (set_destroy_flag_ true td)).
Proof.
  intros Hc. unfold destroy, close_impl. rewrite run_modify, run_get. simpl.
  destruct (close_flag_ td =? 0)%Z eqn:E; [lia |]. simpl.
  by rewrite orb_true_r.
Qed.

Lemma run_after_destroy {A} (m : M A) td :
  close_flag_ td ≠ 0%Z → (destroy;; m) td = m (set_destroy_flag_ true td).
Proof.
  intros Hc. rewrite run_bind, destroy_absorbed by done. simpl.
  by destruct (m (set_destroy_flag_ true td)).
Qed.

(** C10 (as the code has it): [destroy()] while the shutdown is
    already under way ([close_flag_] non-zero) changes nothing but
    [destroy_flag_], which becomes true, and emits nothing.  The
    teardown in progress acts as a destroy only where it has yet to
    read the flag.  At stage 1 ([clear] has not run) the pending ids
    are then answered with 401 "Unauthorized" and the database is
    closed with [close_and_destroy_all]; at stages 2 and 3 nothing is
    answered any more ([clear] returns at once), and the database is
    still closed with [close_and_destroy_all]; at stage 4 the database
    has been closed already and the rest of the teardown only tells the
    client "closed".  [n + 1] is the number of references to the façade
    that are outstanding. *)
Theorem C10_destroy_absorbed_during_shutdown (n : nat) td :
  close_flag_ td ≠ 0%Z →
  let td' := set_destroy_flag_ true td in
  destroy td = ([], Done tt td')
  ∧ (close_flag_ td = 1%Z → request_actor_refcnt_ td = 1%Z →
     actor_refcnt_ td = Z.of_nat (S n) → 0%N ∉ request_set_ td →
     ∃ ids td5,
       ids ≡ₚ elements (request_set_ td)
       ∧ (destroy;; dec_request_actor_refcnt;; release (n + 2)) td
         = (LOG WARNING "no request actors"
              :: clear_events td' ids
              ++ actors_closed_events true
              ++ closed_events (stop_cnt_ td),
            Done tt td5)
       ∧ filter (λ e, is_answer e = true) (clear_events td' ids)
         = (λ id, callback_on_error id 401 "Unauthorized") <$> ids
       ∧ close_flag_ td5 = 5%Z ∧ destroy_flag_ td5 = true)
  ∧ ((2 ≤ close_flag_ td)%Z → (destroy;; clear) td = ([], Done tt td'))
  ∧ (close_flag_ td = 2%Z → actor_refcnt_ td = Z.of_nat (S n) →
     ∃ td5,
       (destroy;; release (S n + 2)) td
       = (actors_closed_events true ++ closed_events (stop_cnt_ td),
          Done tt td5)
       ∧ close_flag_ td5 = 5%Z ∧ destroy_flag_ td5 = true)
  ∧ (close_flag_ td = 3%Z → actor_refcnt_ td = 1%Z →
     ∃ td5,
       (destroy;; release 2) td
       = (actors_closed_events true ++ closed_events (stop_cnt_ td),
          Done tt td5)
       ∧ close_flag_ td5 = 5%Z ∧ destroy_flag_ td5 = true)
  ∧ (close_flag_ td = 4%Z → actor_refcnt_ td = 1%Z →
     ∃ td5,
       (destroy;; release 1) td = (closed_events (stop_cnt_ td), Done tt td5)
       ∧ close_flag_ td5 = 5%Z ∧ destroy_flag_ td5 = true).
Proof.
  intros Hc td'.
  split; [by apply destroy_absorbed |].
  split; [| split; [| split; [| split]]].
  - intros H1 Hr Ha Hz.
    destruct (dec_request_actor_refcnt_last td') as (ids & Hids & Hdec);
      [done | simpl; lia | done |].
    exists ids. eexists. split; [exact Hids |].
    rewrite run_after_destroy by done. fold td'.
    rewrite run_bind, Hdec. cbn [fst snd].
    change (actor_refcnt_ td') with (actor_refcnt_ td). rewrite Ha.
    destruct n as [| k].
    + change (Z.of_nat 1 =? 1)%Z with true. cbn iota.
      rewrite release_from_stage3 by done. cbn [fst snd].
      split; [reflexivity |].
      split; [by rewrite filter_answers_clear_events | by split].
    + rewrite (proj2 (Z.eqb_neq _ _)) by lia.
      rewrite (release_last_three k)
        by (unfold cleared; cbn [close_flag_ actor_refcnt_ set_actor_refcnt_]; lia).
      cbn [fst snd].
      split; [reflexivity |].
      split; [by rewrite filter_answers_clear_events | by split].
  - intros H2. rewrite run_after_destroy by done. fold td'.
    unfold clear. rewrite run_get.
    change (close_flag_ td') with (close_flag_ td).
    by rewrite (proj2 (Z.leb_le _ _) H2).
  - intros H2 Ha. eexists. rewrite run_after_destroy by done. fold td'.
    rewrite (release_last_three n) by done. by repeat split.
  - intros H3 Ha. eexists. rewrite run_after_destroy by done. fold td'.
    rewrite release_from_stage3 by done. by repeat split.
  - intros H4 Ha. eexists. rewrite run_after_destroy by done. fold td'.
    change (release 1) with (dec_actor_refcnt;; skip).
    rewrite run_bind, dec_actor_refcnt_stage4 by done. simpl.
    rewrite app_nil_r. by repeat split.
Qed.

Lemma C10_destroy_absorbed_during_shutdown_witness :
  close_flag_ td_closing ≠ 0%Z
  ∧ destroy td_closing = ([], Done tt (set_destroy_flag_ true td_closing)).
Proof.
  split; [done |].
  apply (C10_destroy_absorbed_during_shutdown 4 td_closing). done.
Defined.

(** The claim of C10 fails for a destroy that arrives late.  The
    façade with requests 7 and 9 pending is closed, the guard of the
    executors and five references are released, which brings it to
    stage 4; then [destroy()] is called and the last reference is
    released.  Both requests have been answered with 500 "closing",
    none with 401, and the database has been closed with [close_all],
    not erased, although the run ends with [destroy_flag_] set. *)
Lemma C10_counterexample :
  ∃ td4 td5,
    ((close;; dec_request_actor_refcnt;; release 5) td_running).2 = Done tt td4
    ∧ close_flag_ td4 = 4%Z
    ∧ ((close;; dec_request_actor_refcnt;; release 5;; destroy;; release 1)
         td_running).2 = Done tt td5
    ∧ close_flag_ td5 = 5%Z ∧ destroy_flag_ td5 = true
    ∧ filter (λ e, is_answer e = true)
        ((close;; dec_request_actor_refcnt;; release 5;; destroy;; release 1)
           td_running).1
      = [callback_on_error 9 500 "Internal Server Error: closing";
         callback_on_error 7 500 "Internal Server Error: closing"]
    ∧ In (global "close_all")
        ((close;; dec_request_actor_refcnt;; release 5;; destroy;; release 1)
           td_running).1
    ∧ ¬ In (global "close_and_destroy_all")
          ((close;; dec_request_actor_refcnt;; release 5;; destroy;; release 1)
             td_running).1.
Proof.
  eexists _, _. vm_compute.
  repeat split; [tauto |].
  intros H. repeat (destruct H as [H | H]; [discriminate H |]). exact H.
Qed.

(** X2: a close (or destroy) of a façade that is up, with no request
    executor alive and [n + 1] references to the façade outstanding,
    is complete after the guard of the executors and [n + 2] references
    have been released: every pending request has been answered, once,
    with the closing error (401 on destroy), the database has been
    closed (and destroyed on destroy), the client has been told
    "closed" exactly once, last of all, and [close_flag_] is 5.  After
    only [n] of these releases nothing of the last two stages has
    happened yet. *)
Theorem X2_shutdown_runs_to_completion (n : nat) destroy_flag td :
  close_flag_ td = 0%Z → State_is_Decrypt (state_ td) = false →
  request_actor_refcnt_ td = 1%Z → actor_refcnt_ td = Z.of_nat (S n) →
  0%N ∉ request_set_ td →
  let destroying := destroy_flag_ td || destroy_flag in
  ∃ ids td',
    ids ≡ₚ elements (request_set_ td)
    ∧ shutdown destroy_flag (n + 2) td
      = (close_started_events
           ++ LOG WARNING "no request actors"
           :: clear_events (set_destroy_flag_ destroying td) ids
           ++ actors_closed_events destroying
           ++ closed_events (stop_cnt_ td),
         Done tt td')
    ∧ close_flag_ td' = 5%Z ∧ state_ td' = Close
    ∧ request_set_ td' = ∅ ∧ result_handlers_ td' = []
    ∧ auth_manager_ td' = None ∧ actor_refcnt_ td' = 0%Z
    ∧ (shutdown destroy_flag n td).1
      = close_started_events
          ++ LOG WARNING "no request actors"
          :: clear_events (set_destroy_flag_ destroying td) ids.
Proof.
  intros Hc Hs Hr Ha Hz destroying.
  pose (td1 := set_close_flag_ 1
                 (set_state_ Close (set_destroy_flag_ destroying td))).
  destruct (dec_request_actor_refcnt_last td1) as (ids & Hids & Hdec);
    [done | done | done |].
  assert (Hids' : ids ≡ₚ elements (request_set_ td)) by exact Hids.
  exists ids. unfold shutdown. rewrite !run_bind, !close_impl_starts by done.
  fold destroying td1. rewrite !run_bind, !Hdec. cbn [fst snd].
  change (actor_refcnt_ td1) with (actor_refcnt_ td). rewrite Ha.
  destruct n as [| k].
  - change (Z.of_nat 1 =? 1)%Z with true. cbn iota.
    rewrite release_from_stage3 by done.
    cbn [fst snd release]. unfold skip, mret, M_ret. cbn [fst snd].
    rewrite !app_nil_r. eexists.
    repeat split; [exact Hids' | reflexivity..].
  - rewrite (proj2 (Z.eqb_neq _ _)) by lia.
    rewrite (release_last_three k)
      by (unfold cleared; cbn [close_flag_ actor_refcnt_ set_actor_refcnt_]; lia).
    rewrite (release_stage2 k)
      by (unfold cleared; cbn [close_flag_ actor_refcnt_ set_actor_refcnt_]; lia).
    cbn [fst snd]. rewrite !app_nil_r. eexists.
    repeat split; [exact Hids' | reflexivity..].
Qed.

Lemma X2_shutdown_runs_to_completion_witness :
  close_flag_ td_running = 0%Z
  ∧ ∃ ids td',
      ids ≡ₚ elements (request_set_ td_running)
      ∧ (shutdown false (4 + 2) td_running).2 = Done tt td'
      ∧ close_flag_ td' = 5%Z.
Proof.
  split; [done |].
  destruct (X2_shutdown_runs_to_completion 4 false td_running)
    as (ids & td' & Hids & Hrun & Hc & _);
    [done | done | done | done | simpl; set_solver |].
  exists ids, td'. rewrite Hrun. done.
Defined.

(** ** Closing through the gate *)

Section CloseRequests.

Variable set_td_parameters : td_api.tdlibParameters → M (option Status).
Variable init : string → M (option Status).
Variable on_request : N → td_api.Function → M unit.

(** X3: a close or destroy request that arrives in state [Decrypt]
    (the database was never opened) is carried out on the spot when
    only the guard reference is held: a destroy removes the database
    files, the client is told "closed", [close_flag_] is 5.  The
    request itself is never acknowledged: no result or error is sent
    for its id, which stays in [request_set_]. *)
Theorem X3_close_before_bring_up id destroy_flag td :
  id ≠ 0%N → state_ td = Decrypt → close_flag_ td = 0%Z →
  actor_refcnt_ td = 1%Z →
  let r := Facade.request set_td_parameters init on_request id
             (Some (close_or_destroy destroy_flag)) td in
  r.1 = (if destroy_flag then [global "TdDb::destroy"] else [])
        ++ closed_events (stop_cnt_ td)
  ∧ terminal_responses id r.1 = []
  ∧ ∃ td', r.2 = Done tt td'
      ∧ id ∈ request_set_ td' ∧ close_flag_ td' = 5%Z ∧ state_ td' = Close
      ∧ destroy_flag_ td' = destroy_flag_ td || destroy_flag.
Proof.
  intros Hz Hs Hc Ha r.
  assert (Hrun : r
    = ((if destroy_flag then [global "TdDb::destroy"] else [])
         ++ closed_events (stop_cnt_ td),
       Done tt
         (set_stop_cnt_ (stop_cnt_ td - 1)
            (set_close_flag_ 5
               (set_actor_refcnt_ 0
                  (set_close_flag_ 4
                     (set_state_ Close
                        (set_destroy_flag_ (destroy_flag_ td || destroy_flag)
                           (set_request_set_ ({[id]} ∪ request_set_ td) td))))))))).
  { subst r. unfold Facade.request. rewrite run_modify.
    rewrite (uint64_is_zero_ne _ Hz), run_get.
    cbn [state_ set_request_set_]. rewrite Hs.
    assert (Hclose :
      close_impl destroy_flag (set_request_set_ ({[id]} ∪ request_set_ td) td)
      = ((if destroy_flag then [global "TdDb::destroy"] else [])
           ++ closed_events (stop_cnt_ td),
         Done tt
           (set_stop_cnt_ (stop_cnt_ td - 1)
              (set_close_flag_ 5
                 (set_actor_refcnt_ 0
                    (set_close_flag_ 4
                       (set_state_ Close
                          (set_destroy_flag_ (destroy_flag_ td || destroy_flag)
                             (set_request_set_ ({[id]} ∪ request_set_ td) td))))))))).
    { unfold close_impl. rewrite run_modify, run_get.
      cbn [close_flag_ state_ set_request_set_ set_destroy_flag_].
      rewrite Hc, Hs. cbn [Z.eqb negb State_is_Decrypt].
      rewrite run_bind.
      replace ((if destroy_flag then emit (global "TdDb::destroy") else skip)
                 (set_destroy_flag_ (destroy_flag_ td || destroy_flag)
                    (set_request_set_ ({[id]} ∪ request_set_ td) td)))
        with ((if destroy_flag then [global "TdDb::destroy"] else []),
              Done tt (set_destroy_flag_ (destroy_flag_ td || destroy_flag)
                         (set_request_set_ ({[id]} ∪ request_set_ td) td)))
        by by destruct destroy_flag.
      rewrite !run_modify. rewrite dec_actor_refcnt_stage4 by done. done. }
    destruct destroy_flag; exact Hclose. }
  rewrite Hrun. cbn [fst snd]. split; [done | split].
  - unfold closed_events.
    assert (H0 : (0 =? id)%N = false) by (apply N.eqb_neq; done).
    destruct destroy_flag, (stop_cnt_ td =? 1)%Z; cbn [app];
      rewrite ?terminal_responses_cons; unfold terminal_for; by rewrite ?H0.
  - eexists. split; [done |]. simpl. repeat split. set_solver.
Qed.

End CloseRequests.

Section CloseWhileRunning.

Variable set_td_parameters : td_api.tdlibParameters → M (option Status).
Variable init : string → M (option Status).
Variable others : N → td_api.Function → M unit.

(** X4: in state [Run] a close or destroy request is acknowledged
    with "ok" at once and starts the shutdown: state [Close], stage 1,
    the executors are dropped and the release of their guard is
    posted.  The id is no longer pending, so that [clear] will not
    answer it a second time; from then on the gate answers everything
    but "query state" with 401. *)
Theorem X4_close_while_running id destroy_flag f td :
  id ≠ 0%N → state_ td = Run → close_flag_ td = 0%Z →
  ∃ td',
    Facade.request set_td_parameters init (Td_on_request others) id
      (Some (close_or_destroy destroy_flag)) td
    = (on_request_call id (close_or_destroy destroy_flag)
         :: close_started_events ++ [callback_on_result id td_api.ok],
       Done tt td')
    ∧ request_set_ td' = request_set_ td ∖ {[id]}
    ∧ state_ td' = Close ∧ close_flag_ td' = 1%Z
    ∧ destroy_flag_ td' = destroy_flag_ td || destroy_flag
    ∧ (is_getAuthorizationState f = false →
       (Facade.request set_td_parameters init (Td_on_request others) id
          (Some f) td').1
       = [callback_on_error id 401 "Unauthorized"]).
Proof.
  intros Hz Hs Hc. eexists. split; [| split; [| split; [| split; [| split]]]].
  - unfold Facade.request. rewrite run_modify.
    rewrite (uint64_is_zero_ne _ Hz), run_get.
    cbn [state_ set_request_set_]. rewrite Hs.
    assert (Hrun : (close_impl destroy_flag;; send_result id (Some td_api.ok))
              (set_request_set_ ({[id]} ∪ request_set_ td) td)
            = (close_started_events ++ [callback_on_result id td_api.ok],
               Done tt
                 (set_request_set_ (request_set_ td ∖ {[id]})
                    (set_close_flag_ 1
                       (set_state_ Close
                          (set_destroy_flag_ (destroy_flag_ td || destroy_flag)
                             td)))))).
    { rewrite run_bind, close_impl_starts by (simpl; by rewrite ?Hs).
      rewrite send_result_in by (done || (simpl; set_solver)).
      simpl. by rewrite erase_inserted. }
    rewrite run_emit.
    destruct destroy_flag; simpl; unfold close, destroy; rewrite Hrun; done.
  - done.
  - done.
  - done.
  - done.
  - intros Hf. rewrite request_Close by done. by rewrite Hf.
Qed.

End CloseWhileRunning.

Lemma X3_close_before_bring_up_witness :
  7%N ≠ 0%N
  ∧ terminal_responses 7
      (Facade.request set_td_parameters_ok init_ok on_request_none 7
         (Some (close_or_destroy true))
         (set_actor_refcnt_ 1 (set_state_ Decrypt td_waiting))).1
    = [].
Proof.
  split; [done |].
  apply (X3_close_before_bring_up set_td_parameters_ok init_ok on_request_none
           7 true (set_actor_refcnt_ 1 (set_state_ Decrypt td_waiting))); done.
Defined.

Lemma X4_close_while_running_witness :
  9%N ≠ 0%N
  ∧ ∃ td',
      Facade.request set_td_parameters_ok init_ok (Td_on_request on_request_none)
        9 (Some (close_or_destroy false)) td_running
      = (on_request_call 9 td_api.close
           :: close_started_events ++ [callback_on_result 9 td_api.ok],
         Done tt td')
      ∧ request_set_ td' = request_set_ td_running ∖ {[9%N]}.
Proof.
  split; [done |].
  destruct (X4_close_while_running set_td_parameters_ok init_ok on_request_none
              9 false td_api.close td_running) as (td' & H1 & H2 & _);
    [done | done | done |].
  exists td'. split; [exact H1 | exact H2].
Defined.

(** ** More on the result-handler table *)

Lemma size_t_back (n : nat) :
  (Z.of_nat n < 2 ^ 64)%Z →
  size_t_wrap (Z.of_N (size_t_wrap (Z.of_N (N.of_nat n) - 1)) + 1) = N.of_nat n.
Proof.
  intros H. destruct n as [| n]; [reflexivity |].
  unfold size_t_wrap. rewrite (Z.mod_small (_ - 1)) by lia.
  rewrite Z2N.id by lia. rewrite Z.mod_small by lia. lia.
Qed.

Lemma size_t_next (n : nat) :
  (Z.of_nat n + 1 < 2 ^ 64)%Z →
  size_t_wrap (Z.of_N (N.of_nat n) + 1) = N.of_nat (S n).
Proof.
  intros H. unfold size_t_wrap. rewrite Z.mod_small by lia. lia.
Qed.

Lemma invalidate_scan_spec handler : ∀ fuel (n : nat) l,
  (Z.of_nat (length l) < 2 ^ 64)%Z → n ≤ length l → length l - n ≤ fuel →
  invalidate_scan fuel handler (N.of_nat n) l
  = Some (take n l ++ filter (λ e, e.2 ≠ handler) (drop n l)).
Proof.
  assert (Hend : ∀ fuel (n : nat) l, n = length l →
            invalidate_scan fuel handler (N.of_nat n) l
            = Some (take n l ++ filter (λ e, e.2 ≠ handler) (drop n l))).
  { intros fuel n l ->. rewrite firstn_all, drop_all, app_nil_r.
    destruct fuel; simpl; by rewrite N.ltb_irrefl. }
  induction fuel as [| fuel IH]; intros n l Hsz Hn Hf.
  - apply Hend. lia.
  - destruct (decide (n = length l)) as [-> | Hne]; [by apply Hend |].
    assert (Hlt : n < length l) by lia.
    cbn [invalidate_scan].
    replace (N.of_nat n <? N.of_nat (length l))%N with true
      by (symmetry; apply N.ltb_lt; lia).
    rewrite Nat2N.id.
    destruct (lookup_lt_is_Some_2 l n Hlt) as [[k h] Hl]. rewrite Hl.
    rewrite (drop_S l (k, h) n Hl), filter_cons. cbn [snd].
    destruct (decide (h = handler)) as [-> | Hh].
    + rewrite decide_False by (intros ?; done).
      rewrite size_t_back by lia.
      rewrite IH; [| rewrite length_delete by eauto; lia..].
      rewrite delete_take_drop.
      rewrite take_app_length' by (rewrite length_take; lia).
      rewrite drop_app_length' by (rewrite length_take; lia). done.
    + rewrite decide_True by done.
      rewrite size_t_next by lia.
      rewrite IH by lia.
      rewrite (take_S_r l n (k, h) Hl), <- app_assoc. done.
Qed.

Lemma extract_first_sub id l e : e ∈ (extract_first id l).2 → e ∈ l.
Proof.
  induction l as [| [k h] l IH]; [done |]. simpl.
  destruct (k =? id)%N; simpl; [by right |].
  destruct (extract_first id l) as [r rest]. simpl in *.
  rewrite !elem_of_cons. intros [-> | H]; [by left | right; by apply IH].
Qed.

Lemma extract_first_elem id l h :
  (extract_first id l).1 = Some h → (id, h) ∈ l.
Proof.
  induction l as [| [k h0] l IH]; [done |]. simpl.
  destruct (N.eqb_spec k id) as [-> | Hne]; simpl.
  - intros [= ->]. by left.
  - destruct (extract_first id l) as [r rest]. simpl in *.
    intros H. right. by apply IH.
Qed.

Lemma extract_first_fresh id h l :
  registrations id l = [] → extract_first id (l ++ [(id, h)]) = (Some h, l).
Proof.
  induction l as [| [k h0] l IH]; simpl.
  - intros _. by rewrite N.eqb_refl.
  - rewrite registrations_cons. destruct (N.eqb_spec k id); [done |].
    intros H. by rewrite IH.
Qed.

(** X5: the loop of [invalidate_handler] ends and removes exactly
    the registrations of the given handler, keeping the others in their
    order, although its index is decremented after each erase (and
    wraps around when the first entry is erased): its result is the
    table [invalidate_handler] is modelled to install. *)
Theorem X5_invalidate_handler_loop handler td :
  (Z.of_nat (length (result_handlers_ td)) < 2 ^ 64)%Z →
  invalidate_scan (length (result_handlers_ td)) handler 0 (result_handlers_ td)
  = Some (filter (λ e, e.2 ≠ handler) (result_handlers_ td))
  ∧ invalidate_handler handler td
    = ([], Done tt (set_result_handlers_
                      (filter (λ e, e.2 ≠ handler) (result_handlers_ td)) td))
  ∧ (∀ id h, (id, h) ∈ filter (λ e, e.2 ≠ handler) (result_handlers_ td)
             ↔ (id, h) ∈ result_handlers_ td ∧ h ≠ handler).
Proof.
  intros Hsz. split; [| split].
  - rewrite (invalidate_scan_spec handler _ 0) by (done || lia). done.
  - done.
  - intros id h. rewrite list_elem_of_filter. simpl. tauto.
Qed.

Lemma X5_invalidate_handler_loop_witness :
  (Z.of_nat (length (result_handlers_ td_running)) < 2 ^ 64)%Z
  ∧ invalidate_scan (length (result_handlers_ td_running)) 1 0
      (result_handlers_ td_running)
    = Some (filter (λ e, e.2 ≠ 1) (result_handlers_ td_running)).
Proof.
  split; [simpl; lia |].
  apply (X5_invalidate_handler_loop 1 td_running). simpl. lia.
Defined.

Section Responses.

Variable upload_file_ID : Z.
Variable Updates_fetch_ok : string → bool.
Variable cleared_is_ok : NetQuery → bool.
Variable cleared_ok_tl_constructor : NetQuery → Z.

Let on_result :=
  Facade.on_result upload_file_ID Updates_fetch_ok cleared_is_ok
    cleared_ok_tl_constructor.
Let responses :=
  on_results upload_file_ID Updates_fetch_ok cleared_is_ok
    cleared_ok_tl_constructor.

(** One response: it returns, keeps the lifecycle fields, only ever
    removes from the table, and calls a handler only if that handler is
    registered under the (non-zero) id of the response. *)
Lemma on_result_step query td :
  ∃ td',
    (on_result query td).2 = Done tt td'
    ∧ (∀ e, e ∈ result_handlers_ td' → e ∈ result_handlers_ td)
    ∧ registrations 0 (result_handlers_ td') = registrations 0 (result_handlers_ td)
    ∧ (∀ h, calls_to h (on_result query td).1 ≠ [] →
            (query_id query, h) ∈ result_handlers_ td ∧ query_id query ≠ 0%N).
Proof.
  destruct (Z.ltb_spec 1 (close_flag_ td)) as [Hc | Hc].
  { exists td. subst on_result. rewrite on_result_dropped by done.
    repeat split; done. }
  destruct (decide (query_id query = 0%N)) as [Hz | Hz].
  { exists td. subst on_result. unfold Facade.on_result. rewrite run_get.
    destruct (1 <? close_flag_ td)%Z eqn:E; [lia |].
    rewrite Hz. simpl.
    destruct (query_answer query) as [c packet | status];
      [destruct (Updates_fetch_ok packet) |]; simpl; repeat split; done. }
  subst on_result. rewrite on_result_dispatch by done. eexists.
  split; [done |]. simpl.
  destruct (extract_first_spec (query_id query) (result_handlers_ td))
    as (H1 & H2 & H3).
  split; [intros e; apply extract_first_sub |].
  split; [apply H3; congruence |].
  intros h Hcall.
  destruct (extract_first (query_id query) (result_handlers_ td)).1 as [h' |] eqn:E.
  - assert (h' = h) as ->.
    { unfold calls_to, handler_call in Hcall.
      destruct (query_answer query); rewrite filter_cons in Hcall; simpl in Hcall;
        case_decide as Hd; try done; by apply bool_decide_eq_true in Hd. }
    split; [by apply extract_first_elem | done].
  - exfalso. apply Hcall. unfold calls_to.
    by destruct (Facade.ignored_is_logged _ _).
Qed.

Lemma calls_to_app h evs1 evs2 :
  calls_to h (evs1 ++ evs2) = calls_to h evs1 ++ calls_to h evs2.
Proof. unfold calls_to. apply filter_app. Qed.

(** Any number of responses. *)
Lemma on_results_steps : ∀ queries td,
  ∃ td',
    (responses queries td).2 = Done tt td'
    ∧ (∀ e, e ∈ result_handlers_ td' → e ∈ result_handlers_ td)
    ∧ registrations 0 (result_handlers_ td') = registrations 0 (result_handlers_ td)
    ∧ (∀ h, calls_to h (responses queries td).1 ≠ [] →
            ∃ id, (id, h) ∈ result_handlers_ td ∧ id ≠ 0%N).
Proof.
  induction queries as [| q queries IH]; intros td.
  { exists td. repeat split; done. }
  subst responses. unfold on_results. cbn [foldr].
  fold (on_results upload_file_ID Updates_fetch_ok cleared_is_ok
          cleared_ok_tl_constructor queries).
  destruct (on_result_step q td) as (td1 & Hrun & Hsub & Hreg & Hcall).
  destruct (IH td1) as (td2 & Hrun2 & Hsub2 & Hreg2 & Hcall2).
  subst on_result. rewrite run_bind.
  destruct (Facade.on_result upload_file_ID Updates_fetch_ok cleared_is_ok
              cleared_ok_tl_constructor q td)
    as [ev [[] td1' | |]] eqn:E; simpl in Hrun; try done.
  injection Hrun as ->. cbn [fst snd] in *.
  exists td2. split; [done |]. split; [auto |]. split; [congruence |].
  intros h Hne. rewrite calls_to_app in Hne.
  destruct (calls_to h ev) eqn:Ecall.
  - destruct (Hcall2 h) as (id & Hin & Hid); [by rewrite app_nil_l in Hne |].
    exists id. auto.
  - destruct (Hcall h) as [Hin Hid]; [by rewrite Ecall |]. eauto.
Qed.

(** X6: once [invalidate_handler] has been called for a handler, no
    response calls that handler any more, whatever answers arrive and
    in whatever order. *)
Theorem X6_invalidated_handler_is_never_called handler queries td :
  calls_to handler ((invalidate_handler handler;; responses queries) td).1 = [].
Proof.
  rewrite run_bind. cbn [invalidate_handler modify fst snd app].
  match goal with |- calls_to _ (responses _ ?t).1 = [] => set (td1 := t) end.
  destruct (on_results_steps queries td1) as (td2 & _ & _ & _ & Hcall).
  destruct (calls_to handler (responses queries td1).1) eqn:E; [done |].
  destruct (Hcall handler) as (id & Hin & _); [by rewrite E |].
  subst td1. simpl in Hin. apply list_elem_of_filter in Hin as [Hne _]. done.
Qed.

(** X7: registering a handler for a query and then receiving the
    answer to that query calls exactly that handler, once, with the
    answer, and leaves the table as it was before the registration
    (for a façade not yet at stage 2 and an id that had no registration
    and is not the update id 0). *)
Theorem X7_send_query_round_trip h query td :
  (close_flag_ td ≤ 1)%Z → query_id query ≠ 0%N →
  registrations (query_id query) (result_handlers_ td) = [] →
  (ResultHandler_send_query h (query_id query);; on_result query) td
  = ([global "net_query_dispatcher.dispatch"; handler_call h query],
     Done tt td).
Proof.
  intros Hc Hz Hreg. rewrite run_bind.
  unfold ResultHandler_send_query, add_handler. rewrite run_modify.
  subst on_result. unfold emit. cbn [fst snd].
  rewrite on_result_dispatch by done. cbn [result_handlers_ set_result_handlers_].
  rewrite extract_first_fresh by done. simpl. f_equal. f_equal.
  by destruct td.
Qed.

(** X8: the id 0 belongs to the updates.  Whatever answers arrive,
    the registrations made under id 0 stay in the table untouched, and
    a handler that is registered under id 0 only is never called. *)
Theorem X8_update_id_is_reserved h queries td :
  (∀ id, (id, h) ∈ result_handlers_ td → id = 0%N) →
  calls_to h (responses queries td).1 = []
  ∧ ∃ td', (responses queries td).2 = Done tt td'
      ∧ registrations 0 (result_handlers_ td')
        = registrations 0 (result_handlers_ td).
Proof.
  intros Hh.
  destruct (on_results_steps queries td) as (td' & Hrun & _ & Hreg & Hcall).
  split; [| by exists td'].
  destruct (calls_to h (responses queries td).1) eqn:E; [done |].
  destruct (Hcall h) as (id & Hin & Hid); [by rewrite E |].
  by apply Hh in Hin.
Qed.

End Responses.

Lemma X7_send_query_round_trip_witness :
  (close_flag_ td_running ≤ 1)%Z
  ∧ (ResultHandler_send_query 5 43;;
     Facade.on_result 1 (λ _, true) (λ _, false) (λ _, 0%Z)
       (mkNetQuery 43 (net_error flood_wait)))
      td_running
    = ([global "net_query_dispatcher.dispatch"; handler_on_error 5 43 flood_wait],
       Done tt td_running).
Proof.
  split; [done |].
  apply (X7_send_query_round_trip 1 (λ _, true) (λ _, false) (λ _, 0%Z) 5
           (mkNetQuery 43 (net_error flood_wait)) td_running); done.
Defined.

Lemma X8_update_id_is_reserved_witness :
  calls_to 3
    (on_results 1 (λ _, true) (λ _, false) (λ _, 0%Z)
       [answer_42; mkNetQuery 0 (net_error flood_wait)]
       (set_result_handlers_ [(0%N, 3); (42%N, 1)] td_running)).1
  = [].
Proof.
  apply (X8_update_id_is_reserved 1 (λ _, true) (λ _, false) (λ _, 0%Z) 3
           [answer_42; mkNetQuery 0 (net_error flood_wait)]
           (set_result_handlers_ [(0%N, 3); (42%N, 1)] td_running)).
  intros id Hin. apply list_elem_of_In in Hin. simpl in Hin.
  destruct Hin as [H | [H | []]]; congruence.
Defined.

(** ** More on the request executors *)

Section ExecutorRuns.

Import Executor.
Context {T : Type}.
Variable Hangup : Status.

Implicit Types (a : @RequestActor T) (run : @FutureActor T) (c : Class).

Lemma loop_settled c run a : stopped a = false → settled (loop c run a).
Proof.
  intros Hs. unfold settled, loop, RequestOnceActor_loop, RequestActor_loop.
  destruct c; [| destruct (get_tries a <? 2)%Z]; [| by split |];
    (destruct run as [| value | error]; [| by split..]);
    (destruct (_ =? 0)%Z; [by split |]);
    simpl; rewrite Hs; by split.
Qed.

Lemma raw_event_settled c td run a :
  stopped a = false →
  match raw_event Hangup c td run a with
  | Some r => settled r
  | None => True
  end.
Proof.
  intros Hs. unfold raw_event.
  destruct (future_ a) as [| value | error]; [done | |].
  - pose proof (loop_settled c run a Hs) as [Hc Hl].
    destruct (loop c run a) as [a' calls]. split; simpl in *.
    + by rewrite count_cons.
    + intros H. specialize (Hl H). destruct calls; [done |]. exact Hl.
  - case_decide; [destruct (td_is_authorized td) |]; by split.
Qed.

Lemma resume_settled c : ∀ wakes a,
  stopped a = false → settled (resume Hangup c wakes a).
Proof.
  induction wakes as [| w wakes IH]; intros a Hs.
  { split; simpl; [by rewrite Hs | congruence]. }
  simpl. rewrite Hs.
  pose proof (raw_event_settled c (wake_td w) (wake_run w)
                (resolve (wake_result w) a) Hs) as Hr.
  destruct (raw_event Hangup c (wake_td w) (wake_run w)
              (resolve (wake_result w) a)) as [[a' calls] |];
    [| split; simpl; [by rewrite Hs | congruence]].
  destruct Hr as [Hc Hl]. simpl in Hc, Hl.
  destruct (stopped a') eqn:Hs'.
  - rewrite resume_stopped by done. rewrite app_nil_r.
    split; simpl; [by rewrite Hs' | auto].
  - destruct (IH a' Hs') as [Hc' Hl'].
    destruct (resume Hangup c wakes a') as [a'' calls'].
    unfold settled. simpl in *.
    split; [rewrite count_app; lia |].
    intros H. specialize (Hl' H). rewrite last_app. by rewrite Hl'.
Qed.

(** X9: whatever the subclass and the collaborators do ([do_run]
    resolving or not, wake-ups with values or errors, in any number),
    an executor of either class sends exactly one terminal message
    (result or error) if it ends up stopped and none while it is still
    waiting; in particular never two.  Its last call is then [stop],
    so nothing follows the terminal message but the stop. *)
Theorem X9_one_terminal_message_per_executor c run wakes a :
  stopped a = false →
  let r := start Hangup c run wakes a in
  count is_terminal r.2 = (if stopped r.1 then 1 else 0)
  ∧ count is_terminal r.2 ≤ 1
  ∧ (stopped r.1 = true → last r.2 = Some stop_call).
Proof.
  intros Hs r.
  assert (H : settled r).
  { subst r. unfold start.
    pose proof (loop_settled c run a Hs) as [Hc Hl].
    destruct (loop c run a) as [a' calls]. simpl in Hc, Hl.
    destruct (stopped a') eqn:Hs'.
    - rewrite resume_stopped by done. rewrite app_nil_r.
      split; simpl; [by rewrite Hs' | auto].
    - destruct (resume_settled c wakes a' Hs') as [Hc' Hl'].
      destruct (resume Hangup c wakes a') as [a'' calls'].
      unfold settled. simpl in *.
      split; [rewrite count_app; lia |].
      intros H. specialize (Hl' H). rewrite last_app. by rewrite Hl'. }
  destruct H as [Hc Hl]. split; [done | split; [| done]].
  rewrite Hc. destruct (stopped r.1); lia.
Qed.

Lemma retrying_loop_count run a :
  (1 ≤ tries_left_ a < 2 ^ 31)%Z → stopped a = false →
  count is_do_run (RequestActor_loop run a).2
  + (if stopped (RequestActor_loop run a).1 then 0
     else Z.to_nat (tries_left_ (RequestActor_loop run a).1))
  ≤ Z.to_nat (tries_left_ a)
  ∧ (stopped (RequestActor_loop run a).1 = false →
     (1 ≤ tries_left_ (RequestActor_loop run a).1 < 2 ^ 31)%Z).
Proof.
  intros Hr Hs. unfold RequestActor_loop.
  destruct run as [| value | error]; simpl;
    [| rewrite ?count_cons; simpl; split; [lia | done]..].
  rewrite pre_decrement_in_range by lia.
  destruct (tries_left_ a - 1 =? 0)%Z eqn:E; simpl.
  - rewrite ?count_cons; simpl. split; [lia | done].
  - rewrite Hs. rewrite ?count_cons; simpl. split; lia.
Qed.

Lemma retrying_resume_count : ∀ wakes a,
  (stopped a = false → (1 ≤ tries_left_ a < 2 ^ 31)%Z) →
  count is_do_run (resume Hangup Retrying wakes a).2
  ≤ (if stopped a then 0 else Z.to_nat (tries_left_ a)).
Proof.
  induction wakes as [| w wakes IH]; intros a Hr;
    [unfold count; simpl; lia |].
  simpl. destruct (stopped a) eqn:Hs; [unfold count; simpl; lia |].
  specialize (Hr eq_refl). unfold raw_event.
  destruct (wake_result w) as [value | error]; simpl.
  - pose proof (retrying_loop_count (wake_run w) (resolve (inl value) a) Hr Hs)
      as [Hc Hr'].
    destruct (RequestActor_loop (wake_run w) (resolve (inl value) a))
      as [a' calls].
    specialize (IH a' Hr').
    destruct (resume Hangup Retrying wakes a') as [a'' calls']. simpl in *.
    rewrite count_cons, count_app. simpl. lia.
  - assert (Hst : ∀ calls, count is_do_run calls = 0 →
                count is_do_run
                  (let '(a'', calls') :=
                     resume Hangup Retrying wakes (stop (resolve (inr error) a))
                   in (a'', calls ++ calls')).2 = 0).
    { intros calls Hc. rewrite resume_stopped by done. simpl.
      by rewrite app_nil_r. }
    case_decide; [destruct (td_is_authorized (wake_td w)) |];
      rewrite Hst; try lia; by rewrite !count_cons.
Qed.

(** X10: the retry counter bounds the work of a [RequestActor] whatever
    happens: for a budget of [n] tries (1 or more), [do_run] is called
    at most [n] times, whether its promises are resolved at once,
    later, with values or with errors, or never. *)
Theorem X10_retry_counter_bounds_do_run run wakes a :
  (1 ≤ tries_left_ a < 2 ^ 31)%Z → stopped a = false →
  count is_do_run (start Hangup Retrying run wakes a).2
  ≤ Z.to_nat (tries_left_ a).
Proof.
  intros Hr Hs. unfold start, loop.
  pose proof (retrying_loop_count run a Hr Hs) as [Hc Hr'].
  destruct (RequestActor_loop run a) as [a' calls].
  pose proof (retrying_resume_count wakes a' Hr') as Hw.
  destruct (resume Hangup Retrying wakes a') as [a'' calls']. simpl in *.
  rewrite count_app. lia.
Qed.

End ExecutorRuns.

Lemma X9_one_terminal_message_per_executor_witness :
  Executor.stopped change_sticker_set_request = false
  ∧ Executor.count Executor.is_terminal
      (Executor.start some_hangup Executor.Once Executor.future_waiting
         [Executor.mkWake td_running (inl tt) (Executor.future_error flood_wait);
          Executor.mkWake td_running (inl tt) Executor.future_waiting]
         change_sticker_set_request).2
    ≤ 1.
Proof.
  split; [done |].
  apply (X9_one_terminal_message_per_executor some_hangup Executor.Once
           Executor.future_waiting
           [Executor.mkWake td_running (inl tt) (Executor.future_error flood_wait);
            Executor.mkWake td_running (inl tt) Executor.future_waiting]
           change_sticker_set_request).
  done.
Defined.

Lemma X10_retry_counter_bounds_do_run_witness :
  (1 ≤ 3 < 2 ^ 31)%Z
  ∧ Executor.count Executor.is_do_run
      (Executor.start some_hangup Executor.Retrying Executor.future_waiting
         [Executor.mkWake td_running (inl tt) Executor.future_waiting;
          Executor.mkWake td_running (inl tt) (Executor.future_ok tt)]
         change_sticker_set_request).2
    ≤ Z.to_nat 3.
Proof.
  split; [lia |].
  apply (X10_retry_counter_bounds_do_run some_hangup Executor.future_waiting
           [Executor.mkWake td_running (inl tt) Executor.future_waiting;
            Executor.mkWake td_running (inl tt) (Executor.future_ok tt)]
           change_sticker_set_request); [simpl; lia | done].
Defined.

(** X11: [GetAccountTtlRequest], started with the default budget.  If
    the contacts manager leaves the promise pending, nothing is sent;
    when the promise is then fulfilled with a value, the request stores
    it, runs [do_run] once more, which answers from the stored value
    without asking the contacts manager again, and sends an
    [accountTtl] with exactly that value; when it fails with an error
    other than the hangup status, that error is sent.  A promise
    resolved before [do_run] returns gives the same replies at once.
    Whatever [account_ttl_] held before is never sent. *)
Theorem X11_account_ttl_is_what_the_manager_said
    Hangup td request_id account_ttl value later error :
  let r0 := AccountTtl.new request_id account_ttl in
  let waiting := (AccountTtl.loop Executor.future_waiting r0).1.1 in
  (AccountTtl.loop Executor.future_waiting r0).2 = []
  ∧ Executor.stopped (AccountTtl.actor waiting) = false
  ∧ snd <$> AccountTtl.raw_event Hangup td later (inl value) waiting
    = Some [AccountTtl.reply_accountTtl value]
  ∧ (λ x, x.1.2) <$> AccountTtl.raw_event Hangup td later (inl value) waiting
    = Some [Executor.do_set_result_call value; Executor.do_run_call 1;
            Executor.do_set_result_call value; Executor.do_send_result_call;
            Executor.stop_call]
  ∧ (error ≠ Hangup →
     snd <$> AccountTtl.raw_event Hangup td later (inr error) waiting
     = Some [AccountTtl.reply_error error])
  ∧ (AccountTtl.loop (Executor.future_ok value) r0).2
    = [AccountTtl.reply_accountTtl value]
  ∧ (AccountTtl.loop (Executor.future_error error) r0).2
    = [AccountTtl.reply_error error].
Proof.
  repeat split; try reflexivity.
  intros Hne. unfold AccountTtl.raw_event, Executor.raw_event. simpl.
  by rewrite decide_False.
Qed.

Lemma X11_account_ttl_is_what_the_manager_said_witness :
  flood_wait ≠ some_hangup
  ∧ snd <$> AccountTtl.raw_event some_hangup td_running Executor.future_waiting
              (inr flood_wait)
              (AccountTtl.loop Executor.future_waiting (AccountTtl.new 7 0)).1.1
    = Some [AccountTtl.reply_error flood_wait].
Proof.
  split; [done |].
  apply (X11_account_ttl_is_what_the_manager_said some_hangup td_running 7 0 0
           Executor.future_waiting flood_wait).
  done.
Defined.

(** ** Fixing the parameters *)

Section FixParametersFacts.

Import Parameters.
Variable TD_DIR_SLASH : Ascii.ascii.
Variable mkpath : string → option Status.
Variable realpath : string → Status + string.
Variable status_text : Status → string.

Let fix_parameters := fix_parameters TD_DIR_SLASH mkpath realpath status_text.

(** X12: [fix_parameters] never runs into the [CHECK] of
    [prepare_dir]: the directories it prepares are never empty.
    Whatever it returns, an error or OK, the parameters it leaves have
    the databases consistent (the message database switches the chat
    info database on, which switches the file database on) and keep the
    api id and hash.  It returns OK only for a non-zero [api_id] and a
    non-empty [api_hash], and then the two directories are the real
    paths of the given ones, "." standing in for an empty database
    directory and the database directory for an empty files directory,
    each asked for with a trailing separator. *)
Theorem X12_fix_parameters parameters :
  ∃ status fixed,
    fix_parameters parameters = returned (status, fixed)
    ∧ databases_consistent fixed
    ∧ api_id fixed = api_id parameters ∧ api_hash fixed = api_hash parameters
    ∧ (use_message_db fixed = use_message_db parameters)
    ∧ (status = None →
       api_id parameters ≠ 0%Z ∧ api_hash parameters ≠ ""
       ∧ realpath (with_slash TD_DIR_SLASH
                     (database_directory_or_default parameters))
         = inr (database_directory fixed)
       ∧ realpath (with_slash TD_DIR_SLASH
                     (files_directory_or_default parameters))
         = inr (files_directory fixed)).
Proof.
  subst fix_parameters. unfold Parameters.fix_parameters.
  set (p1 := if decide (database_directory parameters = "")
             then set_database_directory "." parameters else parameters).
  set (p2 := if decide (files_directory p1 = "")
             then set_files_directory (database_directory p1) p1 else p1).
  set (p3 := if use_message_db p2 then set_use_chat_info_db true p2 else p2).
  set (p4 := if use_chat_info_db p3 then set_use_file_db true p3 else p3).
  assert (Hdb : database_directory p4 = database_directory_or_default parameters).
  { unfold p4, p3, p2, p1, database_directory_or_default.
    repeat (case_decide || case_match); done. }
  assert (Hfi : files_directory p4 = files_directory_or_default parameters).
  { unfold p4, p3, p2, p1, files_directory_or_default,
      database_directory_or_default.
    repeat (case_decide || case_match); simpl in *; congruence. }
  assert (Hdb_ne : database_directory p4 ≠ "").
  { rewrite Hdb. unfold database_directory_or_default. by case_decide. }
  assert (Hfi_ne : files_directory p4 ≠ "").
  { rewrite Hfi. unfold files_directory_or_default, database_directory_or_default.
    repeat case_decide; done. }
  assert (Hcons : databases_consistent p4).
  { unfold databases_consistent, p4, p3.
    destruct (use_message_db p2) eqn:E1; simpl;
      destruct (use_chat_info_db p2) eqn:E2; simpl; rewrite ?E1, ?E2; simpl;
      split; congruence. }
  assert (Hkeep : api_id p4 = api_id parameters
                  ∧ api_hash p4 = api_hash parameters
                  ∧ use_message_db p4 = use_message_db parameters).
  { unfold p4, p3, p2, p1. repeat (case_decide || case_match); done. }
  destruct Hkeep as (Hid & Hhash & Hmsg).
  destruct (api_id p4 =? 0)%Z eqn:Eid.
  { eexists _, _. split; [done |]. repeat split; try done; apply Hcons. }
  case_decide as Ehash.
  { eexists _, _. split; [done |]. repeat split; try done; apply Hcons. }
  unfold prepare_dir. rewrite decide_False by done.
  destruct (mkpath (with_slash TD_DIR_SLASH (database_directory p4))) as [e |] eqn:Emk.
  { eexists _, _. split; [done |]. repeat split; try done; apply Hcons. }
  destruct (realpath (with_slash TD_DIR_SLASH (database_directory p4)))
    as [e | real] eqn:Ereal.
  { eexists _, _. split; [done |]. repeat split; try done; apply Hcons. }
  cbn [files_directory set_database_directory]. rewrite decide_False by done.
  destruct (mkpath (with_slash TD_DIR_SLASH (files_directory p4))) as [e |] eqn:Emk2.
  { eexists _, _. split; [done |]. repeat split; try done; apply Hcons. }
  destruct (realpath (with_slash TD_DIR_SLASH (files_directory p4)))
    as [e | real2] eqn:Ereal2.
  { eexists _, _. split; [done |]. repeat split; try done; apply Hcons. }
  eexists _, _. split; [done |]. simpl.
  repeat split; try done; try apply Hcons.
  - intros H0. rewrite <- Hid in H0. lia.
  - congruence.
  - by rewrite <- Hdb.
  - by rewrite <- Hfi.
Qed.

End FixParametersFacts.

Lemma X12_fix_parameters_witness :
  ∃ status fixed,
    Parameters.fix_parameters (Ascii.ascii_of_nat 47) (λ _, None) inr
      status_message Parameters.some_parameters
    = Parameters.returned (status, fixed)
    ∧ Parameters.databases_consistent fixed.
Proof.
  destruct (X12_fix_parameters (Ascii.ascii_of_nat 47) (λ _, None) inr
              status_message Parameters.some_parameters)
    as (status & fixed & H1 & H2 & _).
  exists status, fixed. split; [exact H1 | exact H2].
Defined.

(** ** Requests in state [Decrypt] *)

Section KeyOperations.

Variable set_td_parameters : td_api.tdlibParameters → M (option Status).
Variable init init' : string → M (option Status).
Variable on_request : N → td_api.Function → M unit.

(** X13: requests that arrive while the database key is awaited
    (state [Decrypt], non-zero id).  Checking a key and setting a key
    are the same operation, and the bring-up is never given an empty
    key: what [init] would do with one has no influence.  When the
    bring-up returns, its status is not sent but posted to the façade
    itself; once that closure is run the request is answered, with
    "ok" or with the error of the bring-up, exactly once.  "Query
    state" is answered with "waiting for the key"; every operation
    other than these, close and destroy is refused with 401 and
    nothing else happens. *)
Theorem X13_requests_awaiting_the_key id key f td :
  id ≠ 0%N → state_ td = Decrypt →
  (∀ k, k ≠ "" → init k = init' k) →
  let request := Facade.request set_td_parameters init on_request in
  let pending := set_request_set_ ({[id]} ∪ request_set_ td) td in
  request id (Some (td_api.checkDatabaseEncryptionKey key)) td
  = Facade.request set_td_parameters init' on_request id
      (Some (td_api.setDatabaseEncryptionKey key)) td
  ∧ (∀ evs status td',
       init (Facade.as_db_key key) pending = (evs, Done status td') →
       id ∈ request_set_ td' →
       ∃ c,
         request id (Some (td_api.checkDatabaseEncryptionKey key)) td
         = (evs ++ [send_closure_self false c], Done tt td')
         ∧ run_closure c td'
           = ([status_answer id status],
              Done tt (set_request_set_ (request_set_ td' ∖ {[id]}) td')))
  ∧ request id (Some td_api.getAuthorizationState) td
    = ([callback_on_result id
          (td_api.authorizationStateWaitEncryptionKey
             (encryption_info_is_encrypted td))],
       Done tt (set_request_set_ (request_set_ td ∖ {[id]}) td))
  ∧ (is_getAuthorizationState f = false → is_key_operation f = false →
     is_close_or_destroy f = false →
     request id (Some f) td
     = ([callback_on_error id 401 "Database encryption key is needed"],
        Done tt (set_request_set_ (request_set_ td ∖ {[id]}) td))).
Proof.
  intros Hz Hs Hinit request pending.
  assert (Hkey : Facade.as_db_key key ≠ "").
  { unfold Facade.as_db_key. by case_decide. }
  assert (Hrun : ∀ g, request id (Some g) td
    = match g with
      | td_api.getAuthorizationState =>
          send_result id
            (Some (td_api.authorizationStateWaitEncryptionKey
                     (encryption_info_is_encrypted td))) pending
      | td_api.checkDatabaseEncryptionKey k
      | td_api.setDatabaseEncryptionKey k =>
          (status ← init (Facade.as_db_key k); answer_ok_query id status) pending
      | td_api.close => close pending
      | td_api.destroy => destroy pending
      | _ => send_error_raw id 401 "Database encryption key is needed" pending
      end).
  { intros g. unfold request, Facade.request. rewrite run_modify.
    rewrite (uint64_is_zero_ne _ Hz), run_get.
    change (state_ (set_request_set_ _ td)) with (state_ td). rewrite Hs.
    by destruct g. }
  repeat split.
  - rewrite Hrun. unfold Facade.request. rewrite run_modify.
    rewrite (uint64_is_zero_ne _ Hz), run_get.
    change (state_ (set_request_set_ _ td)) with (state_ td). rewrite Hs.
    by rewrite (Hinit _ Hkey).
  - intros evs status td' Hi Hin.
    exists (match status with
            | Some e => closure_send_error id e
            | None => closure_send_result id td_api.ok
            end).
    split.
    + rewrite Hrun. rewrite run_bind, Hi. cbn [fst snd].
      unfold answer_ok_query. by destruct status.
    + destruct status as [e |]; cbn [run_closure status_answer].
      * unfold send_error. by rewrite send_error_impl_in.
      * by rewrite send_result_in.
  - rewrite Hrun. by apply send_result_inserted.
  - intros Hg Hk Hc. rewrite Hrun.
    destruct f; try done; by apply send_error_raw_inserted.
Qed.

End KeyOperations.

Lemma X13_requests_awaiting_the_key_witness :
  Facade.request set_td_parameters_ok init_ok on_request_none 7
    (Some (td_api.checkDatabaseEncryptionKey "")) (set_state_ Decrypt td_waiting)
  = Facade.request set_td_parameters_ok
      (λ key, if decide (key = "") then fatal "empty key" else init_ok key)
      on_request_none 7
      (Some (td_api.setDatabaseEncryptionKey "")) (set_state_ Decrypt td_waiting).
Proof.
  destruct (X13_requests_awaiting_the_key set_td_parameters_ok init_ok
              (λ key, if decide (key = "") then fatal "empty key"
                      else init_ok key)
              on_request_none 7 "" td_api.close (set_state_ Decrypt td_waiting))
    as [H _]; [done | done | | exact H].
  intros k Hk. by rewrite decide_False.
Defined.

(** ** Alarms *)

Lemma static_cast_round_trip (id : N) :
  (id < 2 ^ 64)%N → static_cast_uint64 (static_cast_int64 id) = id.
Proof.
  intros Hid. unfold static_cast_uint64, static_cast_int64.
  assert (Hz : (0 ≤ Z.of_N id < 2 ^ 64)%Z) by lia.
  rewrite (Z.mod_small (Z.of_N id)) by lia.
  destruct (Z.ltb_spec (Z.of_N id) (2 ^ 63)).
  - rewrite Z.mod_small by lia. lia.
  - replace (Z.of_N id - 2 ^ 64)%Z with (Z.of_N id + (-1) * 2 ^ 64)%Z by lia.
    rewrite Z.mod_add by lia. rewrite Z.mod_small by lia. lia.
Qed.

Lemma static_cast_int64_zero (id : N) :
  (id < 2 ^ 64)%N → static_cast_int64 id = 0%Z → id = 0%N.
Proof.
  intros Hid. unfold static_cast_int64.
  rewrite (Z.mod_small (Z.of_N id)) by lia.
  destruct (Z.ltb_spec (Z.of_N id) (2 ^ 63)); lia.
Qed.

(** X14: an alarm set for a pending request answers that request, and
    only it.  For a delay that is not below 0 and not above 3e9 (a NaN
    is neither) [setAlarm] arms the timer and sends nothing; the key
    it uses is never 0, the key of the online timer, and when the timer
    fires with that key the request is answered with "ok", once: a
    second firing, or one after the shutdown has answered the request,
    sends nothing.  This holds for ids above 2^63 too, whose key is
    negative.  Any other delay is refused with 400 and no timer is
    armed. *)
Theorem X14_alarm_answers_its_request fresh id seconds td :
  (0 < id < 2 ^ 64)%N → id ∈ request_set_ td →
  let answered := set_request_set_ (request_set_ td ∖ {[id]}) td in
  (Alarm.refused seconds = true →
   Alarm.setAlarm id seconds td
   = ([callback_on_error id 400 "Wrong parameter seconds specified"],
      Done None answered))
  ∧ (Alarm.refused seconds = false →
     ∃ key,
       Alarm.setAlarm id seconds td
       = ([global "alarm_timeout_.set_timeout_in"], Done (Some (key, seconds)) td)
       ∧ key ≠ 0%Z
       ∧ on_alarm_timeout fresh key td
         = ([callback_on_result id td_api.ok], Done tt answered)
       ∧ on_alarm_timeout fresh key answered = ([], Done tt answered)).
Proof.
  intros [Hpos Hid] Hin answered. split; intros Hs; unfold Alarm.setAlarm; rewrite Hs.
  - rewrite run_bind. unfold send_error_raw.
    rewrite send_error_impl_in by (done || lia). done.
  - exists (static_cast_int64 id). split; [done |].
    assert (Hk : static_cast_int64 id ≠ 0%Z).
    { intros H0. apply static_cast_int64_zero in H0; lia. }
    split; [done |]. unfold on_alarm_timeout.
    rewrite (proj2 (Z.eqb_neq _ _) Hk), static_cast_round_trip by done.
    split.
    + rewrite send_result_in by (done || lia). done.
    + rewrite send_result_notin; [done | lia |]. simpl. set_solver.
Qed.

Lemma X14_alarm_answers_its_request_witness :
  ∃ key,
    Alarm.setAlarm (2 ^ 63 + 5) PrimFloat.nan
      (set_request_set_ {[(2 ^ 63 + 5)%N]} td_running)
    = ([global "alarm_timeout_.set_timeout_in"],
       Done (Some (key, PrimFloat.nan))
         (set_request_set_ {[(2 ^ 63 + 5)%N]} td_running))
    ∧ key ≠ 0%Z.
Proof.
  destruct (X14_alarm_answers_its_request (0%N, 0%nat) (2 ^ 63 + 5) PrimFloat.nan
              (set_request_set_ {[(2 ^ 63 + 5)%N]} td_running))
    as [_ H].
  - lia.
  - simpl. set_solver.
  - destruct (H eq_refl) as (key & H1 & H2 & _). by exists key.
Defined.

(** ** The shutdown and the request executors *)

Lemma dec_request_actor_refcnt_more td :
  request_actor_refcnt_ td ≠ 1%Z →
  dec_request_actor_refcnt td
  = ([], Done tt (set_request_actor_refcnt_ (request_actor_refcnt_ td - 1) td)).
Proof.
  intros Hr. unfold dec_request_actor_refcnt. rewrite run_modify, run_get.
  cbn [request_actor_refcnt_ set_request_actor_refcnt_].
  by rewrite (proj2 (Z.eqb_neq _ _)) by lia.
Qed.

Lemma hangups_wait : ∀ (k : nat) td,
  request_actor_refcnt_ td = Z.of_nat (S k) →
  hangups k td
  = (replicate k (reset "request_actors_ slot"),
     Done tt (set_request_actor_refcnt_ 1 td)).
Proof.
  induction k as [| k IH]; intros td Hr.
  - simpl. unfold skip, mret, M_ret. f_equal. f_equal.
    destruct td. simpl in *. by subst.
  - change (hangups (S k)) with (hangup_shared RequestActorIdType;; hangups k).
    rewrite run_bind. unfold hangup_shared. rewrite run_emit.
    rewrite dec_request_actor_refcnt_more by lia. cbn [fst snd].
    rewrite IH by (simpl; lia). done.
Qed.

(** X15: the shutdown waits for the request executors.  When a close
    or destroy starts with [k + 1] executors alive, the release of
    their guard and the end of [k] of them change nothing but the
    counter: no pending request is answered, no handler is dropped and
    the façade stays at stage 1.  The end of the last executor starts
    the second stage, in which every pending request is answered with
    the closing error. *)
Theorem X15_shutdown_waits_for_the_executors (k : nat) destroy_flag td :
  close_flag_ td = 0%Z → State_is_Decrypt (state_ td) = false →
  request_actor_refcnt_ td = Z.of_nat (S (S k)) →
  0%N ∉ request_set_ td →
  let destroying := destroy_flag_ td || destroy_flag in
  let td1 := set_request_actor_refcnt_ 1
               (set_close_flag_ 1
                  (set_state_ Close (set_destroy_flag_ destroying td))) in
  (close_impl destroy_flag;; dec_request_actor_refcnt;; hangups k) td
  = (close_started_events ++ replicate k (reset "request_actors_ slot"),
     Done tt td1)
  ∧ ∃ ids td2,
      ids ≡ₚ elements (request_set_ td)
      ∧ hangup_shared RequestActorIdType td1
        = (reset "request_actors_ slot"
             :: LOG WARNING "no request actors"
             :: clear_events (set_destroy_flag_ destroying td) ids,
           Done tt td2)
      ∧ (2 ≤ close_flag_ td2)%Z ∧ request_set_ td2 = ∅
      ∧ result_handlers_ td2 = [].
Proof.
  intros Hc Hs Hr Hz destroying td1. split.
  - rewrite run_bind, close_impl_starts by done. cbn [fst snd].
    rewrite run_bind, dec_request_actor_refcnt_more by (simpl; lia).
    cbn [fst snd].
    rewrite hangups_wait by (simpl; lia). done.
  - destruct (dec_request_actor_refcnt_last td1) as (ids & Hids & Hdec);
      [done | done | done |].
    exists ids. eexists. split; [exact Hids |].
    unfold hangup_shared. rewrite run_emit, Hdec. cbn [fst snd].
    split; [reflexivity |].
    destruct (actor_refcnt_ td1 =? 1)%Z; done.
Qed.

Lemma X15_shutdown_waits_for_the_executors_witness :
  (close_impl false;; dec_request_actor_refcnt;; hangups 3)
    (set_request_actor_refcnt_ 5 td_running)
  = (close_started_events ++ replicate 3 (reset "request_actors_ slot"),
     Done tt (set_request_actor_refcnt_ 1
                (set_close_flag_ 1
                   (set_state_ Close
                      (set_destroy_flag_ (destroy_flag_ td_running || false)
                         (set_request_actor_refcnt_ 5 td_running)))))).
Proof.
  apply (X15_shutdown_waits_for_the_executors 3 false
           (set_request_actor_refcnt_ 5 td_running)); done.
Defined.

(** ** Setting an option *)

Section SetOptionFacts.

Import Options.
Import Stdlib.Strings.Ascii.
Variable clean_input_string : string → option string.

Lemma on_online_updated_quiet fresh force send_update auth_manager td :
  auth_manager_ td = Some auth_manager →
  ∃ evs td',
    on_online_updated fresh force send_update td = (evs, Done tt td')
    ∧ Forall quiet evs ∧ request_set_ td' = request_set_ td.
Proof.
  intros Ha. unfold on_online_updated. rewrite run_get, Ha.
  destruct (2 <=? close_flag_ td)%Z; [by eexists _, _ |].
  destruct (is_bot auth_manager || negb (is_authorized auth_manager));
    [by eexists _, _ |].
  unfold ResultHandler_send_query, add_handler.
  destruct (force || is_online_ td), (is_online_ td);
    eexists _, _; (split; [reflexivity |]); split; try done;
    repeat constructor.
Qed.

Lemma refuse_run {A} (a : A) id code message td :
  id ≠ 0%N → id ∈ request_set_ td →
  (send_error_raw id code message;; mret a) td
  = ([callback_on_error id code message],
     Done a (set_request_set_ (request_set_ td ∖ {[id]}) td)).
Proof.
  intros Hz Hin. rewrite run_bind. unfold send_error_raw.
  by rewrite send_error_impl_in.
Qed.

Lemma can't_be_set_refused id td :
  id ≠ 0%N → id ∈ request_set_ td →
  refused id 3 td
    ((send_error_raw id 3 "Option can't be set";; mret []) td).
Proof. intros. eexists. by apply refuse_run. Qed.

Lemma accept_run {A} (a : A) e td : (emit e;; mret a) td = ([e], Done a td).
Proof. reflexivity. Qed.

Lemma or_else_handled tried rest td evs calls td' :
  tried td = (evs, Done (true, calls) td') →
  or_else tried rest td = (evs, Done calls td').
Proof.
  intros H. unfold or_else. rewrite run_bind, H. simpl. by rewrite app_nil_r.
Qed.

Lemma or_else_passed tried rest td :
  tried td = ([], Done (false, []) td) → or_else tried rest td = rest td.
Proof.
  intros H. unfold or_else. rewrite run_bind, H. simpl. by destruct (rest td).
Qed.

Lemma accepted_call id name call td :
  allowed name call → accepted id name td ([post_ok id], Done [call] td).
Proof.
  intros Hcall. exists [], [call], td. simpl.
  split; [done |]. split; [constructor |]. split; [done |].
  right. split; [done |]. split; [done |]. by exists call.
Qed.

Lemma or_else_boolean id name value option rest td :
  id ≠ 0%N → id ∈ request_set_ td → option ∈ boolean_options →
  refused id 3 td (rest td) ∨ accepted id name td (rest td) →
  refused id 3 td (or_else (set_boolean_option id name value option) rest td)
  ∨ accepted id name td
      (or_else (set_boolean_option id name value option) rest td).
Proof.
  intros Hz Hin Hopt Hrest.
  destruct (decide (name = option)) as [-> | Hname].
  - destruct value as [b | | v | s].
    + right. erewrite or_else_handled; last first.
      { unfold set_boolean_option. rewrite decide_True by done. apply accept_run. }
      apply accepted_call. split; [done |]. right. left. by split.
    + right. erewrite or_else_handled; last first.
      { unfold set_boolean_option. rewrite decide_True by done. apply accept_run. }
      apply accepted_call. split; [done |]. right. left. by split.
    + left. erewrite or_else_handled; last first.
      { unfold set_boolean_option. rewrite decide_True by done.
        by apply refuse_run. }
      by eexists.
    + left. erewrite or_else_handled; last first.
      { unfold set_boolean_option. rewrite decide_True by done.
        by apply refuse_run. }
      by eexists.
  - rewrite or_else_passed; [done |].
    unfold set_boolean_option. by rewrite decide_False.
Qed.

Lemma or_else_integer id name value option max rest td :
  id ≠ 0%N → id ∈ request_set_ td → (option, max) ∈ integer_options →
  refused id 3 td (rest td) ∨ accepted id name td (rest td) →
  refused id 3 td
    (or_else (set_integer_option id name value option 0 max) rest td)
  ∨ accepted id name td
      (or_else (set_integer_option id name value option 0 max) rest td).
Proof.
  intros Hz Hin Hopt Hrest.
  destruct (decide (name = option)) as [-> | Hname].
  - destruct value as [b | | v | s].
    + left. erewrite or_else_handled; last first.
      { unfold set_integer_option. rewrite decide_True by done.
        by apply refuse_run. }
      by eexists.
    + right. erewrite or_else_handled; last first.
      { unfold set_integer_option. rewrite decide_True by done. apply accept_run. }
      apply accepted_call. split; [done |]. right. right. by exists max.
    + destruct ((v <? 0)%Z || (max <? v)%Z) eqn:Hrange.
      * left. erewrite or_else_handled; last first.
        { unfold set_integer_option. rewrite decide_True, Hrange by done.
          by apply refuse_run. }
        by eexists.
      * right. erewrite or_else_handled; last first.
        { unfold set_integer_option. rewrite decide_True, Hrange by done.
          apply accept_run. }
        apply accepted_call. split; [done |]. right. right. exists max.
        split; [done |]. apply orb_false_iff in Hrange as [H1 H2].
        apply Z.ltb_ge in H1, H2. lia.
    + left. erewrite or_else_handled; last first.
      { unfold set_integer_option. rewrite decide_True by done.
        by apply refuse_run. }
      by eexists.
  - rewrite or_else_passed; [done |].
    unfold set_integer_option. by rewrite decide_False.
Qed.

Lemma online_accepted fresh id (is_online : bool) td :
  auth_manager_ td ≠ None →
  accepted id "online" td
    ((td ← get;
      match auth_manager_ td with
      | None => fatal "auth_manager_ is empty"
      | Some auth_manager =>
          (if is_bot auth_manager then skip
           else emit (global "StateManager::on_online"));;
          (if Bool.eqb is_online (is_online_ td) then skip
           else modify (set_is_online_ is_online);;
                on_online_updated fresh true true);;
          emit (post_ok id);;
          mret []
      end) td).
Proof.
  intros Ham. rewrite run_get.
  destruct (auth_manager_ td) as [auth_manager |] eqn:Ea; [| done].
  assert (Hrest : ∃ evs td',
    ((if Bool.eqb is_online (is_online_ td) then skip
      else modify (set_is_online_ is_online);;
           on_online_updated fresh true true);;
     emit (post_ok id);; mret ([] : list ConfigCall)) td
    = (evs ++ [post_ok id], Done [] td')
    ∧ Forall quiet evs ∧ request_set_ td' = request_set_ td).
  { destruct (Bool.eqb is_online (is_online_ td)).
    - exists [], td. rewrite run_skip. by repeat split.
    - destruct (on_online_updated_quiet fresh true true auth_manager
                  (set_is_online_ is_online td) Ea)
        as (evs & td' & Hrun & Hq & Hrs).
      exists evs, td'. rewrite run_bind, run_modify, Hrun. by repeat split. }
  destruct Hrest as (evs & td' & Hrun & Hq & Hrs).
  destruct (is_bot auth_manager).
  - rewrite run_skip, Hrun. exists evs, [], td'.
    repeat split; [done | done |]. by left.
  - rewrite run_emit, Hrun.
    exists (global "StateManager::on_online" :: evs), [], td'.
    repeat split; [by constructor | done |]. by left.
Qed.

(** X16: every request to set an option is answered once, and the
    shared configuration is written only for a request that is
    accepted.  A name that is not UTF-8 is refused with 400.
    Otherwise the request is either refused with 3, at once, and
    nothing is written; or "ok" is posted, the request stays pending
    until that closure runs, and exactly one call is made on the shared
    configuration: for the cleaned name, which is then one of the
    library's options or starts with [x] or [X] and has at most 255
    bytes; a boolean option is given a boolean or emptied, an integer
    option is given a value within its range (0 to 50 for
    [session_count]) or emptied.  The option "online" is never written
    to the shared configuration. *)
Theorem X16_set_option_answers_once fresh id name value td :
  id ≠ 0%N → id ∈ request_set_ td → auth_manager_ td ≠ None →
  let r := setOption clean_input_string fresh id name value td in
  match clean_input_string name with
  | None => refused id 400 td r
  | Some cleaned => refused id 3 td r ∨ accepted id cleaned td r
  end.
Proof.
  intros Hz Hin Ham r. subst r. unfold setOption.
  destruct (clean_input_string name) as [cleaned |];
    [| eexists; by apply refuse_run].
  cbv zeta.
  assert (Hcant := can't_be_set_refused id td Hz Hin).
  destruct (decide (name_0 cleaned = "d"%char)) as [Hd | Hd].
  { apply or_else_boolean; try done; [set_solver | by left]. }
  destruct (decide (name_0 cleaned = "o"%char)) as [Ho | Ho].
  { destruct (decide (cleaned = "online")) as [-> | Hname]; [| by left].
    destruct (value_or_empty value) as [b | | v | s].
    - right. by apply online_accepted.
    - right. by apply online_accepted.
    - left. eexists. by apply refuse_run.
    - left. eexists. by apply refuse_run. }
  destruct (decide (name_0 cleaned = "s"%char)) as [Hs | Hs].
  { repeat (apply or_else_integer; [done | done | set_solver |]). by left. }
  destruct (bool_decide (name_0 cleaned = "X"%char)
            || bool_decide (name_0 cleaned = "x"%char)) eqn:Hx.
  { destruct (Nat.ltb_spec 255 (String.length cleaned)) as [Hlong | Hshort].
    - left. eexists. by apply refuse_run.
    - right. rewrite accept_run. apply accepted_call.
      split; [by destruct (value_or_empty value) |]. left.
      split; [| lia]. unfold is_custom. by rewrite orb_comm. }
  destruct (decide (name_0 cleaned = "u"%char)) as [Hu | Hu]; [| by left].
  repeat (apply or_else_boolean; [done | done | set_solver |]). by left.
Qed.

End SetOptionFacts.

Lemma X16_set_option_answers_once_witness :
  let td := set_request_set_ {[7%N]} td_running in
  let r := Options.setOption Some (0%N, 0%nat) 7 "session_count"
             (Some (Options.optionValueInteger 50)) td in
  Options.refused 7 3 td r ∨ Options.accepted 7 "session_count" td r.
Proof.
  apply (X16_set_option_answers_once Some (0%N, 0%nat) 7 "session_count"
           (Some (Options.optionValueInteger 50))
           (set_request_set_ {[7%N]} td_running)); [done | | done].
  simpl. set_solver.
Defined.
